(** * The in-memory document collection of the Mergington High School API

    A shallow embedding of [InMemoryCollection] (src/backend/database.py)
    and the properties its specification states about it.

    Python values are dynamically typed, so the embedding carries a small
    universe of JSON-like values and the built-in operations the class
    performs on them ([==], [<], [in], subscription, iteration), each with
    the exception Python raises when an operand has the wrong shape.

    Boundaries of the value universe: numbers are integers (no floats),
    strings are sequences of code points below 256, and mapping keys are
    strings, as in every document the application stores. *)

From Stdlib Require Import String Ascii ZArith Bool List Lia.
From Stdlib Require Import Permutation Sorted OrdersEx.
Import ListNotations.
Local Open Scope string_scope.
Local Open Scope Z_scope.
Local Open Scope list_scope.

(** ** Exceptions and fallible computations *)

Inductive exn : Set :=
| ValueError
| TypeError
| AttributeError
| IndexError
| KeyError.

Inductive result (A : Type) : Type :=
| Ok (a : A)
| Raise (e : exn).

Arguments Ok {A} a.
Arguments Raise {A} e.

Definition rbind {A B : Type} (c : result A) (k : A -> result B) : result B :=
  match c with
  | Ok a => k a
  | Raise e => Raise e
  end.

Declare Scope py_scope.
Delimit Scope py_scope with py.
Notation "x <- c ;; k" := (rbind c (fun x => k))
  (at level 61, c at next level, right associativity) : py_scope.
Local Open Scope py_scope.

Definition is_ok {A : Type} (r : result A) : bool :=
  match r with Ok _ => true | Raise _ => false end.

(** ** Insertion-ordered dictionaries

    A Python [dict] keeps its keys in insertion order; assigning to a key
    that is already present replaces the value and keeps both the stored
    key object and its position.  [eqb stored probe] is the key equality. *)

Section OrderedDict.
Context {K V : Type}.
Variable eqb : K -> K -> bool.

Fixpoint od_get (k : K) (d : list (K * V)) : option V :=
  match d with
  | [] => None
  | (k0, v0) :: d' => if eqb k0 k then Some v0 else od_get k d'
  end.

Definition od_mem (k : K) (d : list (K * V)) : bool :=
  match od_get k d with Some _ => true | None => false end.

Definition od_get_default (k : K) (dflt : V) (d : list (K * V)) : V :=
  match od_get k d with Some v => v | None => dflt end.

Fixpoint od_set (k : K) (v : V) (d : list (K * V)) : list (K * V) :=
  match d with
  | [] => [(k, v)]
  | (k0, v0) :: d' =>
      if eqb k0 k then (k0, v) :: d' else (k0, v0) :: od_set k v d'
  end.

Fixpoint od_pop (k : K) (d : list (K * V)) : list (K * V) :=
  match d with
  | [] => []
  | (k0, v0) :: d' => if eqb k0 k then d' else (k0, v0) :: od_pop k d'
  end.

(** Keys of a dictionary are pairwise different. *)
Fixpoint od_wf (d : list (K * V)) : bool :=
  match d with
  | [] => true
  | (k0, _) :: d' => negb (od_mem k0 d') && od_wf d'
  end.
End OrderedDict.

(** ** Values *)

#[warnings="-register-all"]
Inductive value : Type :=
| VNone
| VBool (b : bool)
| VInt (z : Z)
| VStr (s : string)
| VList (l : list value)
| VDict (d : list (string * value)).

(** A document, a query and an update are all [Dict[str, Any]]. *)
Definition dict : Type := list (string * value).

Definition dget (k : string) (d : dict) : option value := od_get String.eqb k d.
Definition dmem (k : string) (d : dict) : bool := od_mem String.eqb k d.
Definition dset (k : string) (v : value) (d : dict) : dict := od_set String.eqb k v d.
Definition dpop (k : string) (d : dict) : dict := od_pop String.eqb k d.
Definition dict_wf (d : dict) : bool := od_wf String.eqb d.

(** [bool] is a subclass of [int]: [True == 1] and [False == 0]. *)
Definition num_of (v : value) : option Z :=
  match v with
  | VBool b => Some (if b then 1 else 0)
  | VInt z => Some z
  | _ => None
  end.

(** Python's [a == b]; it never raises on these values.  Mappings compare
    regardless of key order: same size, and every key of the left operand
    bound to an equal value in the right one. *)
Fixpoint py_eq (a b : value) {struct a} : bool :=
  match a, b with
  | VNone, VNone => true
  | VStr s, VStr t => String.eqb s t
  | VList l1, VList l2 =>
      (fix eq_list (xs ys : list value) {struct xs} : bool :=
         match xs, ys with
         | [], [] => true
         | x :: xs', y :: ys' => py_eq x y && eq_list xs' ys'
         | _, _ => false
         end) l1 l2
  | VDict d1, VDict d2 =>
      Nat.eqb (List.length d1) (List.length d2) &&
      (fix eq_items (items : list (string * value)) {struct items} : bool :=
         match items with
         | [] => true
         | (k, v) :: items' =>
             match dget k d2 with
             | Some v' => py_eq v v'
             | None => false
             end && eq_items items'
         end) d1
  | (VBool _ | VInt _), (VBool _ | VInt _) =>
      match num_of a, num_of b with
      | Some x, Some y => Z.eqb x y
      | _, _ => false
      end
  | _, _ => false
  end.

(** Python's [a < b]: defined between two numbers, two strings (by code
    point, lexicographically) and two lists; [TypeError] otherwise. *)
Fixpoint py_lt (a b : value) {struct a} : result bool :=
  match a, b with
  | VStr s, VStr t => Ok (String.ltb s t)
  | VList l1, VList l2 =>
      (fix lt_list (xs ys : list value) {struct xs} : result bool :=
         match xs, ys with
         | [], [] => Ok false
         | [], _ :: _ => Ok true
         | _ :: _, [] => Ok false
         | x :: xs', y :: ys' =>
             if py_eq x y then lt_list xs' ys' else py_lt x y
         end) l1 l2
  | (VBool _ | VInt _), (VBool _ | VInt _) =>
      match num_of a, num_of b with
      | Some x, Some y => Ok (Z.ltb x y)
      | _, _ => Raise TypeError
      end
  | _, _ => Raise TypeError
  end.

(** [a > b] is the reflected [b < a]. *)
Definition py_gt (a b : value) : result bool := py_lt b a.

(** Lists and mappings are the unhashable values. *)
Definition hashable (v : value) : bool :=
  match v with
  | VList _ | VDict _ => false
  | _ => true
  end.

(** [t in s] for two strings: [t] occurs in [s] as a substring. *)
Fixpoint is_substring (t s : string) : bool :=
  String.prefix t s ||
  match s with
  | EmptyString => false
  | String _ s' => is_substring t s'
  end.

Fixpoint chars_of (s : string) : list value :=
  match s with
  | EmptyString => []
  | String c s' => VStr (String c EmptyString) :: chars_of s'
  end.

(** [item in container]. *)
Definition py_contains (container item : value) : result bool :=
  match container with
  | VList l => Ok (existsb (fun e => py_eq e item) l)
  | VStr s =>
      match item with
      | VStr t => Ok (is_substring t s)
      | _ => Raise TypeError
      end
  | VDict d =>
      if hashable item then
        match item with
        | VStr k => Ok (dmem k d)
        | _ => Ok false
        end
      else Raise TypeError
  | _ => Raise TypeError
  end.

(** Sequence indexing with Python's negative indices. *)
Definition seq_index {A : Type} (l : list A) (i : Z) : result A :=
  let n := Z.of_nat (List.length l) in
  let j := if i <? 0 then i + n else i in
  if (j <? 0) || (n <=? j) then Raise IndexError
  else match nth_error l (Z.to_nat j) with
       | Some x => Ok x
       | None => Raise IndexError
       end.

(** [container[key]]. *)
Definition py_getitem (container key : value) : result value :=
  match container with
  | VDict d =>
      if hashable key then
        match key with
        | VStr k =>
            match dget k d with
            | Some v => Ok v
            | None => Raise KeyError
            end
        | _ => Raise KeyError
        end
      else Raise TypeError
  | VList l =>
      match num_of key with
      | Some i => seq_index l i
      | None => Raise TypeError
      end
  | VStr s =>
      match num_of key with
      | Some i => seq_index (chars_of s) i
      | None => Raise TypeError
      end
  | _ => Raise TypeError
  end.

(** [value.get(key, default)]: only mappings have a [get] method. *)
Definition py_get (v : value) (key : string) (dflt : value) : result value :=
  match v with
  | VDict d => Ok (od_get_default String.eqb key dflt d)
  | _ => Raise AttributeError
  end.

(** [value.items()]: only mappings have an [items] method. *)
Definition py_items (v : value) : result dict :=
  match v with
  | VDict d => Ok d
  | _ => Raise AttributeError
  end.

(** [for x in value]. *)
Definition py_iter (v : value) : result (list value) :=
  match v with
  | VList l => Ok l
  | VStr s => Ok (chars_of s)
  | VDict d => Ok (map (fun kv => VStr (fst kv)) d)
  | _ => Raise TypeError
  end.

(** Values hold no references, so a deep copy is the value itself. *)
Definition deepcopy {A : Type} (x : A) : A := x.

(** ** The collection

    [InMemoryCollection] has one attribute, [self.data], a dictionary from
    identifiers to document bodies.  Its keys are looked up by hash and
    [==]; hashing a list or a mapping raises [TypeError]. *)

Definition store : Type := list (value * dict).

Definition sget (k : value) (s : store) : option dict := od_get py_eq k s.
Definition smem (k : value) (s : store) : bool := od_mem py_eq k s.
Definition sset (k : value) (d : dict) (s : store) : store := od_set py_eq k d s.
Definition spop (k : value) (s : store) : store := od_pop py_eq k s.

(** [self.data.get(key)] *)
Definition data_get (self : store) (key : value) : result (option dict) :=
  if hashable key then Ok (sget key self) else Raise TypeError.

(** [key in self.data] *)
Definition data_contains (self : store) (key : value) : result bool :=
  if hashable key then Ok (smem key self) else Raise TypeError.

(** The objects built by [type('obj', (object,), {...})]. *)
Record InsertOneResult : Type := { inserted_id : value }.
Record UpdateResult : Type := { modified_count : Z }.

(** *** find_one *)

(** Truth value of an optional mapping: [None] and [{}] are false. *)
Definition truthy (doc : option dict) : bool :=
  match doc with
  | None | Some [] => false
  | Some (_ :: _) => true
  end.

Definition find_one (self : store) (query : dict) : result (option dict) :=
  if dmem "_id" query then
    qid <- py_getitem (VDict query) (VStr "_id") ;;
    doc <- data_get self qid ;;
    match doc with
    | Some d =>
        if truthy doc then
          let result := deepcopy d in
          let result := dset "_id" qid result in
          Ok (Some result)
        else Ok None
    | None => Ok None
    end
  else Ok None.

(** *** find *)

(** [doc.get("schedule_details", {}).get(field, default)] *)
Definition schedule_field (doc : dict) (field : string) (dflt : value)
  : result value :=
  py_get (od_get_default String.eqb "schedule_details" (VDict []) doc) field dflt.

(** The three filter blocks of the loop body; each takes the current
    [match] flag and returns the new one. *)
Definition filter_days (query doc : dict) (match_ : bool) : result bool :=
  if dmem "schedule_details.days" query then
    days_query <- py_getitem (VDict query) (VStr "schedule_details.days") ;;
    has_in <- py_contains days_query (VStr "$in") ;;
    if has_in then
      in_list <- py_getitem days_query (VStr "$in") ;;
      required_day <- py_getitem in_list (VInt 0) ;;
      days <- schedule_field doc "days" (VList []) ;;
      found <- py_contains days required_day ;;
      if negb found then Ok false else Ok match_
    else Ok match_
  else Ok match_.

Definition filter_start_time (query doc : dict) (match_ : bool) : result bool :=
  if dmem "schedule_details.start_time" query && match_ then
    start_time_query <- py_getitem (VDict query) (VStr "schedule_details.start_time") ;;
    has_gte <- py_contains start_time_query (VStr "$gte") ;;
    if has_gte then
      required_time <- py_getitem start_time_query (VStr "$gte") ;;
      actual_time <- schedule_field doc "start_time" (VStr EmptyString) ;;
      early <- py_lt actual_time required_time ;;
      if early then Ok false else Ok match_
    else Ok match_
  else Ok match_.

Definition filter_end_time (query doc : dict) (match_ : bool) : result bool :=
  if dmem "schedule_details.end_time" query && match_ then
    end_time_query <- py_getitem (VDict query) (VStr "schedule_details.end_time") ;;
    has_lte <- py_contains end_time_query (VStr "$lte") ;;
    if has_lte then
      required_time <- py_getitem end_time_query (VStr "$lte") ;;
      actual_time <- schedule_field doc "end_time" (VStr EmptyString) ;;
      late <- py_gt actual_time required_time ;;
      if late then Ok false else Ok match_
    else Ok match_
  else Ok match_.

(** The value of [match] at the end of one iteration. *)
Definition doc_matches (query doc : dict) : result bool :=
  m <- filter_days query doc true ;;
  m <- filter_start_time query doc m ;;
  filter_end_time query doc m.

(** The document handed out for a stored pair. *)
Definition attach_id (item : value * dict) : dict :=
  let result := deepcopy (snd item) in
  dset "_id" (fst item) result.

Fixpoint find_loop (query : dict) (items : store) (results : list dict)
  : result (list dict) :=
  match items with
  | [] => Ok results
  | (doc_id, doc) :: items' =>
      m <- doc_matches query doc ;;
      find_loop query items'
        (if m then results ++ [attach_id (doc_id, doc)] else results)
  end.

Definition find (self : store) (query : option dict) : result (list dict) :=
  let query := match query with None => [] | Some q => q end in
  find_loop query self [].

(** *** insert_one

    The stored dictionary is returned with the outcome; a call that raises
    before the assignment leaves it as it was. *)

Definition insert_one (self : store) (document : dict)
  : store * result InsertOneResult :=
  let doc_id := od_get_default String.eqb "_id" VNone document in
  match doc_id with
  | VNone => (self, Raise ValueError)
  | _ =>
      let doc_copy := deepcopy document in
      let doc_copy := dpop "_id" doc_copy in
      if hashable doc_id
      then (sset doc_id doc_copy self, Ok {| inserted_id := doc_id |})
      else (self, Raise TypeError)
  end.

(** *** update_one

    The operator blocks mutate the stored document in place, so the
    document is threaded as state and survives an exception: what was
    changed before the exception stays changed. *)

Definition doc_op (A : Type) : Type := dict -> dict * result A.

Definition op_ret {A : Type} (a : A) : doc_op A := fun doc => (doc, Ok a).
Definition op_lift {A : Type} (r : result A) : doc_op A := fun doc => (doc, r).
Definition op_bind {A B : Type} (c : doc_op A) (k : A -> doc_op B) : doc_op B :=
  fun doc =>
    match c doc with
    | (doc', Ok a) => k a doc'
    | (doc', Raise e) => (doc', Raise e)
    end.

Declare Scope op_scope.
Delimit Scope op_scope with op.
Notation "x <~ c ;; k" := (op_bind c (fun x => k))
  (at level 61, c at next level, right associativity) : op_scope.
Notation "c ;;; k" := (op_bind c (fun _ => k))
  (at level 61, right associativity) : op_scope.

Fixpoint op_for {A : Type} (items : list A) (body : A -> doc_op unit)
  : doc_op unit :=
  match items with
  | [] => op_ret tt
  | x :: items' => op_bind (body x) (fun _ => op_for items' body)
  end.

(** [if key not in doc: doc[key] = []] then [doc[key].append(value)];
    only a list has [append]. *)
Definition push_item (kv : string * value) : doc_op unit :=
  fun doc =>
    let (key, value) := kv in
    let doc := if negb (dmem key doc) then dset key (VList []) doc else doc in
    match dget key doc with
    | Some (VList l) => (dset key (VList (l ++ [value])) doc, Ok tt)
    | _ => (doc, Raise AttributeError)
    end.

(** [if key in doc and isinstance(doc[key], list):
       doc[key] = [item for item in doc[key] if item != value]] *)
Definition pull_item (kv : string * value) : doc_op unit :=
  fun doc =>
    let (key, value) := kv in
    match dget key doc with
    | Some (VList l) =>
        (dset key (VList (filter (fun item => negb (py_eq item value)) l)) doc, Ok tt)
    | _ => (doc, Ok tt)
    end.

(** [doc[key] = value] *)
Definition set_item (kv : string * value) : doc_op unit :=
  fun doc => let (key, value) := kv in (dset key value doc, Ok tt).

(** One operator block: [if op in update: for key, value in
    update[op].items(): ...]. *)
Definition operator_block (op : string) (update : dict)
    (body : string * value -> doc_op unit) : doc_op unit :=
  if dmem op update then
    (operand <~ op_lift (py_getitem (VDict update) (VStr op)) ;;
     items <~ op_lift (py_items operand) ;;
     op_for items body)%op
  else op_ret tt.

Definition apply_update (update : dict) : doc_op unit :=
  (operator_block "$push" update push_item ;;;
   operator_block "$pull" update pull_item ;;;
   operator_block "$set" update set_item)%op.

Definition update_one (self : store) (query update : dict)
  : store * result UpdateResult :=
  if negb (dmem "_id" query) then (self, Ok {| modified_count := 0 |})
  else
    match py_getitem (VDict query) (VStr "_id") with
    | Raise e => (self, Raise e)
    | Ok doc_id =>
        match data_contains self doc_id with
        | Raise e => (self, Raise e)
        | Ok false => (self, Ok {| modified_count := 0 |})
        | Ok true =>
            match sget doc_id self with          (* [self.data[doc_id]] *)
            | None => (self, Raise KeyError)
            | Some doc =>
                match apply_update update doc with
                | (doc', Ok _) =>
                    (sset doc_id doc' self, Ok {| modified_count := 1 |})
                | (doc', Raise e) => (sset doc_id doc' self, Raise e)
                end
            end
        end
    end.

(** *** count_documents *)

Definition count_documents (self : store) (query : option dict) : result Z :=
  match query with
  | None | Some [] => Ok (Z.of_nat (List.length self))
  | Some q =>
      found <- find self (Some q) ;;
      Ok (Z.of_nat (List.length found))
  end.

(** *** aggregate *)

(** [if {"_id": day} not in results: results.append({"_id": day})] *)
Definition add_day (results : list dict) (day : value) : list dict :=
  let entry := [("_id", day)] in
  if existsb (fun r => py_eq (VDict r) (VDict entry)) results
  then results
  else results ++ [entry].

(** The body of the loop over [self.data.items()]. *)
Definition collect_days (results : list dict) (doc : dict) : result (list dict) :=
  if dmem "schedule_details" doc then
    sd <- py_getitem (VDict doc) (VStr "schedule_details") ;;
    has_days <- py_contains sd (VStr "days") ;;
    if has_days then
      days <- py_getitem sd (VStr "days") ;;
      day_list <- py_iter days ;;
      Ok (fold_left add_day day_list results)
    else Ok results
  else Ok results.

Fixpoint aggregate_loop (items : store) (results : list dict)
  : result (list dict) :=
  match items with
  | [] => Ok results
  | (_, doc) :: items' =>
      results' <- collect_days results doc ;;
      aggregate_loop items' results'
  end.

(** [results.sort(key=lambda x: x["_id"])]: a stable sort that compares
    keys with [<] only.  An element goes in front of the first element
    whose key is greater than its own. *)
Definition sort_key (x : dict) : result value :=
  py_getitem (VDict x) (VStr "_id").

Fixpoint sort_insert (x : dict) (sorted : list dict) : result (list dict) :=
  match sorted with
  | [] => Ok [x]
  | y :: sorted' =>
      kx <- sort_key x ;;
      ky <- sort_key y ;;
      before <- py_lt kx ky ;;
      if before then Ok (x :: y :: sorted')
      else (rest <- sort_insert x sorted' ;; Ok (y :: rest))
  end.

Fixpoint sort_loop (items sorted : list dict) : result (list dict) :=
  match items with
  | [] => Ok sorted
  | x :: items' =>
      sorted' <- sort_insert x sorted ;;
      sort_loop items' sorted'
  end.

Definition list_sort (items : list dict) : result (list dict) :=
  sort_loop items [].

Definition aggregate (self : store) (pipeline : list dict) : result (list dict) :=
  results <- aggregate_loop self [] ;;
  list_sort results.

(** ** Running the operations on the specification's examples *)

Definition Monday_doc : dict :=
  [("_id", VStr "a");
   ("schedule_details",
    VDict [("days", VList [VStr "Monday"]);
           ("start_time", VStr "08:00"); ("end_time", VStr "09:00")])].

Definition Tuesday_doc : dict :=
  [("_id", VStr "b");
   ("schedule_details",
    VDict [("days", VList [VStr "Tuesday"]);
           ("start_time", VStr "10:00"); ("end_time", VStr "11:00")])].

Definition insert_all (self : store) (documents : list dict) : store :=
  fold_left (fun s d => fst (insert_one s d)) documents self.

Definition two_activities : store := insert_all [] [Monday_doc; Tuesday_doc].

(** ** Vocabulary of the specification

    Normal forms of keys, the shapes of documents, queries and updates
    the specification words its contracts for, and the operators and
    filters as it words them. *)

Definition any_string (k : string) : Prop := True.

(** Hashable values are equal for [==] exactly when they have the same
    normal form: [True] and [1] are the same key. *)
Inductive hkey : Type :=
| KNone
| KNum (z : Z)
| KStr (s : string).

Definition key_norm (v : value) : option hkey :=
  match v with
  | VNone => Some KNone
  | VBool b => Some (KNum (if b then 1 else 0))
  | VInt z => Some (KNum z)
  | VStr s => Some (KStr s)
  | VList _ | VDict _ => None
  end.

Definition is_hashable (v : value) : Prop := hashable v = true.

(** Well-formed collections: hashable, pairwise different identifiers. *)
Definition store_wf (s : store) : Prop :=
  Forall (fun item => is_hashable (fst item)) s /\ od_wf py_eq s = true.

(** The collections the application can build: the operations of the
    class, and the removal [self.data.pop(key, None)] that the
    announcement router performs on the dictionary itself. *)
Inductive reachable : store -> Prop :=
| reachable_empty : reachable []
| reachable_insert (self : store) (document : dict) :
    reachable self -> reachable (fst (insert_one self document))
| reachable_update (self : store) (query update : dict) :
    reachable self -> reachable (fst (update_one self query update))
| reachable_pop (self : store) (key : value) :
    reachable self -> reachable (spop key self).

(** What can be said of a document by looking fields up: two documents
    with the same bindings are equal as Python mappings. *)
Definition same_bindings (d1 d2 : dict) : Prop :=
  forall k, dget k d1 = dget k d2.

Definition doc_id_of (document : dict) : value :=
  od_get_default String.eqb "_id" VNone document.

(** [$push]: append to the field's sequence, an absent field counting as
    the empty sequence. *)
Definition push_field (doc : dict) (kv : string * value) : dict :=
  match dget (fst kv) doc with
  | Some (VList l) => dset (fst kv) (VList (l ++ [snd kv])) doc
  | None => dset (fst kv) (VList [snd kv]) doc
  | Some _ => doc
  end.

(** [$pull]: when the field holds a sequence, drop every element equal to
    the value. *)
Definition pull_field (doc : dict) (kv : string * value) : dict :=
  match dget (fst kv) doc with
  | Some (VList l) =>
      dset (fst kv) (VList (filter (fun item => negb (py_eq item (snd kv))) l)) doc
  | _ => doc
  end.

(** [$set]: assign the value to the field. *)
Definition set_field (doc : dict) (kv : string * value) : dict :=
  dset (fst kv) (snd kv) doc.

(** The field→value pairs of an operator; none when it is not given. *)
Definition operand (op : string) (update : dict) : dict :=
  match dget op update with
  | Some (VDict items) => items
  | _ => []
  end.

Definition push_then_pull_then_set (update doc : dict) : dict :=
  let doc := fold_left push_field (operand "$push" update) doc in
  let doc := fold_left pull_field (operand "$pull" update) doc in
  fold_left set_field (operand "$set" update) doc.

(** Shapes under which the contract of the operators is defined: an
    operator that is given holds a mapping, and [$push] names fields that
    are absent or hold a sequence. *)
Definition mapping_or_absent (v : option value) : bool :=
  match v with
  | None | Some (VDict _) => true
  | Some _ => false
  end.

Definition pushable (doc : dict) (kv : string * value) : bool :=
  match dget (fst kv) doc with
  | None | Some (VList _) => true
  | Some _ => false
  end.

Definition update_ok (update doc : dict) : bool :=
  mapping_or_absent (dget "$push" update) &&
  mapping_or_absent (dget "$pull" update) &&
  mapping_or_absent (dget "$set" update) &&
  forallb (pushable doc) (operand "$push" update).

(** The update of the specification's example, in both key orders. *)
Definition tags_store : store := [(VStr "x", [("tags", VList [VStr "a"])])].
Definition named_store : store := [(VStr "x", [("name", VStr "a")])].
Definition push_b : string * value := ("$push", VDict [("tags", VStr "b")]).
Definition pull_b : string * value := ("$pull", VDict [("tags", VStr "b")]).

(** The nested field [schedule_details.field] of a document. *)
Definition nested (doc : dict) (field : string) : option value :=
  match dget "schedule_details" doc with
  | Some (VDict sd) => dget field sd
  | _ => None
  end.

(** The nested days sequence; no days when there is none. *)
Definition doc_days (doc : dict) : list value :=
  match nested doc "days" with
  | Some (VList days) => days
  | _ => []
  end.

(** A nested time; the empty string when there is none. *)
Definition doc_time (doc : dict) (field : string) : string :=
  match nested doc field with
  | Some (VStr t) => t
  | _ => EmptyString
  end.

(** The day asked for by [{"schedule_details.days": {"$in": [day, ...]}}]:
    the first element of the list. *)
Definition days_filter (query : dict) : option value :=
  match dget "schedule_details.days" query with
  | Some (VDict days_query) =>
      match dget "$in" days_query with
      | Some (VList (day :: _)) => Some day
      | _ => None
      end
  | _ => None
  end.

(** The time asked for by [{key: {op: t}}]. *)
Definition time_filter (key op : string) (query : dict) : option string :=
  match dget key query with
  | Some (VDict time_query) =>
      match dget op time_query with
      | Some (VStr t) => Some t
      | _ => None
      end
  | _ => None
  end.

Definition satisfies_days (query doc : dict) : bool :=
  match days_filter query with
  | Some day => existsb (fun d => py_eq d day) (doc_days doc)
  | None => true
  end.

(** start_time >= t *)
Definition satisfies_start (query doc : dict) : bool :=
  match time_filter "schedule_details.start_time" "$gte" query with
  | Some t => String.leb t (doc_time doc "start_time")
  | None => true
  end.

(** end_time <= t *)
Definition satisfies_end (query doc : dict) : bool :=
  match time_filter "schedule_details.end_time" "$lte" query with
  | Some t => String.leb (doc_time doc "end_time") t
  | None => true
  end.

Definition satisfies (query doc : dict) : bool :=
  satisfies_days query doc && satisfies_start query doc && satisfies_end query doc.

(** Shapes the filters are worded for.  In a document, [schedule_details]
    is a mapping whose [days] is a sequence and whose times are strings,
    each possibly absent.  In a query, a filter that is given is a
    mapping; its [$in] is a sequence with a first element and its bound
    is a string. *)
Definition absent_or (shape : value -> bool) (v : option value) : bool :=
  match v with
  | None => true
  | Some x => shape x
  end.

Definition is_list (v : value) : bool :=
  match v with VList _ => true | _ => false end.
Definition is_nonempty_list (v : value) : bool :=
  match v with VList (_ :: _) => true | _ => false end.
Definition is_str (v : value) : bool :=
  match v with VStr _ => true | _ => false end.

Definition doc_shape_ok (doc : dict) : bool :=
  absent_or (fun sd =>
    match sd with
    | VDict sd =>
        absent_or is_list (dget "days" sd) &&
        absent_or is_str (dget "start_time" sd) &&
        absent_or is_str (dget "end_time" sd)
    | _ => false
    end) (dget "schedule_details" doc).

Definition filter_shape_ok (key op : string) (shape : value -> bool)
    (query : dict) : bool :=
  absent_or (fun fq =>
    match fq with
    | VDict fq => absent_or shape (dget op fq)
    | _ => false
    end) (dget key query).

Definition query_shape_ok (query : dict) : bool :=
  filter_shape_ok "schedule_details.days" "$in" is_nonempty_list query &&
  filter_shape_ok "schedule_details.start_time" "$gte" is_str query &&
  filter_shape_ok "schedule_details.end_time" "$lte" is_str query.

Definition store_shape_ok (self : store) : bool :=
  forallb (fun item => doc_shape_ok (snd item)) self.

Definition days_in (days : list value) : dict :=
  [("schedule_details.days", VDict [("$in", VList days)])].
Definition start_gte (t : value) : dict :=
  [("schedule_details.start_time", VDict [("$gte", t)])].
Definition end_lte (t : value) : dict :=
  [("schedule_details.end_time", VDict [("$lte", t)])].

(** [schedule_details] is absent, or is a mapping without the field. *)
Definition field_absent (doc : dict) (field : string) : bool :=
  match dget "schedule_details" doc with
  | None => true
  | Some (VDict sd) => negb (dmem field sd)
  | Some _ => false
  end.

Definition no_schedule_doc : dict := [("_id", VStr "c"); ("description", VStr "Art")].

Definition nonempty (doc : dict) : Prop := doc <> [].

Definition renamed_store : store := [(VStr "x", [("n", VInt 1)])].
Definition rename_update : dict := [("$set", VDict [("_id", VStr "y")])].

Definition str_lt (a b : string) : Prop := String.ltb a b = true.

Definition entry_of (day : string) : dict := [("_id", VStr day)].

Definition dedup_add (seen : list string) (day : string) : list string :=
  if existsb (fun d => String.eqb d day) seen then seen else seen ++ [day].

Fixpoint insert_str (x : string) (sorted : list string) : list string :=
  match sorted with
  | [] => [x]
  | y :: sorted' =>
      if String.ltb x y then x :: y :: sorted' else y :: insert_str x sorted'
  end.

Definition sort_str (items : list string) : list string :=
  fold_left (fun sorted x => insert_str x sorted) items [].

(** Shape the aggregation is worded for: [schedule_details], when given,
    is a mapping, and its [days], when given, is a sequence of strings. *)
Definition doc_days_ok (doc : dict) : bool :=
  absent_or (fun sd =>
    match sd with
    | VDict sd =>
        absent_or (fun days =>
          match days with
          | VList l => forallb is_str l
          | _ => false
          end) (dget "days" sd)
    | _ => false
    end) (dget "schedule_details" doc).

Definition store_days_ok (self : store) : bool :=
  forallb (fun item => doc_days_ok (snd item)) self.

Definition all_days (self : store) : list value :=
  flat_map (fun item => doc_days (snd item)) self.

Definition str_of (v : value) : string :=
  match v with
  | VStr s => s
  | _ => EmptyString
  end.

Definition Monday_Friday_store : store :=
  insert_all []
    [[("_id", VStr "a");
      ("schedule_details", VDict [("days", VList [VStr "Monday"; VStr "Friday"])])];
     [("_id", VStr "b");
      ("schedule_details", VDict [("days", VList [VStr "Friday"])])]].

(** [insert_one] accepts the document. *)
Definition insertable (document : dict) : bool :=
  match doc_id_of document with
  | VNone => false
  | doc_id => hashable doc_id
  end.

Definition same_identifier (d1 d2 : dict) : bool :=
  py_eq (doc_id_of d1) (doc_id_of d2).

(** The documents of a sequence of insertions that no later insertion
    of the sequence replaces. *)
Fixpoint not_overwritten (documents : list dict) : list dict :=
  match documents with
  | [] => []
  | d :: later =>
      if existsb (same_identifier d) later
      then not_overwritten later
      else d :: not_overwritten later
  end.

(** A document whose identifier is not yet in the collection, and one
    whose identifier is neither there nor equal to [k]. *)
Definition fresh (self : store) (d : dict) : bool :=
  negb (smem (doc_id_of d) self).

Definition fresh_after (self : store) (k : value) (d : dict) : bool :=
  negb (smem (doc_id_of d) self || py_eq k (doc_id_of d)).

(** ** The application around the collections

    [init_database] (src/backend/database.py) and the announcement
    endpoints (src/backend/routers/announcements.py).  The module-level
    collections form the state.  What the code takes from outside the
    repository is an input of the model: the seed tables (their passwords
    are Argon2 hashes), the clock ([date.today], [datetime.utcnow]), the
    generated [uuid4] and the parser [datetime.fromisoformat], of which
    only acceptance matters ([True] when it returns, [ValueError]
    otherwise). *)

Record database : Type := {
  activities_collection : store;
  teachers_collection : store;
  announcements_collection : store
}.

Definition set_announcements (db : database) (s : store) : database :=
  {| activities_collection := activities_collection db;
     teachers_collection := teachers_collection db;
     announcements_collection := s |}.

(** The truth value of a Python value. *)
Definition py_truthy (v : value) : bool :=
  match v with
  | VNone => false
  | VBool b => b
  | VInt z => negb (z =? 0)
  | VStr EmptyString => false
  | VStr (String _ _) => true
  | VList [] => false
  | VList (_ :: _) => true
  | VDict [] => false
  | VDict (_ :: _) => true
  end.

(** *** init_database *)

(** [{**base, **extra}] as a dictionary display builds it: the items in
    order, a repeated key keeping its place and taking the later value. *)
Definition dict_unpack (base extra : dict) : dict :=
  fold_left (fun d kv => dset (fst kv) (snd kv) d) extra base.

(** [for item in items: collection.insert_one(build(item))], where
    building the document or inserting it may raise. *)
Fixpoint seed_loop {A : Type} (build : A -> result dict)
    (self : store) (items : list A) : store * result unit :=
  match items with
  | [] => (self, Ok tt)
  | item :: items' =>
      match build item with
      | Raise e => (self, Raise e)
      | Ok document =>
          match insert_one self document with
          | (self', Ok _) => seed_loop build self' items'
          | (self', Raise e) => (self', Raise e)
          end
      end
  end.

(** [if collection.count_documents({}) == 0: <seed loop>] *)
Definition seed_if_empty {A : Type} (build : A -> result dict)
    (self : store) (items : list A) : store * result unit :=
  match count_documents self (Some []) with
  | Raise e => (self, Raise e)
  | Ok n => if n =? 0 then seed_loop build self items else (self, Ok tt)
  end.

(** [{"_id": name, **details}] *)
Definition activity_document (entry : string * dict) : result dict :=
  Ok (dict_unpack [("_id", VStr (fst entry))] (snd entry)).

(** [{"_id": teacher["username"], **teacher}] *)
Definition teacher_document (teacher : dict) : result dict :=
  username <- py_getitem (VDict teacher) (VStr "username") ;;
  Ok (dict_unpack [("_id", username)] teacher).

Definition init_database
    (initial_activities : list (string * dict))
    (initial_teachers initial_announcements : list dict)
    (db : database) : database * result unit :=
  match seed_if_empty activity_document (activities_collection db)
          initial_activities with
  | (activities, Raise e) =>
      ({| activities_collection := activities;
          teachers_collection := teachers_collection db;
          announcements_collection := announcements_collection db |}, Raise e)
  | (activities, Ok _) =>
      match seed_if_empty teacher_document (teachers_collection db)
              initial_teachers with
      | (teachers, Raise e) =>
          ({| activities_collection := activities;
              teachers_collection := teachers;
              announcements_collection := announcements_collection db |},
           Raise e)
      | (teachers, Ok _) =>
          match seed_if_empty (fun a => Ok a) (announcements_collection db)
                  initial_announcements with
          | (announcements, r) =>
              ({| activities_collection := activities;
                  teachers_collection := teachers;
                  announcements_collection := announcements |}, r)
          end
      end
  end.

(** *** The announcement endpoints *)

(** What a handler gives back: a value, an [HTTPException], or another
    exception that it does not catch. *)
Inductive outcome (A : Type) : Type :=
| Return (a : A)
| HTTPException (status_code : Z) (detail : string)
| Uncaught (e : exn).

Arguments Return {A} a.
Arguments HTTPException {A} status_code detail.
Arguments Uncaught {A} e.

(** The request bodies.  Both classes name their fields [message],
    [start_date], [expiration_date]; those of [AnnouncementUpdate] carry
    a prefix here. *)
Record AnnouncementCreate : Type := {
  message : string;
  start_date : option string;
  expiration_date : string
}.

Record AnnouncementUpdate : Type := {
  update_message : option string;
  update_start_date : option string;
  update_expiration_date : option string
}.

(** A [str | None] attribute as a value. *)
Definition opt_str (o : option string) : value :=
  match o with
  | Some s => VStr s
  | None => VNone
  end.

Definition verify_authenticated_user (db : database) (username : string)
  : outcome dict :=
  match find_one (teachers_collection db) [("_id", VStr username)] with
  | Raise e => Uncaught e
  | Ok teacher =>
      match teacher with
      | Some t =>
          if negb (truthy teacher)
          then HTTPException 401 "Not authenticated"
          else Return t
      | None => HTTPException 401 "Not authenticated"
      end
  end.

(** [today] is [date.today().isoformat()]. *)
Definition is_announcement_active (announcement : dict) (today : string)
  : result bool :=
  expired <- py_lt (od_get_default String.eqb "expiration_date"
                      (VStr EmptyString) announcement) (VStr today) ;;
  if expired then Ok false
  else
    let start_date := od_get_default String.eqb "start_date" VNone announcement in
    if py_truthy start_date then
      later <- py_gt start_date (VStr today) ;;
      if later then Ok false else Ok true
    else Ok true.

(** The dictionary display of the comprehension. *)
Definition current_view (ann : dict) : result dict :=
  id <- py_getitem (VDict ann) (VStr "_id") ;;
  msg <- py_getitem (VDict ann) (VStr "message") ;;
  let start := od_get_default String.eqb "start_date" VNone ann in
  expiration <- py_getitem (VDict ann) (VStr "expiration_date") ;;
  Ok [("_id", id); ("message", msg); ("start_date", start);
      ("expiration_date", expiration)].

Fixpoint active_views (all_announcements : list dict) (today : string)
  : result (list dict) :=
  match all_announcements with
  | [] => Ok []
  | ann :: rest =>
      active <- is_announcement_active ann today ;;
      if active then
        view <- current_view ann ;;
        views <- active_views rest today ;;
        Ok (view :: views)
      else active_views rest today
  end.

Definition get_current_announcements (db : database) (today : string)
  : result (list dict) :=
  all_announcements <- find (announcements_collection db) (Some []) ;;
  active_views all_announcements today.

Definition get_all_announcements (db : database) (username : string)
  : outcome (list dict) :=
  match verify_authenticated_user db username with
  | HTTPException c d => HTTPException c d
  | Uncaught e => Uncaught e
  | Return _ =>
      match find (announcements_collection db) (Some []) with
      | Ok announcements => Return announcements
      | Raise e => Uncaught e
      end
  end.

(** The document that [create_announcement] builds; [uuid4] is the
    text of the generated identifier and [utcnow] that of
    [datetime.utcnow().isoformat()]. *)
Definition announcement_doc (announcement : AnnouncementCreate)
    (username uuid4 utcnow : string) : dict :=
  [("_id", VStr ("announcement-" ++ uuid4));
   ("message", VStr (message announcement));
   ("start_date", opt_str (start_date announcement));
   ("expiration_date", VStr (expiration_date announcement));
   ("created_by", VStr username);
   ("created_at", VStr (utcnow ++ "Z"))].

Definition create_announcement (fromisoformat : string -> bool)
    (db : database) (announcement : AnnouncementCreate)
    (username uuid4 utcnow : string) : database * outcome dict :=
  match verify_authenticated_user db username with
  | HTTPException c d => (db, HTTPException c d)
  | Uncaught e => (db, Uncaught e)
  | Return _ =>
      if negb (fromisoformat (expiration_date announcement)) then
        (db, HTTPException 400 "Invalid expiration_date format. Use YYYY-MM-DD")
      else if py_truthy (opt_str (start_date announcement)) &&
              negb (match start_date announcement with
                    | Some s => fromisoformat s
                    | None => true
                    end) then
        (db, HTTPException 400 "Invalid start_date format. Use YYYY-MM-DD")
      else
        let document := announcement_doc announcement username uuid4 utcnow in
        match insert_one (announcements_collection db) document with
        | (announcements, Ok _) =>
            (set_announcements db announcements, Return document)
        | (announcements, Raise e) =>
            (set_announcements db announcements, Uncaught e)
        end
  end.

(** The three blocks that fill [update_fields]; [None] stands for the
    [HTTPException] 400 of a date that does not parse. *)
Definition add_message (announcement : AnnouncementUpdate) (update_fields : dict)
  : dict :=
  match update_message announcement with
  | Some m => dset "message" (VStr m) update_fields
  | None => update_fields
  end.

Definition add_date (fromisoformat : string -> bool) (field : string)
    (given : option string) (update_fields : dict) : option dict :=
  match given with
  | Some d =>
      if fromisoformat d then Some (dset field (VStr d) update_fields) else None
  | None => Some update_fields
  end.

Definition update_announcement (fromisoformat : string -> bool)
    (db : database) (announcement_id : string)
    (announcement : AnnouncementUpdate) (username : string)
  : database * outcome (option dict) :=
  match verify_authenticated_user db username with
  | HTTPException c d => (db, HTTPException c d)
  | Uncaught e => (db, Uncaught e)
  | Return _ =>
      match find_one (announcements_collection db) [("_id", VStr announcement_id)] with
      | Raise e => (db, Uncaught e)
      | Ok existing =>
          if negb (truthy existing) then
            (db, HTTPException 404 "Announcement not found")
          else
            let update_fields := add_message announcement [] in
            match add_date fromisoformat "start_date"
                    (update_start_date announcement) update_fields with
            | None =>
                (db, HTTPException 400 "Invalid start_date format. Use YYYY-MM-DD")
            | Some update_fields =>
                match add_date fromisoformat "expiration_date"
                        (update_expiration_date announcement) update_fields with
                | None =>
                    (db, HTTPException 400
                           "Invalid expiration_date format. Use YYYY-MM-DD")
                | Some update_fields =>
                    if negb (py_truthy (VDict update_fields)) then
                      (db, HTTPException 400 "No fields to update")
                    else
                      match update_one (announcements_collection db)
                              [("_id", VStr announcement_id)]
                              [("$set", VDict update_fields)] with
                      | (announcements, Raise e) =>
                          (set_announcements db announcements, Uncaught e)
                      | (announcements, Ok _) =>
                          match find_one announcements
                                  [("_id", VStr announcement_id)] with
                          | Ok updated =>
                              (set_announcements db announcements, Return updated)
                          | Raise e =>
                              (set_announcements db announcements, Uncaught e)
                          end
                      end
                end
            end
      end
  end.

Definition delete_announcement (db : database) (announcement_id username : string)
  : database * outcome dict :=
  match verify_authenticated_user db username with
  | HTTPException c d => (db, HTTPException c d)
  | Uncaught e => (db, Uncaught e)
  | Return _ =>
      match find_one (announcements_collection db) [("_id", VStr announcement_id)] with
      | Raise e => (db, Uncaught e)
      | Ok existing =>
          if negb (truthy existing) then
            (db, HTTPException 404 "Announcement not found")
          else
            (set_announcements db
               (spop (VStr announcement_id) (announcements_collection db)),
             Return [("status", VStr "success");
                     ("message", VStr "Announcement deleted")])
      end
  end.


(** *** Vocabulary for the further properties *)

(** The loop body of [find] leaves [match] true for the document. *)
Definition keeps (query : dict) (item : value * dict) : bool :=
  match doc_matches query (snd item) with
  | Ok true => true
  | _ => false
  end.

Definition query_or_empty (query : option dict) : dict :=
  match query with
  | Some q => q
  | None => []
  end.

(** The sequence held by a field; empty when the field is absent. *)
Definition field_items (doc : dict) (key : string) : list value :=
  match dget key doc with
  | Some (VList l) => l
  | _ => []
  end.


(** A seeded activity as the collection holds it. *)
Definition stored_activity (entry : string * dict) : value * dict :=
  (VStr (fst entry), snd entry).

(** Seed tables as dictionary displays give them: distinct activity
    names, and details that are mappings without an identifier field. *)
Definition details_ok (entry : string * dict) : bool :=
  dict_wf (snd entry) && negb (dmem "_id" (snd entry)).

Definition failing_push_doc : dict :=
  [("tags", VList [VStr "a"]); ("name", VStr "n")].


(** Dates of an announcement as strings; a date that is absent or null
    counts as the empty string. *)
Definition date_of (ann : dict) (field : string) : string :=
  match dget field ann with
  | Some (VStr d) => d
  | _ => EmptyString
  end.

Definition is_str_or_none (v : value) : bool :=
  match v with
  | VNone | VStr _ => true
  | _ => false
  end.

(** Announcements as the endpoints store them: the expiration date is a
    string and the start date a string or null, each possibly absent. *)
Definition dates_ok (ann : dict) : bool :=
  absent_or is_str (dget "expiration_date" ann) &&
  absent_or is_str_or_none (dget "start_date" ann).

(** Not yet expired and already started on the day [today]. *)
Definition active_on (today : string) (ann : dict) : bool :=
  String.leb today (date_of ann "expiration_date") &&
  String.leb (date_of ann "start_date") today.

(** What the public listing shows of a stored announcement. *)
Definition public_view (item : value * dict) : dict :=
  [("_id", fst item);
   ("message", od_get_default String.eqb "message" VNone (snd item));
   ("start_date", od_get_default String.eqb "start_date" VNone (snd item));
   ("expiration_date", VStr (date_of (snd item) "expiration_date"))].

Definition listed_ok (item : value * dict) : bool :=
  dates_ok (snd item) && dmem "message" (snd item).


(** A teacher's record is stored, with at least one field, under the
    user name. *)
Definition authenticated (db : database) (username : string) : bool :=
  truthy (sget (VStr username) (teachers_collection db)).

Definition stored_body (self : store) (key : string) : dict :=
  match sget (VStr key) self with
  | Some body => body
  | None => []
  end.

(** The user name of a row of the teachers table. *)
Definition username_of (teacher : dict) : string :=
  match dget "username" teacher with
  | Some (VStr u) => u
  | _ => EmptyString
  end.

Definition teacher_row (teacher : dict) : string * dict :=
  (username_of teacher, teacher).

(** Rows as the table gives them: a mapping with a string user name and
    without an identifier field. *)
Definition teacher_ok (teacher : dict) : bool :=
  absent_or is_str (dget "username" teacher) && dmem "username" teacher &&
  details_ok (teacher_row teacher).

(** The dates of a new announcement parse; an absent or empty start
    date is not parsed. *)
Definition create_accepts (fromisoformat : string -> bool)
    (announcement : AnnouncementCreate) : bool :=
  fromisoformat (expiration_date announcement) &&
  match start_date announcement with
  | Some (String c s) => fromisoformat (String c s)
  | _ => true
  end.


(** The identifier that [create_announcement] gives a new announcement. *)
Definition announcement_id_of (uuid4 : string) : string :=
  "announcement-" ++ uuid4.

(** The body stored for a new announcement: its document without the
    identifier field. *)
Definition announcement_body (announcement : AnnouncementCreate)
    (username utcnow : string) : dict :=
  [("message", VStr (message announcement));
   ("start_date", opt_str (start_date announcement));
   ("expiration_date", VStr (expiration_date announcement));
   ("created_by", VStr username);
   ("created_at", VStr (utcnow ++ "Z"))].

Definition sample_create : AnnouncementCreate :=
  {| message := "Science fair on Friday";
     start_date := None;
     expiration_date := "2026-03-06" |}.

(** A parser, for examples, that accepts the texts of ten characters. *)
Definition ten_characters (s : string) : bool :=
  Nat.eqb (String.length s) 10.


(** The fields an [AnnouncementUpdate] gives, in the order in which
    [update_announcement] collects them. *)
Definition given_field (field : string) (given : option string) : dict :=
  match given with
  | Some s => [(field, VStr s)]
  | None => []
  end.

Definition given_fields (announcement : AnnouncementUpdate) : dict :=
  given_field "message" (update_message announcement) ++
  given_field "start_date" (update_start_date announcement) ++
  given_field "expiration_date" (update_expiration_date announcement).

(** A date that is given parses. *)
Definition date_accepted (fromisoformat : string -> bool)
    (given : option string) : bool :=
  match given with
  | Some d => fromisoformat d
  | None => true
  end.

(** The value of a field after an update: the one given, else the old
    one. *)
Definition updated_value (given : option string) (old : option value)
  : option value :=
  match given with
  | Some s => Some (VStr s)
  | None => old
  end.

Definition sample_update : AnnouncementUpdate :=
  {| update_message := Some "Registration closes on Friday";
     update_start_date := None;
     update_expiration_date := Some "2026-03-06" |}.


Definition deleted_reply : dict :=
  [("status", VStr "success"); ("message", VStr "Announcement deleted")].

(** Sample rows of the seed tables and the database seeded from them. *)

Definition chess_club : string * dict :=
  ("Chess Club",
   [("description", VStr "Learn strategies and compete in chess tournaments");
    ("schedule_details",
     VDict [("days", VList [VStr "Monday"; VStr "Friday"]);
            ("start_time", VStr "15:15"); ("end_time", VStr "16:45")]);
    ("max_participants", VInt 12)]).

Definition announcement_1 : dict :=
  [("_id", VStr "announcement-1");
   ("message", VStr "Activity registration is open until the end of the month.");
   ("start_date", VStr "2026-02-01");
   ("expiration_date", VStr "2026-02-28");
   ("created_by", VStr "principal");
   ("created_at", VStr "2026-02-01T08:00:00Z")].

Definition principal : dict :=
  [("username", VStr "principal");
   ("display_name", VStr "Principal Martinez");
   ("role", VStr "admin")].

Definition empty_database : database :=
  {| activities_collection := [];
     teachers_collection := [];
     announcements_collection := [] |}.

Definition seeded_database : database :=
  fst (init_database [chess_club] [principal] [announcement_1] empty_database).

(** ** Facts about insertion-ordered dictionaries

    The key equality of a Python dictionary is an equivalence on the keys
    it can hold.  The facts are stated for an equality that coincides with
    equality of a normal form whenever the probed key is [good]: for
    string keys every key is good and is its own normal form; for the
    collection the good keys are the hashable values. *)

Section OrderedDictFacts.
Context {K V N : Type}.
Variable eqb : K -> K -> bool.
Variable norm : K -> N.
Variable good : K -> Prop.
Hypothesis eqb_norm :
  forall k0 k, good k -> (eqb k0 k = true <-> norm k0 = norm k).

Implicit Types (d : list (K * V)) (k : K) (v : V).

Lemma eqb_good_refl k : good k -> eqb k k = true.
Proof. intro G. apply (eqb_norm k k G). reflexivity. Qed.

Lemma eqb_false_norm k0 k : good k -> (eqb k0 k = false <-> norm k0 <> norm k).
Proof.
  intro G. pose proof (eqb_norm k0 k G) as E.
  destruct (eqb k0 k); split; intro H; try discriminate; try reflexivity.
  - exfalso. apply H, E. reflexivity.
  - intro C. apply E in C. discriminate.
Qed.

Lemma od_get_norm k k' d :
  good k -> good k' -> norm k = norm k' -> od_get eqb k d = od_get eqb k' d.
Proof.
  intros G G' E. induction d as [|[k0 v0] d IH]; simpl; [reflexivity|].
  destruct (eqb k0 k) eqn:E1, (eqb k0 k') eqn:E2; try reflexivity; try exact IH.
  - apply (eqb_norm k0 k G) in E1. apply (eqb_false_norm k0 k' G') in E2. congruence.
  - apply (eqb_norm k0 k' G') in E2. apply (eqb_false_norm k0 k G) in E1. congruence.
Qed.

Lemma od_mem_norm k k' d :
  good k -> good k' -> norm k = norm k' -> od_mem eqb k d = od_mem eqb k' d.
Proof. intros. unfold od_mem. now rewrite (od_get_norm k k' d). Qed.

Lemma od_get_set_same k v d : good k -> od_get eqb k (od_set eqb k v d) = Some v.
Proof.
  intro G. induction d as [|[k0 v0] d IH]; simpl.
  - now rewrite eqb_good_refl.
  - destruct (eqb k0 k) eqn:E; simpl; rewrite E; [reflexivity | exact IH].
Qed.

Lemma od_get_set_other k k' v d :
  good k -> good k' -> norm k <> norm k' ->
  od_get eqb k' (od_set eqb k v d) = od_get eqb k' d.
Proof.
  intros G G' NE. induction d as [|[k0 v0] d IH]; simpl.
  - assert (eqb k k' = false) as -> by now apply eqb_false_norm.
    reflexivity.
  - destruct (eqb k0 k) eqn:E; simpl.
    + apply (eqb_norm k0 k G) in E.
      assert (eqb k0 k' = false) as -> by (apply eqb_false_norm; congruence).
      reflexivity.
    + destruct (eqb k0 k'); [reflexivity | exact IH].
Qed.

Lemma od_mem_set k k' v d :
  good k -> good k' ->
  od_mem eqb k' (od_set eqb k v d) = od_mem eqb k' d || eqb k k'.
Proof.
  intros G G'. unfold od_mem. destruct (eqb k k') eqn:E.
  - apply (eqb_norm k k' G') in E.
    rewrite <- (od_get_norm k k' _ G G' E), od_get_set_same by assumption.
    now rewrite orb_true_r.
  - apply (eqb_false_norm k k' G') in E.
    rewrite od_get_set_other by assumption. now rewrite orb_false_r.
Qed.

Lemma od_set_present k v d :
  od_mem eqb k d = true -> map fst (od_set eqb k v d) = map fst d.
Proof.
  unfold od_mem. induction d as [|[k0 v0] d IH]; simpl; [discriminate|].
  destruct (eqb k0 k); simpl; intro H; [reflexivity | now rewrite IH].
Qed.

Lemma od_set_absent k v d :
  od_mem eqb k d = false -> od_set eqb k v d = d ++ [(k, v)].
Proof.
  unfold od_mem. induction d as [|[k0 v0] d IH]; simpl; [reflexivity|].
  destruct (eqb k0 k); simpl; intro H; [discriminate | now rewrite IH].
Qed.

Lemma od_set_keys k v d :
  map fst (od_set eqb k v d) =
  if od_mem eqb k d then map fst d else map fst d ++ [k].
Proof.
  destruct (od_mem eqb k d) eqn:E.
  - now apply od_set_present.
  - rewrite od_set_absent by assumption. now rewrite map_app.
Qed.

Lemma od_set_length k v d :
  List.length (od_set eqb k v d) =
  if od_mem eqb k d then List.length d else S (List.length d).
Proof.
  rewrite <- !(length_map fst), od_set_keys.
  destruct (od_mem eqb k d); [reflexivity|].
  rewrite length_app. simpl. lia.
Qed.

Lemma od_get_pop_other k k' d :
  good k -> good k' -> norm k <> norm k' ->
  od_get eqb k' (od_pop eqb k d) = od_get eqb k' d.
Proof.
  intros G G' NE. induction d as [|[k0 v0] d IH]; simpl; [reflexivity|].
  destruct (eqb k0 k) eqn:E; simpl.
  - apply (eqb_norm k0 k G) in E.
    assert (eqb k0 k' = false) as -> by (apply eqb_false_norm; congruence).
    reflexivity.
  - destruct (eqb k0 k'); [reflexivity | exact IH].
Qed.

Lemma od_get_pop_same k d :
  good k -> (forall k0, In k0 (map fst d) -> good k0) ->
  od_wf eqb d = true -> od_get eqb k (od_pop eqb k d) = None.
Proof.
  intros G. induction d as [|[k0 v0] d IH]; simpl; [reflexivity|].
  intros GD W. apply andb_true_iff in W as [W1 W2].
  destruct (eqb k0 k) eqn:E; simpl.
  - apply (eqb_norm k0 k G) in E.
    apply negb_true_iff in W1. unfold od_mem in W1.
    rewrite (od_get_norm k k0 d) by (auto; congruence).
    destruct (od_get eqb k0 d); [discriminate | reflexivity].
  - rewrite E. apply IH; auto.
Qed.

Lemma od_mem_pop_le k k' d :
  od_mem eqb k' (od_pop eqb k d) = true -> od_mem eqb k' d = true.
Proof.
  unfold od_mem. induction d as [|[k0 v0] d IH]; simpl; [discriminate|].
  intros H. destruct (eqb k0 k') eqn:E'; [reflexivity|].
  destruct (eqb k0 k) eqn:E; simpl in H.
  - exact H.
  - rewrite E' in H. apply IH; auto.
Qed.

Lemma od_wf_pop k d :
  od_wf eqb d = true -> od_wf eqb (od_pop eqb k d) = true.
Proof.
  induction d as [|[k0 v0] d IH]; simpl; [reflexivity|].
  intros W. apply andb_true_iff in W as [W1 W2].
  destruct (eqb k0 k) eqn:E; simpl; [exact W2|].
  rewrite IH by auto. rewrite andb_true_r.
  apply negb_true_iff. apply negb_true_iff in W1.
  destruct (od_mem eqb k0 (od_pop eqb k d)) eqn:M; [|reflexivity].
  apply od_mem_pop_le in M. congruence.
Qed.

Lemma od_pop_keys_incl k d k0 :
  In k0 (map fst (od_pop eqb k d)) -> In k0 (map fst d).
Proof.
  induction d as [|[k1 v1] d IH]; simpl; [tauto|].
  destruct (eqb k1 k); simpl; tauto.
Qed.

Lemma od_wf_set k v d :
  good k -> (forall k0, In k0 (map fst d) -> good k0) ->
  od_wf eqb d = true -> od_wf eqb (od_set eqb k v d) = true.
Proof.
  intros G. induction d as [|[k0 v0] d IH]; simpl; [reflexivity|].
  intros GD W. apply andb_true_iff in W as [W1 W2].
  destruct (eqb k0 k) eqn:E; simpl.
  - now rewrite W1, W2.
  - rewrite IH by auto. rewrite andb_true_r.
    rewrite od_mem_set by auto. apply negb_true_iff in W1. rewrite W1. simpl.
    apply negb_true_iff. apply eqb_false_norm; auto.
    apply (eqb_false_norm k0 k G) in E. congruence.
Qed.

Lemma od_set_set k v v' d :
  good k -> od_set eqb k v (od_set eqb k v' d) = od_set eqb k v d.
Proof.
  intro G. induction d as [|[k0 v0] d IH]; simpl.
  - now rewrite eqb_good_refl.
  - destruct (eqb k0 k) eqn:E; simpl; rewrite E; [reflexivity | now rewrite IH].
Qed.

Lemma od_set_get k v d : od_get eqb k d = Some v -> od_set eqb k v d = d.
Proof.
  induction d as [|[k0 v0] d IH]; simpl; [discriminate|].
  destruct (eqb k0 k); intro H.
  - now injection H as ->.
  - now rewrite IH.
Qed.

Lemma od_set_nonempty k v d : od_set eqb k v d <> [].
Proof. destruct d as [|[k0 v0] d]; simpl; [|destruct (eqb k0 k)]; discriminate. Qed.

Lemma od_get_In k v d : od_get eqb k d = Some v -> exists k0, In (k0, v) d /\ eqb k0 k = true.
Proof.
  induction d as [|[k0 v0] d IH]; simpl; [discriminate|].
  destruct (eqb k0 k) eqn:E; intro H.
  - injection H as <-. exists k0. auto.
  - destruct (IH H) as (k1 & I & E1). exists k1. auto.
Qed.
End OrderedDictFacts.

(** ** Keys of a document and of the collection *)

Lemma string_eqb_norm (k0 k : string) :
  any_string k -> (String.eqb k0 k = true <-> id k0 = id k).
Proof. intros _. apply String.eqb_eq. Qed.

Lemma py_eq_norm (k0 k : value) :
  is_hashable k -> (py_eq k0 k = true <-> key_norm k0 = key_norm k).
Proof.
  unfold is_hashable.
  destruct k0 as [| b0 | z0 | s0 | l0 | d0], k as [| b | z | s | l | d];
    simpl; intro H; try discriminate H;
    try (split; intro C; (discriminate C || reflexivity)).
  - rewrite Z.eqb_eq. split; [intros -> | intros [= ->]]; reflexivity.
  - rewrite Z.eqb_eq. split; [intros -> | intros [= ->]]; reflexivity.
  - rewrite Z.eqb_eq. split; [intros -> | intros [= ->]]; reflexivity.
  - rewrite Z.eqb_eq. split; [intros -> | intros [= ->]]; reflexivity.
  - rewrite String.eqb_eq. split; [intros -> | intros [= ->]]; reflexivity.
Qed.

Lemma py_eq_refl_hashable (k : value) : is_hashable k -> py_eq k k = true.
Proof. intro H. now apply py_eq_norm. Qed.

Lemma py_eq_hashable_l (k0 k : value) :
  is_hashable k -> py_eq k0 k = true -> is_hashable k0.
Proof.
  intros H E. apply py_eq_norm in E; [|assumption].
  destruct k0, k; simpl in *; try reflexivity; discriminate.
Qed.

Lemma store_wf_keys (s : store) :
  store_wf s -> forall k0, In k0 (map fst s) -> is_hashable k0.
Proof.
  intros [H _] k0 I. apply in_map_iff in I as ([k d] & <- & I).
  rewrite Forall_forall in H. exact (H _ I).
Qed.

Lemma dget_dset_same k v d : dget k (dset k v d) = Some v.
Proof. apply (od_get_set_same _ _ _ string_eqb_norm). exact I. Qed.

Lemma dget_dset_other k k' v d : k <> k' -> dget k' (dset k v d) = dget k' d.
Proof. intro NE. apply (od_get_set_other _ _ _ string_eqb_norm); auto; exact I. Qed.

Lemma dget_dpop_other k k' d : k <> k' -> dget k' (dpop k d) = dget k' d.
Proof. intro NE. apply (od_get_pop_other _ _ _ string_eqb_norm); auto; exact I. Qed.

Lemma dget_dpop_same k d : dict_wf d = true -> dget k (dpop k d) = None.
Proof.
  intro W. apply (od_get_pop_same _ _ _ string_eqb_norm); auto; try exact I.
  intros; exact I.
Qed.

Lemma dict_wf_dpop k d : dict_wf d = true -> dict_wf (dpop k d) = true.
Proof. apply od_wf_pop. Qed.

Lemma dict_wf_dset k v d : dict_wf d = true -> dict_wf (dset k v d) = true.
Proof.
  intro W. apply (od_wf_set _ _ _ string_eqb_norm); auto; try exact I. intros; exact I.
Qed.

Lemma sget_norm k k' s :
  is_hashable k -> is_hashable k' -> key_norm k = key_norm k' ->
  sget k s = sget k' s.
Proof. apply (od_get_norm _ _ _ py_eq_norm). Qed.

Lemma sget_sset_same k d s : is_hashable k -> sget k (sset k d s) = Some d.
Proof. apply (od_get_set_same _ _ _ py_eq_norm). Qed.

Lemma sget_sset_other k k' d s :
  is_hashable k -> is_hashable k' -> key_norm k <> key_norm k' ->
  sget k' (sset k d s) = sget k' s.
Proof. apply (od_get_set_other _ _ _ py_eq_norm). Qed.

Lemma store_wf_sset k d s : is_hashable k -> store_wf s -> store_wf (sset k d s).
Proof.
  intros H W. split.
  - destruct W as [W _]. unfold sset.
    induction s as [|[k0 d0] s IH]; simpl.
    + constructor; [exact H | constructor].
    + inversion W; subst. destruct (py_eq k0 k); constructor; auto.
  - apply (od_wf_set _ _ _ py_eq_norm); auto.
    + apply store_wf_keys; assumption.
    + apply W.
Qed.

Lemma store_wf_spop k s : store_wf s -> store_wf (spop k s).
Proof.
  intros W. split.
  - rewrite Forall_forall. intros [k0 d0] I.
    apply (store_wf_keys _ W). apply (od_pop_keys_incl py_eq k s).
    apply in_map_iff. exists (k0, d0). auto.
  - apply od_wf_pop, W.
Qed.

(** ** find_one *)

(** The lookup written out: only the identifier of the query is used. *)
Lemma find_one_unfold (self : store) (query : dict) :
  find_one self query =
  match dget "_id" query with
  | None => Ok None
  | Some qid =>
      if hashable qid then
        match sget qid self with
        | Some d =>
            if truthy (Some d) then Ok (Some (dset "_id" qid d)) else Ok None
        | None => Ok None
        end
      else Raise TypeError
  end.
Proof.
  unfold find_one, dmem, od_mem, py_getitem, data_get, deepcopy. simpl.
  fold (dget "_id" query).
  destruct (dget "_id" query) as [qid|]; [|reflexivity].
  simpl. destruct (hashable qid); [|reflexivity].
  simpl. destruct (sget qid self); reflexivity.
Qed.

(** No field of the query other than the identifier affects [find_one]. *)
Lemma find_one_identifier_only (self : store) (q1 q2 : dict) :
  dget "_id" q1 = dget "_id" q2 -> find_one self q1 = find_one self q2.
Proof. intro E. rewrite !find_one_unfold, E. reflexivity. Qed.

(** A stored document with at least one field is found, and comes back
    with the identifier of the query attached. *)
Lemma find_one_found (self : store) (query : dict) (qid : value) (body : dict) :
  dget "_id" query = Some qid -> is_hashable qid ->
  sget qid self = Some body -> body <> [] ->
  find_one self query = Ok (Some (dset "_id" qid body)).
Proof.
  intros Q H S NE. rewrite find_one_unfold, Q, H, S.
  destruct body; [contradiction | reflexivity].
Qed.

Lemma find_one_no_identifier (self : store) (query : dict) :
  dget "_id" query = None -> find_one self query = Ok None.
Proof. intro Q. now rewrite find_one_unfold, Q. Qed.

Lemma find_one_not_stored (self : store) (query : dict) (qid : value) :
  dget "_id" query = Some qid -> is_hashable qid ->
  sget qid self = None -> find_one self query = Ok None.
Proof. intros Q H S. now rewrite find_one_unfold, Q, H, S. Qed.

(** Inserting a document that has a field besides its identifier and
    finding it by that identifier gives back the same bindings. *)
Lemma insert_then_find_one_with_fields (self : store) (document : dict) :
  dict_wf document = true ->
  doc_id_of document <> VNone -> is_hashable (doc_id_of document) ->
  dpop "_id" document <> [] ->
  exists found,
    find_one (fst (insert_one self document)) [("_id", doc_id_of document)]
      = Ok (Some found)
    /\ same_bindings found document /\ dict_wf found = true.
Proof.
  intros W NN H NE.
  exists (dset "_id" (doc_id_of document) (dpop "_id" document)).
  assert (fst (insert_one self document)
          = sset (doc_id_of document) (dpop "_id" document) self) as ->.
  { unfold insert_one. fold (doc_id_of document). rewrite H.
    destruct (doc_id_of document); try reflexivity; contradiction. }
  split; [|split].
  - apply find_one_found; [reflexivity | exact H | | exact NE].
    now apply sget_sset_same.
  - intro k. destruct (String.eqb_spec "_id" k) as [<-|NEk].
    + rewrite dget_dset_same. unfold doc_id_of, od_get_default in *.
      fold (dget "_id" document) in *.
      destruct (dget "_id" document); [reflexivity | contradiction].
    + rewrite dget_dset_other, dget_dpop_other by assumption. reflexivity.
  - apply dict_wf_dset, dict_wf_dpop, W.
Qed.

(** C1.  Round trip of [insert_one] and [find_one]: the document
    [{"_id": "x"}], whose identifier is not null, is inserted without error
    and is stored, yet [find_one] with [{"_id": "x"}] answers "not found":
    the stored body is the empty mapping, which [if doc:] takes for an
    absent document. *)
Theorem insert_then_find_one_identifier_only_document :
  let document := [("_id", VStr "x")] in
  let inserted := insert_one [] document in
  snd inserted = Ok {| inserted_id := VStr "x" |} /\
  sget (VStr "x") (fst inserted) = Some [] /\
  find_one (fst inserted) [("_id", VStr "x")] = Ok None.
Proof. repeat split. Qed.

(** C2.  Contract of [find_one]: whenever the query carries an identifier
    under which a document with an empty body is stored, [find_one]
    returns the null result although the query names the identifier and a
    document is stored under it. *)
Theorem find_one_misses_empty_body (self : store) (query : dict) (qid : value) :
  dget "_id" query = Some qid -> is_hashable qid ->
  sget qid self = Some [] ->
  find_one self query = Ok None.
Proof. intros Q H S. now rewrite find_one_unfold, Q, H, S. Qed.

Lemma find_one_misses_empty_body_witness :
  smem (VStr "x") [(VStr "x", [])] = true /\
  find_one [(VStr "x", [])] [("_id", VStr "x")] = Ok None.
Proof.
  split; [reflexivity|].
  apply (find_one_misses_empty_body _ _ (VStr "x")); reflexivity.
Defined.

(** ** insert_one *)

Lemma insert_one_unfold (self : store) (document : dict) :
  insert_one self document =
  match dget "_id" document with
  | None | Some VNone => (self, Raise ValueError)
  | Some doc_id =>
      if hashable doc_id
      then (sset doc_id (dpop "_id" document) self, Ok {| inserted_id := doc_id |})
      else (self, Raise TypeError)
  end.
Proof.
  unfold insert_one, od_get_default, deepcopy. fold (dget "_id" document).
  destruct (dget "_id" document) as [[]|]; reflexivity.
Qed.

Lemma doc_id_of_some (document : dict) (v : value) :
  dget "_id" document = Some v -> doc_id_of document = v.
Proof. unfold doc_id_of, od_get_default. fold (dget "_id" document). now intros ->. Qed.

Lemma doc_id_of_not_none (document : dict) :
  doc_id_of document <> VNone -> dget "_id" document = Some (doc_id_of document).
Proof.
  unfold doc_id_of, od_get_default. fold (dget "_id" document).
  destruct (dget "_id" document); [reflexivity | contradiction].
Qed.

(** An insertion that succeeds binds the identifier to the stripped body. *)
Lemma insert_one_success (self : store) (document : dict) :
  doc_id_of document <> VNone -> is_hashable (doc_id_of document) ->
  insert_one self document =
    (sset (doc_id_of document) (dpop "_id" document) self,
     Ok {| inserted_id := doc_id_of document |}).
Proof.
  intros NN H. rewrite insert_one_unfold, (doc_id_of_not_none _ NN), H.
  destruct (doc_id_of document); try reflexivity; contradiction.
Qed.

(** C6.  Errors and overwriting of [insert_one], for documents whose
    identifier, when present, is a value a dictionary can be keyed by.
    The call raises exactly when the identifier is absent or null, and
    then leaves the collection alone.  Otherwise it binds the identifier
    to the document without its identifier field and touches no other
    binding; a second insertion under an equal identifier replaces the
    first body and adds no entry, so that from the empty collection only
    the second document is left. *)
Theorem insert_one_error_and_overwrite (self : store) (d1 d2 : dict) :
  dict_wf d1 = true ->
  is_hashable (doc_id_of d1) -> is_hashable (doc_id_of d2) ->
  let after1 := fst (insert_one self d1) in
  let after2 := fst (insert_one after1 d2) in
  (is_ok (snd (insert_one self d1)) = false <->
     dget "_id" d1 = None \/ dget "_id" d1 = Some VNone) /\
  (is_ok (snd (insert_one self d1)) = false -> after1 = self) /\
  (is_ok (snd (insert_one self d1)) = true ->
     snd (insert_one self d1) = Ok {| inserted_id := doc_id_of d1 |} /\
     sget (doc_id_of d1) after1 = Some (dpop "_id" d1) /\
     dget "_id" (dpop "_id" d1) = None /\
     (forall k, k <> "_id" -> dget k (dpop "_id" d1) = dget k d1) /\
     (forall other, is_hashable other ->
        key_norm other <> key_norm (doc_id_of d1) ->
        sget other after1 = sget other self)) /\
  (is_ok (snd (insert_one self d1)) = true ->
   py_eq (doc_id_of d1) (doc_id_of d2) = true ->
     is_ok (snd (insert_one after1 d2)) = true /\
     sget (doc_id_of d1) after2 = Some (dpop "_id" d2) /\
     map fst after2 = map fst after1 /\
     (self = [] -> after2 = [(doc_id_of d1, dpop "_id" d2)])).
Proof.
  intros W H1 H2 after1 after2.
  assert (NoneCase : doc_id_of d1 = VNone ->
            insert_one self d1 = (self, Raise ValueError)).
  { intro E. rewrite insert_one_unfold. unfold doc_id_of, od_get_default in E.
    fold (dget "_id" d1) in E.
    destruct (dget "_id" d1) as [v|]; [subst v|]; reflexivity. }
  assert (Dec : doc_id_of d1 = VNone \/ doc_id_of d1 <> VNone).
  { destruct (doc_id_of d1); (now left) || (right; discriminate). }
  assert (OkCase : is_ok (snd (insert_one self d1)) = true ->
            doc_id_of d1 <> VNone).
  { intros O E. rewrite (NoneCase E) in O. discriminate. }
  split; [|split; [|split]].
  - split.
    + intro F. destruct Dec as [E|NN].
      * unfold doc_id_of, od_get_default in E. fold (dget "_id" d1) in E.
        destruct (dget "_id" d1); [right; now subst | now left].
      * rewrite (insert_one_success self _ NN H1) in F. discriminate.
    + intros [E|E]; rewrite insert_one_unfold, E; reflexivity.
  - intro F. destruct Dec as [E|NN].
    + unfold after1. now rewrite (NoneCase E).
    + rewrite (insert_one_success self _ NN H1) in F. discriminate.
  - intro O. pose proof (OkCase O) as NN.
    unfold after1. rewrite (insert_one_success self _ NN H1). simpl.
    split; [reflexivity|]. split; [now apply sget_sset_same|].
    split; [now apply dget_dpop_same|].
    split; [intros k NE; now apply dget_dpop_other|].
    intros other HO NE. apply sget_sset_other; auto.
  - intros O E. pose proof (OkCase O) as NN.
    assert (NN2 : doc_id_of d2 <> VNone).
    { intro C. rewrite C in E. apply py_eq_norm in E; [|reflexivity].
      destruct (doc_id_of d1); try discriminate; contradiction. }
    apply py_eq_norm in E; [|exact H2].
    unfold after2, after1.
    rewrite (insert_one_success self _ NN H1). simpl.
    rewrite (insert_one_success _ _ NN2 H2). simpl.
    split; [reflexivity|]. split; [|split].
    + unfold sget. rewrite (od_get_norm _ _ _ py_eq_norm _ _ _ H1 H2 E).
      now apply sget_sset_same.
    + apply od_set_present. unfold od_mem.
      rewrite <- (od_get_norm _ _ _ py_eq_norm _ _ _ H1 H2 E).
      fold (sget (doc_id_of d1) (sset (doc_id_of d1) (dpop "_id" d1) self)).
      now rewrite sget_sset_same.
    + intros ->. simpl.
      assert (py_eq (doc_id_of d1) (doc_id_of d2) = true) as ->
        by now apply py_eq_norm.
      reflexivity.
Qed.

Lemma insert_one_error_and_overwrite_witness :
  let d1 := [("_id", VStr "chess"); ("max_participants", VInt 12)] in
  let d2 := [("max_participants", VInt 20); ("_id", VStr "chess")] in
  fst (insert_one (fst (insert_one [] d1)) d2)
    = [(VStr "chess", [("max_participants", VInt 20)])].
Proof.
  intros d1 d2.
  destruct (insert_one_error_and_overwrite [] d1 d2 eq_refl eq_refl eq_refl)
    as (_ & _ & _ & Second).
  destruct (Second eq_refl eq_refl) as (_ & _ & _ & Left).
  exact (Left eq_refl).
Defined.

(** ** update_one *)

Lemma update_one_unfold (self : store) (query update : dict) :
  update_one self query update =
  match dget "_id" query with
  | None => (self, Ok {| modified_count := 0 |})
  | Some doc_id =>
      if hashable doc_id then
        match sget doc_id self with
        | None => (self, Ok {| modified_count := 0 |})
        | Some doc =>
            (sset doc_id (fst (apply_update update doc)) self,
             match snd (apply_update update doc) with
             | Ok _ => Ok {| modified_count := 1 |}
             | Raise e => Raise e
             end)
        end
      else (self, Raise TypeError)
  end.
Proof.
  unfold update_one, dmem, od_mem, py_getitem, data_contains. simpl.
  fold (dget "_id" query).
  destruct (dget "_id" query) as [doc_id|]; [|reflexivity]. simpl.
  destruct (hashable doc_id); [|reflexivity].
  unfold smem, od_mem. fold (sget doc_id self).
  destruct (sget doc_id self) as [doc|]; [|reflexivity].
  destruct (apply_update update doc) as [doc' [u|e]]; reflexivity.
Qed.

(** An operator block reads the update through one lookup only. *)
Lemma operator_block_unfold (op : string) (update : dict)
    (body : string * value -> doc_op unit) (doc : dict) :
  operator_block op update body doc =
  match dget op update with
  | None => (doc, Ok tt)
  | Some (VDict items) => op_for items body doc
  | Some _ => (doc, Raise AttributeError)
  end.
Proof.
  unfold operator_block, dmem, od_mem, py_getitem, op_bind, op_lift, op_ret.
  simpl. fold (dget op update).
  destruct (dget op update) as [[]|]; reflexivity.
Qed.

Lemma apply_update_unfold (update doc : dict) :
  apply_update update doc =
  match operator_block "$push" update push_item doc with
  | (doc1, Raise e) => (doc1, Raise e)
  | (doc1, Ok _) =>
      match operator_block "$pull" update pull_item doc1 with
      | (doc2, Raise e) => (doc2, Raise e)
      | (doc2, Ok _) => operator_block "$set" update set_item doc2
      end
  end.
Proof. reflexivity. Qed.

(** Two updates with the same operands are the same update. *)
Lemma apply_update_operands (u1 u2 doc : dict) :
  dget "$push" u1 = dget "$push" u2 ->
  dget "$pull" u1 = dget "$pull" u2 ->
  dget "$set" u1 = dget "$set" u2 ->
  apply_update u1 doc = apply_update u2 doc.
Proof.
  intros E1 E2 E3. rewrite !apply_update_unfold.
  rewrite !operator_block_unfold, E1.
  destruct (match dget "$push" u2 with
            | Some (VDict items) => op_for items push_item doc
            | Some _ => (doc, Raise AttributeError)
            | None => (doc, Ok tt)
            end) as [doc1 [[]|e]]; [|reflexivity].
  rewrite !operator_block_unfold, E2.
  destruct (match dget "$pull" u2 with
            | Some (VDict items) => op_for items pull_item doc1
            | Some _ => (doc1, Raise AttributeError)
            | None => (doc1, Ok tt)
            end) as [doc2 [[]|e]]; [|reflexivity].
  rewrite !operator_block_unfold, E3. reflexivity.
Qed.

(** Lookup in a mapping does not depend on the order of its items. *)
Lemma dict_wf_NoDup (d : dict) : dict_wf d = true <-> NoDup (map fst d).
Proof.
  induction d as [|[k v] d IH]; simpl.
  - split; [constructor | reflexivity].
  - unfold dict_wf in *. simpl. rewrite andb_true_iff, negb_true_iff, IH.
    assert (M : od_mem String.eqb k d = false <-> ~ In k (map fst d)).
    { clear IH. unfold od_mem. induction d as [|[k1 v1] d IH]; simpl.
      - tauto.
      - destruct (String.eqb_spec k1 k) as [->|NE].
        + split; [discriminate | intro C; exfalso; apply C; now left].
        + rewrite IH. tauto. }
    rewrite M. split.
    + intros [A B]. now constructor.
    + intro ND. inversion ND; subst. tauto.
Qed.

Lemma dget_In (d : dict) (k : string) (v : value) :
  NoDup (map fst d) -> (dget k d = Some v <-> In (k, v) d).
Proof.
  unfold dget. induction d as [|[k1 v1] d IH]; simpl; intro ND.
  - split; [discriminate | tauto].
  - inversion ND as [|? ? NI ND']; subst.
    destruct (String.eqb_spec k1 k) as [->|NE].
    + split.
      * intros [= ->]. now left.
      * intros [[= ->]|I]; [reflexivity|].
        exfalso. apply NI. apply in_map_iff. exists (k, v). auto.
    + rewrite (IH ND'). split; [tauto|].
      intros [[= -> ->]|I]; [contradiction | exact I].
Qed.

Lemma dget_Permutation (d1 d2 : dict) (k : string) :
  dict_wf d1 = true -> Permutation d1 d2 -> dget k d1 = dget k d2.
Proof.
  intros W P. apply dict_wf_NoDup in W.
  assert (W2 : NoDup (map fst d2)).
  { eapply Permutation_NoDup; [apply Permutation_map, P | exact W]. }
  destruct (dget k d1) as [v|] eqn:E1.
  - symmetry. apply dget_In; [exact W2|].
    apply (Permutation_in _ P). now apply dget_In.
  - destruct (dget k d2) as [v|] eqn:E2; [|reflexivity].
    apply dget_In in E2; [|exact W2].
    apply (Permutation_in _ (Permutation_sym P)) in E2.
    apply dget_In in E2; [|exact W]. congruence.
Qed.

(** *** The operators within their contract *)

Lemma push_item_field (kv : string * value) (doc : dict) :
  pushable doc kv = true -> push_item kv doc = (push_field doc kv, Ok tt).
Proof.
  unfold pushable, push_item, push_field, dmem, od_mem. destruct kv as [key v].
  simpl. fold (dget key doc).
  destruct (dget key doc) as [[]|] eqn:E; try discriminate; intros _; simpl.
  - rewrite E. reflexivity.
  - rewrite dget_dset_same. simpl. unfold dset.
    rewrite (od_set_set _ _ _ string_eqb_norm); [reflexivity | exact I].
Qed.

Lemma pushable_push_field (doc : dict) (kv kv' : string * value) :
  pushable doc kv' = true -> pushable (push_field doc kv) kv' = true.
Proof.
  unfold pushable, push_field. intro H.
  destruct (String.eqb_spec (fst kv) (fst kv')) as [E|NE].
  - rewrite <- E in *.
    destruct (dget (fst kv) doc) as [[]|] eqn:D; try discriminate;
      now rewrite dget_dset_same.
  - destruct (dget (fst kv) doc) as [[]|] eqn:D;
      rewrite ?dget_dset_other by assumption; exact H.
Qed.

Lemma op_for_push (items : dict) (doc : dict) :
  forallb (pushable doc) items = true ->
  op_for items push_item doc = (fold_left push_field items doc, Ok tt).
Proof.
  revert doc. induction items as [|kv items IH]; simpl; intros doc H.
  - reflexivity.
  - apply andb_true_iff in H as [H1 H2].
    unfold op_bind. rewrite (push_item_field _ _ H1).
    apply IH. rewrite forallb_forall in *. intros kv' I.
    apply pushable_push_field, H2, I.
Qed.

Lemma op_for_pull (items : dict) (doc : dict) :
  op_for items pull_item doc = (fold_left pull_field items doc, Ok tt).
Proof.
  revert doc. induction items as [|[key v] items IH]; simpl; intros doc.
  - reflexivity.
  - unfold op_bind, pull_item at 1, pull_field at 2. simpl.
    destruct (dget key doc) as [[]|]; apply IH.
Qed.

Lemma op_for_set (items : dict) (doc : dict) :
  op_for items set_item doc = (fold_left set_field items doc, Ok tt).
Proof.
  revert doc. induction items as [|[key v] items IH]; simpl; intros doc.
  - reflexivity.
  - unfold op_bind, set_item at 1. apply IH.
Qed.

Lemma operator_block_operand (op : string) (update : dict)
    (body : string * value -> doc_op unit) (doc : dict) :
  mapping_or_absent (dget op update) = true ->
  operator_block op update body doc = op_for (operand op update) body doc.
Proof.
  rewrite operator_block_unfold. unfold operand.
  destruct (dget op update) as [[]|]; simpl; intro H;
    try discriminate H; reflexivity.
Qed.

(** On the shapes of the contract no operator raises, and the document
    is pushed to, then pulled from, then assigned. *)
Lemma apply_update_in_order (update doc : dict) :
  update_ok update doc = true ->
  apply_update update doc = (push_then_pull_then_set update doc, Ok tt).
Proof.
  unfold update_ok, push_then_pull_then_set.
  rewrite !andb_true_iff. intros [[[S1 S2] S3] P].
  rewrite apply_update_unfold.
  rewrite (operator_block_operand _ _ _ _ S1), (op_for_push _ _ P).
  rewrite (operator_block_operand _ _ _ _ S2), op_for_pull.
  rewrite (operator_block_operand _ _ _ _ S3), op_for_set.
  reflexivity.
Qed.

Lemma update_one_found (self : store) (query update : dict)
    (doc_id : value) (doc : dict) :
  dget "_id" query = Some doc_id -> is_hashable doc_id ->
  sget doc_id self = Some doc -> update_ok update doc = true ->
  update_one self query update =
    (sset doc_id (push_then_pull_then_set update doc) self,
     Ok {| modified_count := 1 |}).
Proof.
  intros Q H S U.
  rewrite update_one_unfold, Q, H, S, (apply_update_in_order _ _ U).
  reflexivity.
Qed.

(** C3.  Operator order of [update_one].  The outcome (collection and
    result) is the same for any two update mappings that list the same
    items in different orders.  For every update and document the [$push]
    block runs first, then the [$pull] block on the document it leaves,
    then the [$set] block, a block that raises ending the call; on
    updates within the operators' contract the stored document becomes
    the one obtained by applying all of [$push], then all of [$pull],
    then all of [$set].  Pushing and pulling ["b"] on [tags == ["a"]] in
    one call leaves [["a"]], whichever operator the mapping lists first. *)
Theorem update_one_operator_order :
  (forall (self : store) (query u1 u2 : dict),
     dict_wf u1 = true -> Permutation u1 u2 ->
     update_one self query u1 = update_one self query u2) /\
  (forall update doc : dict,
     apply_update update doc =
     match operator_block "$push" update push_item doc with
     | (pushed, Raise e) => (pushed, Raise e)
     | (pushed, Ok _) =>
         match operator_block "$pull" update pull_item pushed with
         | (pulled, Raise e) => (pulled, Raise e)
         | (pulled, Ok _) => operator_block "$set" update set_item pulled
         end
     end) /\
  (forall (self : store) (query update : dict) (doc_id : value) (doc : dict),
     dget "_id" query = Some doc_id -> is_hashable doc_id ->
     sget doc_id self = Some doc -> update_ok update doc = true ->
     update_one self query update =
       (sset doc_id (push_then_pull_then_set update doc) self,
        Ok {| modified_count := 1 |})) /\
  update_one tags_store [("_id", VStr "x")] [push_b; pull_b]
    = (tags_store, Ok {| modified_count := 1 |}) /\
  update_one tags_store [("_id", VStr "x")] [pull_b; push_b]
    = (tags_store, Ok {| modified_count := 1 |}).
Proof.
  split; [|split; [|split; [|split]]].
  - intros self query u1 u2 W P. rewrite !update_one_unfold.
    destruct (dget "_id" query) as [doc_id|]; [|reflexivity].
    destruct (hashable doc_id); [|reflexivity].
    destruct (sget doc_id self) as [doc|]; [|reflexivity].
    rewrite (apply_update_operands u1 u2 doc); auto using dget_Permutation.
  - exact apply_update_unfold.
  - exact update_one_found.
  - reflexivity.
  - reflexivity.
Qed.

Lemma update_one_operator_order_witness :
  update_one tags_store [("_id", VStr "x")]
      [("$set", VDict [("tags", VList [])]); pull_b; push_b]
    = update_one tags_store [("_id", VStr "x")]
      [pull_b; ("$set", VDict [("tags", VList [])]); push_b]
  /\ update_one tags_store [("_id", VStr "x")]
       [("$set", VDict [("n", VInt 1)]); pull_b; push_b]
     = (sset (VStr "x")
          (push_then_pull_then_set
             [("$set", VDict [("n", VInt 1)]); pull_b; push_b]
             [("tags", VList [VStr "a"])]) tags_store,
        Ok {| modified_count := 1 |}).
Proof.
  split.
  - apply (proj1 update_one_operator_order); [reflexivity | apply perm_swap].
  - apply (proj1 (proj2 (proj2 update_one_operator_order))); reflexivity.
Defined.

(** C7, as stated, fails: the document stored under ["x"] is found, but
    pushing onto its string field [name] raises [AttributeError] (a
    string has no [append]) and no modified count is reported. *)
Lemma update_one_push_on_string_raises :
  sget (VStr "x") named_store = Some [("name", VStr "a")] /\
  update_one named_store [("_id", VStr "x")]
      [("$push", VDict [("name", VStr "b")])]
    = (named_store, Raise AttributeError).
Proof. split; reflexivity. Qed.

(** C7, amended.  Modified count of [update_one].  A query without the
    identifier field, or with an identifier under which nothing is
    stored, gives 0 and leaves the collection alone.  A query whose
    identifier names a stored document gives 1 for every update within
    the operators' contract (each operator given holds a mapping, and
    [$push] names fields that are absent or hold a sequence), also when
    the update holds none of the three operators, in which case the
    collection is left as it was. *)
Theorem update_one_modified_count (self : store) (query update : dict) :
  (dget "_id" query = None ->
     update_one self query update = (self, Ok {| modified_count := 0 |})) /\
  (forall doc_id, dget "_id" query = Some doc_id -> is_hashable doc_id ->
     sget doc_id self = None ->
     update_one self query update = (self, Ok {| modified_count := 0 |})) /\
  (forall doc_id doc, dget "_id" query = Some doc_id -> is_hashable doc_id ->
     sget doc_id self = Some doc -> update_ok update doc = true ->
     snd (update_one self query update) = Ok {| modified_count := 1 |}) /\
  (forall doc_id doc, dget "_id" query = Some doc_id -> is_hashable doc_id ->
     sget doc_id self = Some doc ->
     dget "$push" update = None -> dget "$pull" update = None ->
     dget "$set" update = None ->
     update_one self query update = (self, Ok {| modified_count := 1 |})).
Proof.
  split; [|split; [|split]].
  - intro Q. now rewrite update_one_unfold, Q.
  - intros doc_id Q H S. now rewrite update_one_unfold, Q, H, S.
  - intros doc_id doc Q H S U.
    now rewrite (update_one_found _ _ _ _ _ Q H S U).
  - intros doc_id doc Q H S P1 P2 P3.
    assert (U : update_ok update doc = true).
    { unfold update_ok, operand. now rewrite P1, P2, P3. }
    rewrite (update_one_found _ _ _ _ _ Q H S U).
    unfold push_then_pull_then_set, operand. rewrite P1, P2, P3. simpl.
    unfold sset. now rewrite (od_set_get _ _ _ _ S).
Qed.

Lemma update_one_modified_count_witness :
  update_one tags_store [("name", VStr "x")] [push_b]
    = (tags_store, Ok {| modified_count := 0 |}) /\
  update_one tags_store [("_id", VStr "y")] [push_b]
    = (tags_store, Ok {| modified_count := 0 |}) /\
  snd (update_one tags_store [("_id", VStr "x")] [pull_b])
    = Ok {| modified_count := 1 |} /\
  update_one tags_store [("_id", VStr "x")] [("$inc", VDict [("n", VInt 1)])]
    = (tags_store, Ok {| modified_count := 1 |}).
Proof.
  split; [|split; [|split]].
  - apply (proj1 (update_one_modified_count _ _ _)). reflexivity.
  - apply (proj1 (proj2 (update_one_modified_count _ _ _)) (VStr "y"));
      reflexivity.
  - apply (proj1 (proj2 (proj2 (update_one_modified_count _ _ _)))
             (VStr "x") [("tags", VList [VStr "a"])]); reflexivity.
  - apply (proj2 (proj2 (proj2 (update_one_modified_count _ _ _)))
             (VStr "x") [("tags", VList [VStr "a"])]); reflexivity.
Defined.

(** ** find *)

Lemma py_getitem_dict (d : dict) (k : string) :
  py_getitem (VDict d) (VStr k) =
  match dget k d with Some v => Ok v | None => Raise KeyError end.
Proof. reflexivity. Qed.

(** The loop keeps, in the order of the collection, the documents for
    which the loop body leaves [match] true. *)
Lemma find_loop_filter (query : dict) (keep : value * dict -> bool)
    (items : store) (results : list dict) :
  (forall item, In item items -> doc_matches query (snd item) = Ok (keep item)) ->
  find_loop query items results
    = Ok (results ++ map attach_id (filter keep items)).
Proof.
  revert results. induction items as [|[doc_id doc] items IH]; simpl;
    intros results H.
  - now rewrite app_nil_r.
  - pose proof (H (doc_id, doc) (or_introl eq_refl)) as M. simpl in M.
    rewrite M. simpl.
    rewrite IH by (intros; apply H; now right).
    destruct (keep (doc_id, doc)); simpl; [|reflexivity].
    now rewrite <- app_assoc.
Qed.

Lemma find_all (self : store) : find self None = Ok (map attach_id self).
Proof.
  unfold find. rewrite (find_loop_filter [] (fun _ => true)).
  - simpl. f_equal. f_equal. induction self; simpl; congruence.
  - reflexivity.
Qed.

Lemma attach_id_identifier (item : value * dict) :
  dget "_id" (attach_id item) = Some (fst item).
Proof. apply dget_dset_same. Qed.

(** *** The filters on well-shaped queries and documents *)

Lemma string_not_ltb (a t : string) : negb (String.ltb a t) = String.leb t a.
Proof.
  unfold String.ltb, String.leb. rewrite (String.compare_antisym t a).
  destruct (String.compare a t); reflexivity.
Qed.

Lemma schedule_field_unfold (doc : dict) (field : string) (dflt : value) :
  schedule_field doc field dflt =
  match dget "schedule_details" doc with
  | None => Ok dflt
  | Some (VDict sd) =>
      Ok (match dget field sd with Some v => v | None => dflt end)
  | Some _ => Raise AttributeError
  end.
Proof.
  unfold schedule_field, od_get_default. fold (dget "schedule_details" doc).
  destruct (dget "schedule_details" doc) as [[]|]; reflexivity.
Qed.

Lemma schedule_field_days (doc : dict) :
  doc_shape_ok doc = true ->
  schedule_field doc "days" (VList []) = Ok (VList (doc_days doc)).
Proof.
  rewrite schedule_field_unfold. unfold doc_shape_ok, doc_days, nested, absent_or.
  destruct (dget "schedule_details" doc) as [[| | | | |sd]|];
    try discriminate; [|reflexivity].
  rewrite !andb_true_iff. intros [[D _] _].
  destruct (dget "days" sd) as [[]|]; try discriminate D; reflexivity.
Qed.

Lemma schedule_field_time (doc : dict) (field : string) :
  doc_shape_ok doc = true -> field = "start_time" \/ field = "end_time" ->
  schedule_field doc field (VStr EmptyString) = Ok (VStr (doc_time doc field)).
Proof.
  rewrite schedule_field_unfold. unfold doc_shape_ok, doc_time, nested, absent_or.
  destruct (dget "schedule_details" doc) as [[| | | | |sd]|];
    try discriminate; [|reflexivity].
  rewrite !andb_true_iff. intros [[_ S] E] [->| ->].
  - destruct (dget "start_time" sd) as [[]|]; try discriminate S; reflexivity.
  - destruct (dget "end_time" sd) as [[]|]; try discriminate E; reflexivity.
Qed.

Lemma seq_index_first {A : Type} (x : A) (l : list A) : seq_index (x :: l) 0 = Ok x.
Proof. reflexivity. Qed.

Lemma filter_days_shape (query doc : dict) (m : bool) :
  filter_shape_ok "schedule_details.days" "$in" is_nonempty_list query = true ->
  doc_shape_ok doc = true ->
  filter_days query doc m = Ok (satisfies_days query doc && m).
Proof.
  intros Q D.
  unfold filter_days, satisfies_days, days_filter, dmem, od_mem.
  rewrite py_getitem_dict. fold (dget "schedule_details.days" query).
  unfold filter_shape_ok, absent_or in Q.
  destruct (dget "schedule_details.days" query) as [[| | | | |dq]|];
    try discriminate Q; [|reflexivity].
  simpl rbind. unfold dmem, od_mem. fold (dget "$in" dq).
  destruct (dget "$in" dq) as [[| | | |[|day rest]|]|];
    try discriminate Q; [|reflexivity].
  simpl rbind. rewrite (schedule_field_days _ D). simpl rbind.
  destruct (existsb (fun e => py_eq e day) (doc_days doc)); reflexivity.
Qed.

Lemma filter_start_time_shape (query doc : dict) (m : bool) :
  filter_shape_ok "schedule_details.start_time" "$gte" is_str query = true ->
  doc_shape_ok doc = true ->
  filter_start_time query doc m = Ok (m && satisfies_start query doc).
Proof.
  intros Q D.
  unfold filter_start_time, satisfies_start, time_filter, dmem, od_mem.
  rewrite py_getitem_dict. fold (dget "schedule_details.start_time" query).
  unfold filter_shape_ok, absent_or in Q.
  destruct (dget "schedule_details.start_time" query) as [[| | | | |tq]|];
    try discriminate Q; [|now rewrite andb_true_r].
  destruct m; [|reflexivity].
  simpl rbind. simpl andb. cbv iota. unfold dmem, od_mem. fold (dget "$gte" tq).
  destruct (dget "$gte" tq) as [[| | |t| |]|]; try discriminate Q; [|reflexivity].
  simpl rbind. rewrite (schedule_field_time _ _ D) by now left.
  simpl rbind. rewrite <- string_not_ltb.
  destruct (String.ltb (doc_time doc "start_time") t); reflexivity.
Qed.

Lemma filter_end_time_shape (query doc : dict) (m : bool) :
  filter_shape_ok "schedule_details.end_time" "$lte" is_str query = true ->
  doc_shape_ok doc = true ->
  filter_end_time query doc m = Ok (m && satisfies_end query doc).
Proof.
  intros Q D.
  unfold filter_end_time, satisfies_end, time_filter, dmem, od_mem.
  rewrite py_getitem_dict. fold (dget "schedule_details.end_time" query).
  unfold filter_shape_ok, absent_or in Q.
  destruct (dget "schedule_details.end_time" query) as [[| | | | |tq]|];
    try discriminate Q; [|now rewrite andb_true_r].
  destruct m; [|reflexivity].
  simpl rbind. simpl andb. cbv iota. unfold dmem, od_mem. fold (dget "$lte" tq).
  destruct (dget "$lte" tq) as [[| | |t| |]|]; try discriminate Q; [|reflexivity].
  simpl rbind. rewrite (schedule_field_time _ _ D) by now right.
  unfold py_gt. simpl rbind. rewrite <- string_not_ltb.
  destruct (String.ltb t (doc_time doc "end_time")); reflexivity.
Qed.

Lemma doc_matches_satisfies (query doc : dict) :
  query_shape_ok query = true -> doc_shape_ok doc = true ->
  doc_matches query doc = Ok (satisfies query doc).
Proof.
  unfold query_shape_ok. rewrite !andb_true_iff. intros [[Q1 Q2] Q3] D.
  unfold doc_matches, satisfies.
  rewrite (filter_days_shape _ _ _ Q1 D). simpl rbind.
  rewrite (filter_start_time_shape _ _ _ Q2 D). simpl rbind.
  rewrite (filter_end_time_shape _ _ _ Q3 D).
  now rewrite andb_true_r.
Qed.

Lemma find_satisfies (self : store) (query : dict) :
  query_shape_ok query = true -> store_shape_ok self = true ->
  find self (Some query)
    = Ok (map attach_id (filter (fun item => satisfies query (snd item)) self)).
Proof.
  intros Q S. unfold find.
  rewrite (find_loop_filter query (fun item => satisfies query (snd item))).
  - reflexivity.
  - intros item I. apply doc_matches_satisfies; [exact Q|].
    unfold store_shape_ok in S. rewrite forallb_forall in S. exact (S _ I).
Qed.

(** C4, as stated, fails: the query
    [{"schedule_details.days": {"$in": []}}] makes [find] raise
    [IndexError] on a collection that holds a document, since the loop
    body takes element 0 of the empty list; no list is returned. *)
Lemma find_empty_in_list_raises :
  find two_activities (Some (days_in [])) = Raise IndexError.
Proof. reflexivity. Qed.

(** C4, amended.  Filters of [find].  For a query whose filters, when
    given, are mappings with a non-empty [$in] list and string bounds,
    and stored documents whose [schedule_details], when given, is a
    mapping with a sequence of days and string times, [find] returns, in
    the order of the collection and with the identifier attached, exactly
    the documents that satisfy the three filters: the nested days contain
    the first element of the [$in] list, the nested start time is at
    least the [$gte] bound and the nested end time at most the [$lte]
    bound in string order; a filter that is not given is satisfied.
    Without a query every document is returned.  On the two example
    documents the Monday filter returns the first and the 09:00 filter
    the second. *)
Theorem find_filter_semantics :
  (forall (self : store) (query : dict),
     query_shape_ok query = true -> store_shape_ok self = true ->
     find self (Some query)
       = Ok (map attach_id
               (filter (fun item => satisfies query (snd item)) self))) /\
  (forall self : store, find self None = Ok (map attach_id self)) /\
  (forall (day : value) (rest1 rest2 : list value) (doc : dict),
     satisfies_days (days_in (day :: rest1)) doc
       = satisfies_days (days_in (day :: rest2)) doc) /\
  find two_activities (Some (days_in [VStr "Monday"]))
    = Ok [attach_id (VStr "a", dpop "_id" Monday_doc)] /\
  find two_activities (Some (start_gte (VStr "09:00")))
    = Ok [attach_id (VStr "b", dpop "_id" Tuesday_doc)].
Proof.
  split; [exact find_satisfies|].
  split; [exact find_all|].
  repeat split.
Qed.

Lemma find_filter_semantics_witness :
  find two_activities
    (Some (days_in [VStr "Tuesday"; VStr "Monday"] ++ end_lte (VStr "11:00")))
  = Ok [attach_id (VStr "b", dpop "_id" Tuesday_doc)].
Proof.
  rewrite (proj1 find_filter_semantics); reflexivity.
Defined.

(** *** Documents without a nested time *)

Lemma field_absent_default (doc : dict) (field : string) (dflt : value) :
  field_absent doc field = true -> schedule_field doc field dflt = Ok dflt.
Proof.
  rewrite schedule_field_unfold. unfold field_absent, dmem, od_mem.
  destruct (dget "schedule_details" doc) as [[| | | | |sd]|];
    try discriminate; [|reflexivity].
  fold (dget field sd). destruct (dget field sd); [discriminate | reflexivity].
Qed.

Lemma field_absent_doc_time (doc : dict) (field : string) :
  field_absent doc field = true -> doc_time doc field = EmptyString.
Proof.
  unfold field_absent, doc_time, nested, dmem, od_mem.
  destruct (dget "schedule_details" doc) as [[| | | | |sd]|];
    try discriminate; [|reflexivity].
  fold (dget field sd). destruct (dget field sd); [discriminate | reflexivity].
Qed.

Lemma field_absent_attach_id (item : value * dict) (field : string) :
  field_absent (attach_id item) field = field_absent (snd item) field.
Proof.
  unfold field_absent, attach_id, deepcopy.
  rewrite dget_dset_other by discriminate. reflexivity.
Qed.

Lemma leb_empty_r (t : string) : t <> EmptyString -> String.leb t EmptyString = false.
Proof. destruct t; [contradiction | reflexivity]. Qed.

Lemma leb_empty_l (t : string) : String.leb EmptyString t = true.
Proof. destruct t; reflexivity. Qed.

Lemma ltb_empty_l (t : string) : t <> EmptyString -> String.ltb EmptyString t = true.
Proof. destruct t; [contradiction | reflexivity]. Qed.

Lemma ltb_empty_r (t : string) : String.ltb t EmptyString = false.
Proof. destruct t; reflexivity. Qed.

(** C10.  A document without a nested start time (no [schedule_details],
    or a [schedule_details] mapping without [start_time]) is compared as
    if its start time were the empty string, so no [$gte] filter with a
    non-empty bound lets it through: the loop body leaves [match] false
    and [find] returns no such document.  A document without a nested end
    time is compared as if its end time were the empty string, so every
    [$lte] filter lets it through: the loop body leaves [match] true and
    [find] returns the document. *)
Theorem missing_time_is_empty_string :
  (forall (doc : dict) (t : string),
     field_absent doc "start_time" = true ->
     schedule_field doc "start_time" (VStr EmptyString) = Ok (VStr EmptyString) /\
     (t <> EmptyString -> doc_matches (start_gte (VStr t)) doc = Ok false)) /\
  (forall (query doc : dict) (t : string),
     query_shape_ok query = true -> doc_shape_ok doc = true ->
     time_filter "schedule_details.start_time" "$gte" query = Some t ->
     t <> EmptyString -> field_absent doc "start_time" = true ->
     doc_matches query doc = Ok false) /\
  (forall (self : store) (t : string),
     store_shape_ok self = true -> t <> EmptyString ->
     exists results,
       find self (Some (start_gte (VStr t))) = Ok results /\
       forall r, In r results -> field_absent r "start_time" = false) /\
  (forall (doc : dict) (t : string),
     field_absent doc "end_time" = true ->
     schedule_field doc "end_time" (VStr EmptyString) = Ok (VStr EmptyString) /\
     doc_matches (end_lte (VStr t)) doc = Ok true) /\
  (forall (query doc : dict),
     field_absent doc "end_time" = true -> satisfies_end query doc = true) /\
  (forall (self : store) (t : string) (item : value * dict),
     store_shape_ok self = true -> In item self ->
     field_absent (snd item) "end_time" = true ->
     exists results,
       find self (Some (end_lte (VStr t))) = Ok results /\
       In (attach_id item) results).
Proof.
  split; [|split; [|split; [|split; [|split]]]].
  - intros doc t A. split; [now apply field_absent_default|].
    intro NE. unfold doc_matches, filter_days, filter_start_time. simpl.
    rewrite (field_absent_default _ _ _ A). simpl.
    now rewrite (ltb_empty_l _ NE).
  - intros query doc t Q D F NE A.
    rewrite (doc_matches_satisfies _ _ Q D). f_equal.
    unfold satisfies, satisfies_start.
    rewrite F, (field_absent_doc_time _ _ A), (leb_empty_r _ NE).
    now rewrite andb_false_r.
  - intros self t S NE. eexists. split.
    + apply find_satisfies; [reflexivity | exact S].
    + intros r I. apply in_map_iff in I as (item & <- & I).
      apply filter_In in I as [_ I]. rewrite field_absent_attach_id.
      destruct (field_absent (snd item) "start_time") eqn:A; [|reflexivity].
      unfold satisfies, satisfies_start in I. simpl in I.
      rewrite (field_absent_doc_time _ _ A), (leb_empty_r _ NE) in I.
      discriminate I.
  - intros doc t A. split; [now apply field_absent_default|].
    unfold doc_matches, filter_days, filter_start_time, filter_end_time. simpl.
    rewrite (field_absent_default _ _ _ A). simpl.
    now rewrite ltb_empty_r.
  - intros query doc A. unfold satisfies_end.
    destruct (time_filter _ _ query); [|reflexivity].
    rewrite (field_absent_doc_time _ _ A). apply leb_empty_l.
  - intros self t item S I A. eexists. split.
    + apply find_satisfies; [reflexivity | exact S].
    + apply in_map. apply filter_In. split; [exact I|].
      unfold satisfies, satisfies_end. simpl.
      rewrite (field_absent_doc_time _ _ A). apply leb_empty_l.
Qed.

Lemma missing_time_is_empty_string_witness :
  doc_matches (start_gte (VStr "00:00")) (dpop "_id" no_schedule_doc) = Ok false /\
  doc_matches (end_lte (VStr "00:00")) (dpop "_id" no_schedule_doc) = Ok true.
Proof.
  split.
  - apply (proj1 missing_time_is_empty_string); [reflexivity | discriminate].
  - apply (proj1 (proj2 (proj2 (proj2 missing_time_is_empty_string))));
      reflexivity.
Defined.

(** ** Identifiers under update_one *)

Lemma op_for_invariant {A : Type} (P : dict -> Prop) (items : list A)
    (body : A -> doc_op unit) :
  (forall x doc, P doc -> P (fst (body x doc))) ->
  forall doc, P doc -> P (fst (op_for items body doc)).
Proof.
  intro B. induction items as [|x items IH]; simpl; intros doc H.
  - exact H.
  - unfold op_bind. pose proof (B x doc H) as Hx.
    destruct (body x doc) as [doc' [[]|e]]; simpl in *; auto.
Qed.

Lemma operator_block_invariant (P : dict -> Prop) (op : string) (update : dict)
    (body : string * value -> doc_op unit) :
  (forall x doc, P doc -> P (fst (body x doc))) ->
  forall doc, P doc -> P (fst (operator_block op update body doc)).
Proof.
  intros B doc H. rewrite operator_block_unfold.
  destruct (dget op update) as [[]|]; simpl; auto.
  now apply op_for_invariant.
Qed.

Lemma dset_nonempty k v d : nonempty (dset k v d).
Proof. apply od_set_nonempty. Qed.

Lemma push_item_nonempty kv doc : nonempty doc -> nonempty (fst (push_item kv doc)).
Proof.
  intro H. unfold push_item. destruct kv as [key v].
  destruct (negb (dmem key doc)).
  - destruct (dget key (dset key (VList []) doc)) as [[]|]; simpl;
      apply dset_nonempty.
  - destruct (dget key doc) as [[]|]; simpl; auto using dset_nonempty.
Qed.

Lemma pull_item_nonempty kv doc : nonempty doc -> nonempty (fst (pull_item kv doc)).
Proof.
  intro H. unfold pull_item. destruct kv as [key v].
  destruct (dget key doc) as [[]|]; simpl; auto using dset_nonempty.
Qed.

Lemma set_item_nonempty kv doc : nonempty doc -> nonempty (fst (set_item kv doc)).
Proof. intros _. unfold set_item. destruct kv. apply dset_nonempty. Qed.

(** No operator removes a field: a document with a field keeps one,
    whether or not the update raises. *)
Lemma apply_update_nonempty (update doc : dict) :
  nonempty doc -> nonempty (fst (apply_update update doc)).
Proof.
  intro H. rewrite apply_update_unfold.
  pose proof (operator_block_invariant nonempty "$push" update push_item
                push_item_nonempty doc H) as H1.
  destruct (operator_block "$push" update push_item doc) as [doc1 [[]|e]];
    simpl in *; [|exact H1].
  pose proof (operator_block_invariant nonempty "$pull" update pull_item
                pull_item_nonempty doc1 H1) as H2.
  destruct (operator_block "$pull" update pull_item doc1) as [doc2 [[]|e]];
    simpl in *; [|exact H2].
  apply (operator_block_invariant nonempty "$set" update set_item
           set_item_nonempty doc2 H2).
Qed.

(** What [update_one] does to the collection: nothing, or a new body for
    the document stored under the identifier of the query. *)
Lemma update_one_store (self : store) (query update : dict) :
  fst (update_one self query update) = self \/
  exists doc_id doc,
    is_hashable doc_id /\ sget doc_id self = Some doc /\
    fst (update_one self query update)
      = sset doc_id (fst (apply_update update doc)) self.
Proof.
  rewrite update_one_unfold.
  destruct (dget "_id" query) as [doc_id|]; [|now left].
  destruct (hashable doc_id) eqn:H; [|now left].
  destruct (sget doc_id self) as [doc|] eqn:S; [|now left].
  right. exists doc_id, doc. auto.
Qed.

(** Every collection the application can build has hashable, pairwise
    different identifiers. *)
Lemma reachable_store_wf (self : store) : reachable self -> store_wf self.
Proof.
  induction 1 as [|self document R IH|self query update R IH|self key R IH].
  - split; [constructor | reflexivity].
  - rewrite insert_one_unfold.
    destruct (dget "_id" document) as [doc_id|]; [|exact IH].
    destruct doc_id; simpl; try exact IH; now apply store_wf_sset.
  - destruct (update_one_store self query update) as [->|(id & doc & H & _ & ->)];
      [exact IH | now apply store_wf_sset].
  - now apply store_wf_spop.
Qed.

Lemma find_one_identifier (self : store) (query found : dict) :
  find_one self query = Ok (Some found) -> dget "_id" found = dget "_id" query.
Proof.
  rewrite find_one_unfold.
  destruct (dget "_id" query) as [qid|]; [|discriminate].
  destruct (hashable qid); [|discriminate].
  destruct (sget qid self) as [d|]; [|discriminate].
  destruct (truthy (Some d)); [|discriminate].
  intros [= <-]. apply dget_dset_same.
Qed.

(** C9.  Identifiers are not changed by [update_one].  For every
    collection, query and update (also one that raises, and one whose
    [$set] names the identifier field) the identifiers of the collection
    are the same, in the same order, after the call; a document that
    [find_one] found before is found after, under the same identifier;
    [find] reports the same identifiers before and after, those of the
    collection.  [insert_one] keeps the identifiers already there.
    Setting ["_id"] to ["y"] in the document stored under ["x"] leaves it
    stored, found and listed under ["x"], and nothing under ["y"]. *)
Theorem update_one_keeps_identifiers (self : store) (query update : dict) :
  let updated := fst (update_one self query update) in
  map fst updated = map fst self /\
  (forall q found,
     find_one self q = Ok (Some found) ->
     exists found',
       find_one updated q = Ok (Some found') /\
       dget "_id" found' = dget "_id" found) /\
  (exists before_docs after_docs,
     find self None = Ok before_docs /\ find updated None = Ok after_docs /\
     map (dget "_id") before_docs = map Some (map fst self) /\
     map (dget "_id") after_docs = map (dget "_id") before_docs) /\
  (forall document, exists added,
     map fst (fst (insert_one self document)) = map fst self ++ added) /\
  (let renamed :=
     fst (update_one renamed_store [("_id", VStr "x")] rename_update) in
   map fst renamed = [VStr "x"] /\
   find_one renamed [("_id", VStr "x")]
     = Ok (Some [("n", VInt 1); ("_id", VStr "x")]) /\
   find_one renamed [("_id", VStr "y")] = Ok None /\
   find renamed None = Ok [[("n", VInt 1); ("_id", VStr "x")]]).
Proof.
  intro updated.
  assert (Keys : map fst updated = map fst self).
  { unfold updated.
    destruct (update_one_store self query update) as [->|(id & doc & H & S & ->)].
    - reflexivity.
    - apply od_set_present. unfold od_mem. fold (sget id self). now rewrite S. }
  assert (Ids : forall s, map (dget "_id") (map attach_id s) = map Some (map fst s)).
  { intro s. rewrite !map_map. apply map_ext. intro item.
    apply attach_id_identifier. }
  split; [exact Keys|]. split; [|split; [|split]].
  - intros q found F. pose proof (find_one_identifier _ _ _ F) as I.
    unfold updated.
    destruct (update_one_store self query update) as [->|(id & doc & H & S & ->)].
    + exists found. auto.
    + rewrite find_one_unfold in F. rewrite find_one_unfold.
      destruct (dget "_id" q) as [qid|]; [|discriminate F].
      destruct (hashable qid) eqn:HQ; [|discriminate F].
      assert (Cases : key_norm id = key_norm qid \/ key_norm id <> key_norm qid).
      { destruct id, qid; simpl; try discriminate H; try discriminate HQ;
          try (right; discriminate); try (now left).
        - destruct (Z.eq_dec (if b then 1 else 0) (if b0 then 1 else 0)) as [->|N];
            [now left | right; congruence].
        - destruct (Z.eq_dec (if b then 1 else 0) z) as [->|N];
            [now left | right; congruence].
        - destruct (Z.eq_dec z (if b then 1 else 0)) as [->|N];
            [now left | right; congruence].
        - destruct (Z.eq_dec z z0) as [->|N]; [now left | right; congruence].
        - destruct (string_dec s s0) as [->|N]; [now left | right; congruence]. }
      destruct Cases as [E|NE].
      * rewrite <- (sget_norm _ _ self H HQ E), S in F.
        rewrite <- (sget_norm _ _ _ H HQ E).
        rewrite sget_sset_same by exact H.
        destruct doc as [|f doc]; [discriminate F|].
        pose proof (apply_update_nonempty update (f :: doc)) as NEm.
        destruct (fst (apply_update update (f :: doc))) as [|f' doc'].
        -- exfalso. apply NEm; [discriminate | reflexivity].
        -- cbn [truthy]. eexists. split; [reflexivity|].
           rewrite I. apply dget_dset_same.
      * rewrite sget_sset_other by assumption.
        exists found. auto.
  - exists (map attach_id self), (map attach_id updated).
    rewrite !find_all, !Ids, Keys. auto.
  - intro document. rewrite insert_one_unfold.
    destruct (dget "_id" document) as [[]|];
      try (exists []; simpl; now rewrite app_nil_r);
      (simpl; unfold sset; rewrite od_set_keys;
       match goal with |- context [od_mem py_eq ?k self] =>
         destruct (od_mem py_eq k self) end;
       [exists []; now rewrite app_nil_r | eexists; reflexivity]).
  - repeat split.
Qed.

Lemma update_one_keeps_identifiers_witness :
  exists found',
    find_one (fst (update_one tags_store [("_id", VStr "x")]
                     [("$push", VInt 0)]))
             [("_id", VStr "x")] = Ok (Some found') /\
    dget "_id" found' = Some (VStr "x").
Proof.
  apply (proj1 (proj2 (update_one_keeps_identifiers tags_store
           [("_id", VStr "x")] [("$push", VInt 0)]))
           [("_id", VStr "x")] [("tags", VList [VStr "a"]); ("_id", VStr "x")]).
  reflexivity.
Defined.

(** ** aggregate *)

(** *** String order *)

Lemma string_compare_as_OT (a b : string) :
  String.compare a b = String_as_OT.compare a b.
Proof.
  reflexivity.
Qed.

Lemma str_lt_compare (a b : string) : str_lt a b <-> String.compare a b = Lt.
Proof.
  unfold str_lt, String.ltb.
  destruct (String.compare a b); split; congruence.
Qed.

Lemma str_lt_trans (a b c : string) : str_lt a b -> str_lt b c -> str_lt a c.
Proof.
  rewrite !str_lt_compare, !string_compare_as_OT.
  apply String_as_OT.lt_strorder.
Qed.

Lemma str_lt_irrefl (a : string) : ~ str_lt a a.
Proof.
  rewrite str_lt_compare, string_compare_as_OT.
  apply String_as_OT.lt_strorder.
Qed.

Lemma str_lt_total (a b : string) : String.ltb a b = false -> a <> b -> str_lt b a.
Proof.
  intros NL NE. apply str_lt_compare. rewrite String.compare_antisym.
  unfold String.ltb in NL.
  destruct (String.compare a b) eqn:C; try reflexivity; try discriminate NL.
  apply String.compare_eq_iff in C. contradiction.
Qed.

(** *** The loop and the sort on day names *)

Lemma entry_seen (seen : list string) (day : string) :
  existsb (fun r => py_eq (VDict r) (VDict [("_id", VStr day)])) (map entry_of seen)
  = existsb (fun d => String.eqb d day) seen.
Proof.
  induction seen as [|d seen IH]; [reflexivity|].
  cbn [map existsb]. rewrite IH. f_equal.
  unfold entry_of. simpl. now rewrite andb_true_r.
Qed.

Lemma add_day_entry (seen : list string) (day : string) :
  add_day (map entry_of seen) (VStr day) = map entry_of (dedup_add seen day).
Proof.
  unfold add_day, dedup_add. rewrite entry_seen.
  destruct (existsb (fun d => String.eqb d day) seen); [reflexivity|].
  now rewrite map_app.
Qed.

Lemma fold_add_day_entries (days seen : list string) :
  fold_left add_day (map VStr days) (map entry_of seen)
  = map entry_of (fold_left dedup_add days seen).
Proof.
  revert seen. induction days as [|d days IH]; simpl; intro seen; [reflexivity|].
  now rewrite add_day_entry, IH.
Qed.

Lemma sort_insert_entry (x : string) (sorted : list string) :
  sort_insert (entry_of x) (map entry_of sorted)
  = Ok (map entry_of (insert_str x sorted)).
Proof.
  induction sorted as [|y sorted IH]; simpl; [reflexivity|].
  destruct (String.ltb x y); [reflexivity|].
  rewrite IH. reflexivity.
Qed.

Lemma sort_loop_entries (items sorted : list string) :
  sort_loop (map entry_of items) (map entry_of sorted)
  = Ok (map entry_of (fold_left (fun acc x => insert_str x acc) items sorted)).
Proof.
  revert sorted. induction items as [|x items IH]; simpl; intro sorted;
    [reflexivity|].
  rewrite sort_insert_entry. simpl. apply IH.
Qed.

(** *** Distinctness *)

Lemma existsb_eqb_In (seen : list string) (day : string) :
  existsb (fun d => String.eqb d day) seen = true <-> In day seen.
Proof.
  rewrite existsb_exists. split.
  - intros (d & I & E). apply String.eqb_eq in E. now subst.
  - intro I. exists day. split; [exact I | apply String.eqb_refl].
Qed.

Lemma dedup_add_In (seen : list string) (day d : string) :
  In d (dedup_add seen day) <-> In d seen \/ d = day.
Proof.
  unfold dedup_add.
  destruct (existsb (fun d => String.eqb d day) seen) eqn:E.
  - apply existsb_eqb_In in E. split; [tauto | intros [I| ->]; assumption].
  - rewrite in_app_iff. simpl. split; intros [I|I]; auto.
    destruct I as [<-|[]]. now right.
Qed.

Lemma dedup_add_NoDup (seen : list string) (day : string) :
  NoDup seen -> NoDup (dedup_add seen day).
Proof.
  intro ND. unfold dedup_add.
  destruct (existsb (fun d => String.eqb d day) seen) eqn:E; [exact ND|].
  assert (NI : ~ In day seen).
  { intro I. apply existsb_eqb_In in I. congruence. }
  apply NoDup_rev in ND. rewrite <- (rev_involutive (seen ++ [day])).
  apply NoDup_rev. rewrite rev_app_distr. simpl. constructor; [|exact ND].
  now rewrite <- in_rev.
Qed.

Lemma fold_dedup_add (days seen : list string) :
  NoDup seen ->
  NoDup (fold_left dedup_add days seen) /\
  forall d, In d (fold_left dedup_add days seen) <-> In d seen \/ In d days.
Proof.
  revert seen. induction days as [|day days IH]; simpl; intros seen ND.
  - split; [exact ND | tauto].
  - destruct (IH _ (dedup_add_NoDup seen day ND)) as [N I].
    split; [exact N|]. intro d. rewrite I, dedup_add_In.
    split; [intros [[?| ->]|?] | intros [?|[<-|?]]]; auto.
Qed.

(** *** Order *)

Lemma insert_str_In (x d : string) (sorted : list string) :
  In d (insert_str x sorted) <-> d = x \/ In d sorted.
Proof.
  induction sorted as [|y sorted IH]; simpl.
  - split; intros [E|E]; auto.
  - destruct (String.ltb x y); simpl; [|rewrite IH]; split; intuition auto.
Qed.

Lemma insert_str_sorted (x : string) (sorted : list string) :
  StronglySorted str_lt sorted -> ~ In x sorted ->
  StronglySorted str_lt (insert_str x sorted).
Proof.
  induction sorted as [|y sorted IH]; simpl; intros S NI.
  - constructor; constructor.
  - inversion S as [|? ? S' F]; subst.
    destruct (String.ltb x y) eqn:L.
    + constructor; [exact S|]. constructor; [exact L|].
      rewrite Forall_forall in *. intros z I.
      apply (str_lt_trans x y z L), F, I.
    + assert (YX : str_lt y x) by (apply str_lt_total; [exact L | intuition auto]).
      constructor; [apply IH; intuition auto|].
      rewrite Forall_forall in *. intros z I.
      apply insert_str_In in I as [->|I]; [exact YX | exact (F _ I)].
Qed.

Lemma fold_insert_str (items sorted : list string) :
  StronglySorted str_lt sorted -> NoDup items ->
  (forall d, In d items -> ~ In d sorted) ->
  StronglySorted str_lt (fold_left (fun acc x => insert_str x acc) items sorted) /\
  forall d, In d (fold_left (fun acc x => insert_str x acc) items sorted)
            <-> In d sorted \/ In d items.
Proof.
  revert sorted. induction items as [|x items IH]; simpl; intros sorted S ND Dis.
  - split; [exact S | tauto].
  - inversion ND as [|? ? NI ND']; subst.
    destruct (IH (insert_str x sorted)) as [S' I'].
    + apply insert_str_sorted; auto.
    + exact ND'.
    + intros d I C. apply insert_str_In in C as [->|C]; [contradiction|].
      exact (Dis d (or_intror I) C).
    + split; [exact S'|]. intro d. rewrite I', insert_str_In.
      split; [intros [[->|?]|?] | intros [?|[<-|?]]]; auto.
Qed.

Lemma sorted_str_NoDup (l : list string) : StronglySorted str_lt l -> NoDup l.
Proof.
  induction 1 as [|x l S IH F]; constructor; [|exact IH].
  intro I. rewrite Forall_forall in F. exact (str_lt_irrefl x (F _ I)).
Qed.

(** *** The days of the stored documents *)

Lemma strings_of (l : list value) :
  forallb is_str l = true -> l = map VStr (map str_of l).
Proof.
  induction l as [|[] l IH]; simpl; intro H; try discriminate H; [reflexivity|].
  now rewrite <- IH.
Qed.

Lemma doc_days_strings (doc : dict) :
  doc_days_ok doc = true -> forallb is_str (doc_days doc) = true.
Proof.
  unfold doc_days_ok, doc_days, nested, absent_or.
  destruct (dget "schedule_details" doc) as [[| | | | |sd]|];
    try discriminate; [|reflexivity].
  destruct (dget "days" sd) as [[]|]; try discriminate; auto.
Qed.

Lemma all_days_strings (self : store) :
  store_days_ok self = true -> forallb is_str (all_days self) = true.
Proof.
  unfold store_days_ok, all_days.
  induction self as [|item self IH]; simpl; [reflexivity|].
  rewrite andb_true_iff. intros [D S].
  rewrite forallb_app, (doc_days_strings _ D), IH by exact S. reflexivity.
Qed.

Lemma collect_days_shape (results : list dict) (doc : dict) :
  doc_days_ok doc = true ->
  collect_days results doc = Ok (fold_left add_day (doc_days doc) results).
Proof.
  unfold doc_days_ok, collect_days, doc_days, nested, absent_or, dmem, od_mem.
  rewrite py_getitem_dict. fold (dget "schedule_details" doc).
  destruct (dget "schedule_details" doc) as [[| | | | |sd]|];
    try discriminate; [|reflexivity].
  simpl rbind. unfold dmem, od_mem. fold (dget "days" sd).
  destruct (dget "days" sd) as [[]|]; try discriminate; reflexivity.
Qed.

Lemma aggregate_loop_shape (items : store) (results : list dict) :
  store_days_ok items = true ->
  aggregate_loop items results = Ok (fold_left add_day (all_days items) results).
Proof.
  unfold store_days_ok, all_days. revert results.
  induction items as [|[doc_id doc] items IH]; simpl; intros results;
    [reflexivity|].
  rewrite andb_true_iff. intros [D S].
  rewrite (collect_days_shape _ _ D). simpl rbind.
  rewrite fold_left_app. now apply IH.
Qed.

Lemma aggregate_names (self : store) (pipeline : list dict) :
  store_days_ok self = true ->
  aggregate self pipeline
  = Ok (map entry_of
          (sort_str (fold_left dedup_add (map str_of (all_days self)) []))).
Proof.
  intro S. unfold aggregate. rewrite (aggregate_loop_shape _ _ S). simpl rbind.
  rewrite (strings_of _ (all_days_strings _ S)).
  change (@nil dict) with (map entry_of []).
  rewrite fold_add_day_entries. unfold list_sort.
  change (@nil dict) with (map entry_of []).
  rewrite sort_loop_entries. rewrite map_map.
  replace (map (fun x => str_of (VStr x)) (map str_of (all_days self)))
    with (map str_of (all_days self)) by (symmetry; apply map_id).
  reflexivity.
Qed.

(** C5.  [aggregate] does not look at its pipeline.  On a collection
    whose nested days are sequences of strings it returns one entry
    [{"_id": day}] for each day that occurs in the days of some stored
    document: the days named are exactly those, none of them twice, in
    strictly ascending string order.  Documents with days
    [["Monday","Friday"]] and [["Friday"]] give
    [[{"_id":"Friday"},{"_id":"Monday"}]]. *)
Theorem aggregate_distinct_sorted_days :
  (forall (self : store) (p1 p2 : list dict),
     aggregate self p1 = aggregate self p2) /\
  (forall (self : store) (pipeline : list dict),
     store_days_ok self = true ->
     exists days : list string,
       aggregate self pipeline = Ok (map (fun day => [("_id", VStr day)]) days) /\
       StronglySorted str_lt days /\
       NoDup days /\
       forall day,
         In day days <->
         exists item, In item self /\ In (VStr day) (doc_days (snd item))) /\
  aggregate Monday_Friday_store []
    = Ok [[("_id", VStr "Friday")]; [("_id", VStr "Monday")]].
Proof.
  split; [reflexivity|]. split; [|reflexivity].
  intros self pipeline S.
  exists (sort_str (fold_left dedup_add (map str_of (all_days self)) [])).
  split; [exact (aggregate_names self pipeline S)|].
  destruct (fold_dedup_add (map str_of (all_days self)) [] (NoDup_nil _))
    as [ND Seen].
  destruct (fold_insert_str
              (fold_left dedup_add (map str_of (all_days self)) []) []
              (SSorted_nil _) ND (fun _ _ C => C)) as [Sorted Members].
  split; [exact Sorted|]. split; [exact (sorted_str_NoDup _ Sorted)|].
  intro day. unfold sort_str. rewrite Members, Seen. simpl.
  assert (Names : In day (map str_of (all_days self)) <-> In (VStr day) (all_days self)).
  { rewrite (strings_of _ (all_days_strings _ S)) at 2.
    rewrite in_map_iff. split.
    - intros (v & <- & I).
      apply in_map_iff. exists (str_of v). split; [reflexivity|].
      apply in_map, I.
    - intro I. apply in_map_iff in I as (n & [= <-] & I). 
      apply in_map_iff in I as (v & <- & I). exists v. auto. }
  unfold all_days in Names at 2. rewrite in_flat_map in Names.
  tauto.
Qed.

Lemma aggregate_distinct_sorted_days_witness :
  exists days : list string,
    aggregate two_activities [[("$unwind", VStr "$schedule_details.days")]]
      = Ok (map (fun day => [("_id", VStr day)]) days) /\
    StronglySorted str_lt days.
Proof.
  destruct (proj1 (proj2 aggregate_distinct_sorted_days) two_activities
              [[("$unwind", VStr "$schedule_details.days")]] eq_refl)
    as (days & A & S & _).
  exists days. split; assumption.
Defined.

(** ** count_documents *)

Lemma insertable_hashable (d : dict) : insertable d = true -> is_hashable (doc_id_of d).
Proof. unfold insertable, is_hashable. destruct (doc_id_of d); auto. Qed.

Lemma insert_one_insertable (self : store) (d : dict) :
  insertable d = true ->
  fst (insert_one self d) = sset (doc_id_of d) (dpop "_id" d) self.
Proof.
  intro I. rewrite insert_one_success; [reflexivity | | now apply insertable_hashable].
  intro E. unfold insertable in I. now rewrite E in I.
Qed.

Lemma insert_one_not_insertable (self : store) (d : dict) :
  insertable d = false -> fst (insert_one self d) = self.
Proof.
  unfold insertable, doc_id_of, od_get_default. rewrite insert_one_unfold.
  fold (dget "_id" d).
  destruct (dget "_id" d) as [[]|]; simpl; intro H; try discriminate H; reflexivity.
Qed.

Lemma insert_all_insertable (self : store) (documents : list dict) :
  insert_all self documents = insert_all self (filter insertable documents).
Proof.
  unfold insert_all. revert self.
  induction documents as [|d documents IH]; simpl; intro self; [reflexivity|].
  destruct (insertable d) eqn:I; simpl.
  - apply IH.
  - rewrite (insert_one_not_insertable _ _ I). apply IH.
Qed.

Lemma not_overwritten_incl (documents : list dict) (d : dict) :
  In d (not_overwritten documents) -> In d documents.
Proof.
  induction documents as [|d0 later IH]; simpl; [tauto|].
  destruct (existsb (same_identifier d0) later); simpl; tauto.
Qed.

Lemma smem_norm (k k' : value) (s : store) :
  is_hashable k -> is_hashable k' -> key_norm k = key_norm k' ->
  smem k s = smem k' s.
Proof. apply (od_mem_norm _ _ _ py_eq_norm). Qed.

Lemma smem_sset (k k' : value) (d : dict) (s : store) :
  is_hashable k -> is_hashable k' ->
  smem k' (sset k d s) = smem k' s || py_eq k k'.
Proof. apply (od_mem_set _ _ _ py_eq_norm). Qed.

Section Counting.
Variable self : store.
Variable k : value.
Hypothesis k_hashable : is_hashable k.

Lemma fresh_after_unrelated (documents : list dict) :
  Forall (fun d => insertable d = true) documents ->
  existsb (fun d => py_eq k (doc_id_of d)) documents = false ->
  filter (fresh_after self k) (not_overwritten documents)
  = filter (fresh self) (not_overwritten documents).
Proof.
  intros A N. apply filter_ext_in. intros d I.
  apply not_overwritten_incl in I. unfold fresh_after, fresh.
  assert (py_eq k (doc_id_of d) = false) as ->; [|now rewrite orb_false_r].
  destruct (py_eq k (doc_id_of d)) eqn:E; [|reflexivity].
  assert (existsb (fun d => py_eq k (doc_id_of d)) documents = true).
  { apply existsb_exists. exists d. auto. }
  congruence.
Qed.

Lemma fresh_after_present (documents : list dict) :
  Forall (fun d => insertable d = true) documents ->
  smem k self = true ->
  filter (fresh_after self k) (not_overwritten documents)
  = filter (fresh self) (not_overwritten documents).
Proof.
  intros A M. apply filter_ext_in. intros d I.
  apply not_overwritten_incl in I. unfold fresh_after, fresh.
  rewrite Forall_forall in A. pose proof (insertable_hashable _ (A _ I)) as H.
  destruct (py_eq k (doc_id_of d)) eqn:E; [|now rewrite orb_false_r].
  apply py_eq_norm in E; [|exact H].
  rewrite <- (smem_norm _ _ self k_hashable H E), M. reflexivity.
Qed.

Lemma fresh_overwritten (documents : list dict) :
  Forall (fun d => insertable d = true) documents ->
  smem k self = false ->
  existsb (fun d => py_eq k (doc_id_of d)) documents = true ->
  List.length (filter (fresh self) (not_overwritten documents))
  = S (List.length (filter (fresh_after self k) (not_overwritten documents))).
Proof.
  intros A M. induction documents as [|d later IH]; simpl; [discriminate|].
  inversion A as [|? ? Id A']; subst. intro Ex.
  pose proof (insertable_hashable _ Id) as H.
  destruct (existsb (same_identifier d) later) eqn:Over.
  - apply IH; [exact A'|].
    destruct (py_eq k (doc_id_of d)) eqn:E; [|exact Ex].
    apply existsb_exists in Over as (d' & I' & S').
    apply existsb_exists. exists d'. split; [exact I'|].
    rewrite Forall_forall in A'.
    pose proof (insertable_hashable _ (A' _ I')) as H'.
    unfold same_identifier in S'.
    apply py_eq_norm in E; [|exact H]. apply py_eq_norm in S'; [|exact H'].
    apply py_eq_norm; [exact H' | congruence].
  - simpl. destruct (py_eq k (doc_id_of d)) eqn:E.
    + assert (fresh self d = true) as ->.
      { unfold fresh. apply py_eq_norm in E; [|exact H].
        rewrite <- (smem_norm _ _ self k_hashable H E), M. reflexivity. }
      assert (fresh_after self k d = false) as ->.
      { unfold fresh_after. rewrite E, orb_true_r. reflexivity. }
      simpl. f_equal. rewrite fresh_after_unrelated; [reflexivity | exact A'|].
      destruct (existsb (fun d0 => py_eq k (doc_id_of d0)) later) eqn:Ex';
        [|reflexivity].
      apply existsb_exists in Ex' as (d' & I' & E').
      assert (existsb (same_identifier d) later = true); [|congruence].
      apply existsb_exists. exists d'. split; [exact I'|].
      rewrite Forall_forall in A'.
      pose proof (insertable_hashable _ (A' _ I')) as H'.
      unfold same_identifier.
      apply py_eq_norm in E; [|exact H]. apply py_eq_norm in E'; [|exact H'].
      apply py_eq_norm; [exact H' | congruence].
    + simpl in Ex.
      assert (fresh_after self k d = fresh self d) as ->.
      { unfold fresh_after, fresh. now rewrite E, orb_false_r. }
      destruct (fresh self d); simpl; rewrite (IH A' Ex); reflexivity.
Qed.
End Counting.

Lemma insert_all_length (self : store) (documents : list dict) :
  Forall (fun d => insertable d = true) documents ->
  List.length (insert_all self documents)
  = (List.length self
     + List.length (filter (fresh self) (not_overwritten documents)))%nat.
Proof.
  revert self. induction documents as [|d later IH]; intros self A.
  - simpl. lia.
  - inversion A as [|? ? Id A']; subst.
    pose proof (insertable_hashable _ Id) as H.
    unfold insert_all. simpl fold_left. fold (insert_all (fst (insert_one self d)) later).
    rewrite (insert_one_insertable _ _ Id), (IH _ A').
    assert (After :
      filter (fresh (sset (doc_id_of d) (dpop "_id" d) self))
             (not_overwritten later)
      = filter (fresh_after self (doc_id_of d)) (not_overwritten later)).
    { apply filter_ext_in. intros d' I'. apply not_overwritten_incl in I'.
      rewrite Forall_forall in A'. unfold fresh, fresh_after.
      rewrite smem_sset; auto using insertable_hashable. }
    rewrite After. unfold sset. rewrite od_set_length. fold (smem (doc_id_of d) self).
    simpl not_overwritten. unfold same_identifier at 1.
    destruct (smem (doc_id_of d) self) eqn:M.
    + rewrite (fresh_after_present self _ H later A' M).
      destruct (existsb _ later); simpl; unfold fresh at 2; rewrite ?M; reflexivity.
    + destruct (existsb (fun d' => py_eq (doc_id_of d) (doc_id_of d')) later) eqn:Over.
      * rewrite (fresh_overwritten self _ H later A' M Over). lia.
      * rewrite (fresh_after_unrelated self _ later A' Over).
        simpl. unfold fresh at 2. rewrite M. simpl. lia.
Qed.

Lemma filter_insertable_all (documents : list dict) :
  Forall (fun d => insertable d = true) (filter insertable documents).
Proof. apply Forall_forall. intros d I. now apply filter_In in I. Qed.

(** After a sequence of insertions into the empty collection there are
    as many documents as insertions that succeeded and were not replaced
    by a later one. *)
Lemma insert_all_count (documents : list dict) :
  List.length (insert_all [] documents)
  = List.length (not_overwritten (filter insertable documents)).
Proof.
  rewrite insert_all_insertable.
  rewrite (insert_all_length [] _ (filter_insertable_all documents)).
  simpl. induction (not_overwritten (filter insertable documents));
    simpl; congruence.
Qed.

(** C8.  [count_documents] without a query or with the empty query gives
    the number of stored documents; with any other query it gives the
    length of what [find] returns for it (and raises when [find] does).
    After a sequence of insertions into the empty collection,
    [count_documents({})] is the number of documents that were inserted
    and not replaced by a later insertion under an equal identifier. *)
Theorem count_documents_semantics :
  (forall self : store,
     count_documents self None = Ok (Z.of_nat (List.length self)) /\
     count_documents self (Some []) = Ok (Z.of_nat (List.length self))) /\
  (forall (self : store) (query : dict),
     query <> [] ->
     count_documents self (Some query) =
       match find self (Some query) with
       | Ok found => Ok (Z.of_nat (List.length found))
       | Raise e => Raise e
       end) /\
  (forall documents : list dict,
     count_documents (insert_all [] documents) (Some [])
     = Ok (Z.of_nat (List.length (not_overwritten (filter insertable documents))))) /\
  count_documents
    (insert_all [] [Monday_doc; [("name", VStr "no identifier")];
                    Tuesday_doc; dset "note" VNone Monday_doc])
    (Some [])
  = Ok 2.
Proof.
  split; [|split; [|split]].
  - intro self. split; reflexivity.
  - intros self [|kv query] NE; [contradiction | reflexivity].
  - intro documents. simpl. now rewrite insert_all_count.
  - reflexivity.
Qed.

Lemma count_documents_semantics_witness :
  count_documents two_activities (Some (days_in [VStr "Monday"])) = Ok 1.
Proof.
  rewrite (proj1 (proj2 count_documents_semantics)); [reflexivity | discriminate].
Defined.

(** ** Further properties of the collection *)

(** *** find on any query *)

Lemma find_loop_ok (query : dict) (items : store) (acc results : list dict) :
  find_loop query items acc = Ok results ->
  results = acc ++ map attach_id (filter (keeps query) items) /\
  Forall (fun item => is_ok (doc_matches query (snd item)) = true) items.
Proof.
  revert acc. induction items as [|[doc_id doc] items IH]; simpl; intros acc H.
  - injection H as <-. rewrite app_nil_r. auto.
  - unfold keeps at 1. simpl.
    destruct (doc_matches query doc) as [m|e] eqn:M; [|discriminate H].
    simpl in H. destruct (IH _ H) as [-> F].
    split; [|constructor; [simpl; now rewrite M | exact F]].
    destruct m; simpl; [now rewrite <- app_assoc | reflexivity].
Qed.

Lemma find_loop_total (query : dict) (items : store) (acc : list dict) :
  Forall (fun item => is_ok (doc_matches query (snd item)) = true) items ->
  find_loop query items acc = Ok (acc ++ map attach_id (filter (keeps query) items)).
Proof.
  intro F. apply find_loop_filter. intros item I.
  rewrite Forall_forall in F. specialize (F _ I). unfold keeps.
  destruct (doc_matches query (snd item)) as [[]|]; simpl in *;
    reflexivity || discriminate.
Qed.

Lemma filter_length_le {A : Type} (f : A -> bool) (l : list A) :
  (List.length (filter f l) <= List.length l)%nat.
Proof. induction l as [|x l IH]; simpl; [lia|]. destruct (f x); simpl; lia. Qed.

(** X1.  Whatever the query, a list that [find] returns consists of the
    stored documents for which the loop body leaves [match] true, in the
    order of the collection and with their identifiers attached, so it is
    never longer than the collection; and [find] returns exactly when the
    loop body raises for no stored document. *)
Theorem find_returns_stored_documents (self : store) (query : option dict) :
  (forall results,
     find self query = Ok results ->
     results = map attach_id (filter (keeps (query_or_empty query)) self) /\
     (List.length results <= List.length self)%nat) /\
  (is_ok (find self query) = true <->
   Forall (fun item =>
             is_ok (doc_matches (query_or_empty query) (snd item)) = true) self).
Proof.
  unfold find. fold (query_or_empty query). split.
  - intros results H. apply find_loop_ok in H as [-> _]. simpl.
    split; [reflexivity|]. rewrite length_map. apply filter_length_le.
  - split.
    + destruct (find_loop (query_or_empty query) self []) as [results|e] eqn:H;
        [|discriminate]. intros _. now apply find_loop_ok in H.
    + intro F. now rewrite (find_loop_total _ _ [] F).
Qed.

Lemma find_returns_stored_documents_witness :
  exists results,
    find two_activities (Some (start_gte (VStr "09:00"))) = Ok results /\
    (List.length results <= 2)%nat.
Proof.
  eexists. split; [reflexivity|].
  apply (proj1 (find_returns_stored_documents two_activities
                  (Some (start_gte (VStr "09:00"))))).
  reflexivity.
Defined.

(** X2.  A count that [count_documents] returns lies between 0 and the
    number of stored documents, whatever the query. *)
Theorem count_documents_bounded (self : store) (query : option dict) (n : Z) :
  count_documents self query = Ok n ->
  0 <= n <= Z.of_nat (List.length self).
Proof.
  unfold count_documents.
  destruct query as [[|kv q]|]; try (intros [= <-]; lia).
  unfold find. simpl query_or_empty.
  destruct (find_loop (kv :: q) self []) as [found|e] eqn:H; [|discriminate].
  simpl. intros [= <-]. apply find_loop_ok in H as [-> _]. simpl.
  rewrite length_map. pose proof (filter_length_le (keeps (kv :: q)) self). lia.
Qed.

Lemma count_documents_bounded_witness :
  0 <= 1 <= Z.of_nat (List.length two_activities).
Proof.
  apply (count_documents_bounded two_activities
           (Some (days_in [VStr "Monday"]))).
  reflexivity.
Defined.

(** *** insert_one and the order of find *)

(** X3.  Where an inserted document shows up in [find]: under an
    identifier that is new to the collection it comes last, after the
    documents already there; under an identifier already in use the
    collection keeps its identifiers in their places (the new body takes
    the place of the old one). *)
Theorem insert_one_find_order (self : store) (document : dict) :
  insertable document = true ->
  let doc_id := doc_id_of document in
  let inserted := fst (insert_one self document) in
  (smem doc_id self = false ->
     find inserted None
       = Ok (map attach_id self ++ [dset "_id" doc_id (dpop "_id" document)])) /\
  (smem doc_id self = true ->
     map fst inserted = map fst self /\
     sget doc_id inserted = Some (dpop "_id" document)).
Proof.
  intros I doc_id inserted. unfold inserted.
  rewrite (insert_one_insertable _ _ I). fold doc_id.
  pose proof (insertable_hashable _ I) as H. fold doc_id in H. split; intro M.
  - rewrite find_all. unfold sset. rewrite (od_set_absent _ _ _ _ M).
    now rewrite map_app.
  - split; [now apply od_set_present | now apply sget_sset_same].
Qed.

Lemma insert_one_find_order_witness :
  find (fst (insert_one two_activities no_schedule_doc)) None
  = Ok (map attach_id two_activities
        ++ [dset "_id" (VStr "c") (dpop "_id" no_schedule_doc)]).
Proof.
  apply (proj1 (insert_one_find_order two_activities no_schedule_doc eq_refl)).
  reflexivity.
Defined.

(** *** What the update operators do to a field *)

(** An operator that, item by item, changes only the field the item
    names, and changes it according to what the field holds. *)
Section FieldWise.
Variable f : dict -> string * value -> dict.
Hypothesis f_local :
  forall doc kv k, k <> fst kv -> dget k (f doc kv) = dget k doc.
Hypothesis f_field :
  forall doc1 doc2 kv,
    dget (fst kv) doc1 = dget (fst kv) doc2 ->
    dget (fst kv) (f doc1 kv) = dget (fst kv) (f doc2 kv).

Lemma fold_fields (items doc : dict) :
  dict_wf items = true ->
  forall k,
    dget k (fold_left f items doc) =
    match dget k items with
    | Some v => dget k (f doc (k, v))
    | None => dget k doc
    end.
Proof.
  revert doc. induction items as [|[k1 v1] items IH]; intros doc W k;
    [reflexivity|].
  unfold dict_wf in W. simpl in W. apply andb_true_iff in W as [W1 W2].
  apply negb_true_iff in W1. simpl fold_left. rewrite (IH _ W2).
  assert (E : dget k ((k1, v1) :: items)
              = if String.eqb k1 k then Some v1 else dget k items) by reflexivity.
  rewrite E. destruct (String.eqb_spec k1 k) as [->|NE].
  - assert (N : dget k items = None).
    { unfold od_mem in W1. unfold dget.
      destruct (od_get String.eqb k items); [discriminate | reflexivity]. }
    now rewrite N.
  - destruct (dget k items) as [v|].
    + apply (f_field _ _ (k, v)). simpl. now apply f_local.
    + now apply f_local.
Qed.
End FieldWise.

Lemma push_field_local doc kv k :
  k <> fst kv -> dget k (push_field doc kv) = dget k doc.
Proof.
  intro NE. unfold push_field.
  destruct (dget (fst kv) doc) as [[]|];
    rewrite ?dget_dset_other by congruence; reflexivity.
Qed.

Lemma push_field_field doc1 doc2 kv :
  dget (fst kv) doc1 = dget (fst kv) doc2 ->
  dget (fst kv) (push_field doc1 kv) = dget (fst kv) (push_field doc2 kv).
Proof.
  intro E. unfold push_field. rewrite <- E.
  destruct (dget (fst kv) doc1) as [[]|] eqn:D;
    rewrite ?dget_dset_same; congruence.
Qed.

Lemma pull_field_local doc kv k :
  k <> fst kv -> dget k (pull_field doc kv) = dget k doc.
Proof.
  intro NE. unfold pull_field.
  destruct (dget (fst kv) doc) as [[]|];
    rewrite ?dget_dset_other by congruence; reflexivity.
Qed.

Lemma pull_field_field doc1 doc2 kv :
  dget (fst kv) doc1 = dget (fst kv) doc2 ->
  dget (fst kv) (pull_field doc1 kv) = dget (fst kv) (pull_field doc2 kv).
Proof.
  intro E. unfold pull_field. rewrite <- E.
  destruct (dget (fst kv) doc1) as [[]|] eqn:D;
    rewrite ?dget_dset_same; congruence.
Qed.

Lemma set_field_local doc kv k :
  k <> fst kv -> dget k (set_field doc kv) = dget k doc.
Proof. intro NE. unfold set_field. apply dget_dset_other. congruence. Qed.

Lemma set_field_field doc1 doc2 kv :
  dget (fst kv) doc1 = dget (fst kv) doc2 ->
  dget (fst kv) (set_field doc1 kv) = dget (fst kv) (set_field doc2 kv).
Proof. intros _. unfold set_field. now rewrite !dget_dset_same. Qed.

Lemma fold_nonempty (f : dict -> string * value -> dict) (items doc : dict) :
  (forall d kv, nonempty d -> nonempty (f d kv)) ->
  nonempty doc -> nonempty (fold_left f items doc).
Proof.
  intro F. revert doc. induction items as [|kv items IH]; simpl; auto.
Qed.

(** Reading back what an update within the contract wrote. *)
Lemma update_one_then_find_one (self : store) (update : dict)
    (doc_id : value) (doc : dict) :
  is_hashable doc_id -> sget doc_id self = Some doc ->
  update_ok update doc = true ->
  nonempty (push_then_pull_then_set update doc) ->
  find_one (fst (update_one self [("_id", doc_id)] update)) [("_id", doc_id)]
  = Ok (Some (dset "_id" doc_id (push_then_pull_then_set update doc))).
Proof.
  intros H S U NE.
  rewrite (update_one_found self [("_id", doc_id)] update doc_id doc eq_refl H S U).
  simpl fst. apply find_one_found; auto. now apply sget_sset_same.
Qed.

(** X4.  Read your writes for [$set].  After an [update_one] whose
    update holds only [$set], [find_one] under the same identifier returns
    a document in which every field the mapping names holds the value
    given for it and every other field is as it was stored; the
    identifier reported is that of the query. *)
Theorem update_one_set_then_find_one (self : store) (doc_id : value)
    (doc fields : dict) :
  is_hashable doc_id -> sget doc_id self = Some doc ->
  dict_wf fields = true -> doc <> [] ->
  exists found,
    find_one (fst (update_one self [("_id", doc_id)] [("$set", VDict fields)]))
             [("_id", doc_id)] = Ok (Some found) /\
    dget "_id" found = Some doc_id /\
    (forall k v, k <> "_id" -> dget k fields = Some v -> dget k found = Some v) /\
    (forall k, k <> "_id" -> dget k fields = None -> dget k found = dget k doc).
Proof.
  intros H S W NE.
  assert (U : update_ok [("$set", VDict fields)] doc = true) by reflexivity.
  assert (D : push_then_pull_then_set [("$set", VDict fields)] doc
              = fold_left set_field fields doc) by reflexivity.
  eexists. split.
  - apply (update_one_then_find_one self _ doc_id doc H S U).
    rewrite D. apply fold_nonempty; [|exact NE].
    intros d kv _. apply dset_nonempty.
  - rewrite D. split; [apply dget_dset_same|]. split.
    + intros k v NK F. rewrite dget_dset_other by congruence.
      rewrite (fold_fields set_field set_field_local set_field_field _ _ W), F.
      apply dget_dset_same.
    + intros k NK F. rewrite dget_dset_other by congruence.
      now rewrite (fold_fields set_field set_field_local set_field_field _ _ W), F.
Qed.

Lemma update_one_set_then_find_one_witness :
  exists found,
    find_one (fst (update_one tags_store [("_id", VStr "x")]
                     [("$set", VDict [("message", VStr "hello")])]))
             [("_id", VStr "x")] = Ok (Some found) /\
    dget "message" found = Some (VStr "hello") /\
    dget "tags" found = Some (VList [VStr "a"]).
Proof.
  destruct (update_one_set_then_find_one tags_store (VStr "x")
              [("tags", VList [VStr "a"])] [("message", VStr "hello")]
              eq_refl eq_refl eq_refl) as (found & F & _ & Written & Kept).
  - discriminate.
  - exists found. split; [exact F|]. split.
    + apply Written; [discriminate | reflexivity].
    + apply Kept; [discriminate | reflexivity].
Defined.

(** X5.  [$push] through [update_one].  When every field the [$push]
    mapping names is absent from the stored document or holds a
    sequence, [find_one] afterwards shows each named field holding its
    former elements (none, if the field was absent) followed by the
    pushed value, and every other field as it was. *)
Theorem update_one_push_then_find_one (self : store) (doc_id : value)
    (doc fields : dict) :
  is_hashable doc_id -> sget doc_id self = Some doc ->
  dict_wf fields = true -> forallb (pushable doc) fields = true ->
  doc <> [] ->
  exists found,
    find_one (fst (update_one self [("_id", doc_id)] [("$push", VDict fields)]))
             [("_id", doc_id)] = Ok (Some found) /\
    (forall k v, k <> "_id" -> dget k fields = Some v ->
       dget k found = Some (VList (field_items doc k ++ [v]))) /\
    (forall k, k <> "_id" -> dget k fields = None -> dget k found = dget k doc).
Proof.
  intros H S W P NE.
  assert (U : update_ok [("$push", VDict fields)] doc = true).
  { unfold update_ok, operand. simpl. exact P. }
  assert (D : push_then_pull_then_set [("$push", VDict fields)] doc
              = fold_left push_field fields doc) by reflexivity.
  eexists. split.
  - apply (update_one_then_find_one self _ doc_id doc H S U).
    rewrite D. apply fold_nonempty; [|exact NE].
    intros d kv Hd. unfold push_field.
    destruct (dget (fst kv) d) as [[]|]; auto using dset_nonempty.
  - rewrite D. split.
    + intros k v NK F. rewrite dget_dset_other by congruence.
      rewrite (fold_fields push_field push_field_local push_field_field _ _ W), F.
      rewrite forallb_forall in P.
      assert (I : In (k, v) fields).
      { apply dget_In; [now apply dict_wf_NoDup | exact F]. }
      specialize (P _ I). unfold pushable in P. simpl in P.
      unfold push_field, field_items. simpl.
      destruct (dget k doc) as [[]|]; try discriminate P;
        now rewrite dget_dset_same.
    + intros k NK F. rewrite dget_dset_other by congruence.
      now rewrite (fold_fields push_field push_field_local push_field_field _ _ W), F.
Qed.

Lemma update_one_push_then_find_one_witness :
  exists found,
    find_one (fst (update_one tags_store [("_id", VStr "x")]
                     [("$push", VDict [("tags", VStr "b"); ("seen", VInt 1)])]))
             [("_id", VStr "x")] = Ok (Some found) /\
    dget "tags" found = Some (VList [VStr "a"; VStr "b"]) /\
    dget "seen" found = Some (VList [VInt 1]).
Proof.
  destruct (update_one_push_then_find_one tags_store (VStr "x")
              [("tags", VList [VStr "a"])]
              [("tags", VStr "b"); ("seen", VInt 1)]
              eq_refl eq_refl eq_refl eq_refl) as (found & F & Pushed & _).
  - discriminate.
  - exists found. split; [exact F|]. split.
    + apply (Pushed "tags" (VStr "b")); [discriminate | reflexivity].
    + apply (Pushed "seen" (VInt 1)); [discriminate | reflexivity].
Defined.

(** X6.  [$pull] through [update_one] never raises.  [find_one]
    afterwards shows each named field that held a sequence holding the
    elements that differ from the pulled value, in their order, so that
    no element equal to it is left; a named field that holds something
    else, and every field not named, is as it was. *)
Theorem update_one_pull_then_find_one (self : store) (doc_id : value)
    (doc fields : dict) :
  is_hashable doc_id -> sget doc_id self = Some doc ->
  dict_wf fields = true -> doc <> [] ->
  snd (update_one self [("_id", doc_id)] [("$pull", VDict fields)])
    = Ok {| modified_count := 1 |} /\
  exists found,
    find_one (fst (update_one self [("_id", doc_id)] [("$pull", VDict fields)]))
             [("_id", doc_id)] = Ok (Some found) /\
    (forall k v l, k <> "_id" -> dget k fields = Some v ->
       dget k doc = Some (VList l) ->
       dget k found = Some (VList (filter (fun item => negb (py_eq item v)) l)) /\
       forall item, In item (field_items found k) -> py_eq item v = false) /\
    (forall k, k <> "_id" ->
       dget k fields = None \/ is_list (od_get_default String.eqb k VNone doc) = false ->
       dget k found = dget k doc).
Proof.
  intros H S W NE.
  assert (U : update_ok [("$pull", VDict fields)] doc = true) by reflexivity.
  assert (D : push_then_pull_then_set [("$pull", VDict fields)] doc
              = fold_left pull_field fields doc) by reflexivity.
  split.
  { now rewrite (update_one_found self [("_id", doc_id)] _ doc_id doc eq_refl H S U). }
  eexists. split.
  - apply (update_one_then_find_one self _ doc_id doc H S U).
    rewrite D. apply fold_nonempty; [|exact NE].
    intros d kv Hd. unfold pull_field.
    destruct (dget (fst kv) d) as [[]|]; auto using dset_nonempty.
  - rewrite D. split.
    + intros k v l NK F L.
      assert (G : dget k (dset "_id" doc_id (fold_left pull_field fields doc))
                  = Some (VList (filter (fun item => negb (py_eq item v)) l))).
      { rewrite dget_dset_other by congruence.
        rewrite (fold_fields pull_field pull_field_local pull_field_field _ _ W), F.
        unfold pull_field. simpl. rewrite L. apply dget_dset_same. }
      split; [exact G|].
      unfold field_items. rewrite G. intros item I.
      apply filter_In in I as [_ I]. now apply negb_true_iff in I.
    + intros k NK F. rewrite dget_dset_other by congruence.
      rewrite (fold_fields pull_field pull_field_local pull_field_field _ _ W).
      destruct (dget k fields) as [v|] eqn:Fk; [|reflexivity].
      destruct F as [F|F]; [discriminate F|].
      unfold od_get_default in F. fold (dget k doc) in F.
      unfold pull_field. simpl fst.
      destruct (dget k doc) as [[]|] eqn:Dk; try exact Dk.
      simpl in F. discriminate F.
Qed.

Lemma update_one_pull_then_find_one_witness :
  exists found,
    find_one (fst (update_one tags_store [("_id", VStr "x")]
                     [("$pull", VDict [("tags", VStr "a")])]))
             [("_id", VStr "x")] = Ok (Some found) /\
    dget "tags" found = Some (VList []).
Proof.
  destruct (update_one_pull_then_find_one tags_store (VStr "x")
              [("tags", VList [VStr "a"])] [("tags", VStr "a")]
              eq_refl eq_refl eq_refl) as (_ & found & F & Pulled & _).
  - discriminate.
  - exists found. split; [exact F|].
    apply (Pulled "tags" (VStr "a") [VStr "a"]); [discriminate | reflexivity..].
Defined.

(** *** An update that raises *)

Lemma op_for_push_fails (done rest : dict) (bad : string * value) (doc : dict) :
  forallb (pushable doc) done = true -> pushable doc bad = false ->
  op_for (done ++ bad :: rest) push_item doc
  = (fold_left push_field done doc, Raise AttributeError).
Proof.
  revert doc. induction done as [|kv done IH]; simpl; intros doc P B.
  - unfold op_bind, push_item, pushable, dmem, od_mem in *.
    destruct bad as [key v]. simpl in *. fold (dget key doc).
    destruct (dget key doc) as [[]|] eqn:D; try discriminate B; simpl;
      rewrite D; reflexivity.
  - apply andb_true_iff in P as [P1 P2].
    unfold op_bind. rewrite (push_item_field _ _ P1).
    apply IH.
    + rewrite forallb_forall in *. intros kv' I.
      apply pushable_push_field, P2, I.
    + assert (NE : fst bad <> fst kv).
      { intro E. unfold pushable in *. rewrite E in B. congruence. }
      unfold pushable in *. now rewrite push_field_local.
Qed.

(** X7.  An update is not atomic.  When [$push] reaches a field that
    holds something other than a sequence, [update_one] raises
    [AttributeError]; the pushes made before it stay in the stored
    document, and neither the remaining pushes nor [$pull] and [$set] are
    applied. *)
Theorem update_one_failed_push_is_kept (self : store) (update : dict)
    (doc_id : value) (doc done rest : dict) (bad : string * value) :
  is_hashable doc_id -> sget doc_id self = Some doc ->
  dget "$push" update = Some (VDict (done ++ bad :: rest)) ->
  forallb (pushable doc) done = true -> pushable doc bad = false ->
  update_one self [("_id", doc_id)] update
  = (sset doc_id (fold_left push_field done doc) self, Raise AttributeError).
Proof.
  intros H S U P B.
  rewrite update_one_unfold. simpl dget. cbv iota. rewrite H, S.
  rewrite apply_update_unfold, operator_block_unfold, U.
  now rewrite (op_for_push_fails _ _ _ _ P B).
Qed.

Lemma update_one_failed_push_is_kept_witness :
  update_one [(VStr "x", failing_push_doc)] [("_id", VStr "x")]
    [("$set", VDict [("name", VStr "m")]);
     ("$push", VDict [("tags", VStr "b"); ("name", VStr "x"); ("tags", VStr "c")])]
  = ([(VStr "x", [("tags", VList [VStr "a"; VStr "b"]); ("name", VStr "n")])],
     Raise AttributeError).
Proof.
  apply (update_one_failed_push_is_kept [(VStr "x", failing_push_doc)] _
           (VStr "x") failing_push_doc [("tags", VStr "b")]
           [("tags", VStr "c")] ("name", VStr "x")); reflexivity.
Defined.

(** ** init_database *)

Lemma insert_one_keeps_nonempty (self : store) (document : dict) :
  self <> [] -> fst (insert_one self document) <> [].
Proof.
  intro NE. rewrite insert_one_unfold.
  destruct (dget "_id" document) as [[]|]; simpl; auto;
    apply od_set_nonempty.
Qed.

Lemma insert_one_ok_nonempty (self self' : store) (document : dict)
    (r : InsertOneResult) :
  insert_one self document = (self', Ok r) -> self' <> [].
Proof.
  rewrite insert_one_unfold.
  destruct (dget "_id" document) as [[]|]; simpl; try discriminate;
    intros [= <- _]; apply od_set_nonempty.
Qed.

Lemma seed_loop_keeps_nonempty {A : Type} (build : A -> result dict)
    (items : list A) (self : store) :
  self <> [] -> fst (seed_loop build self items) <> [].
Proof.
  revert self. induction items as [|item items IH]; simpl; intros self NE;
    [exact NE|].
  destruct (build item) as [document|e]; [|exact NE].
  pose proof (insert_one_keeps_nonempty self document NE) as N.
  destruct (insert_one self document) as [self' [r|e]]; simpl in *; auto.
Qed.

Lemma seed_if_empty_nonempty {A : Type} (build : A -> result dict)
    (self : store) (items : list A) :
  self <> [] -> seed_if_empty build self items = (self, Ok tt).
Proof.
  intro NE. unfold seed_if_empty, count_documents.
  destruct self as [|item self]; [contradiction|]. reflexivity.
Qed.

Lemma seed_if_empty_again {A : Type} (build : A -> result dict)
    (self self' : store) (items : list A) (u : unit) :
  seed_if_empty build self items = (self', Ok u) ->
  seed_if_empty build self' items = (self', Ok tt).
Proof.
  destruct self as [|item0 self].
  - unfold seed_if_empty at 1. simpl.
    destruct items as [|item items]; simpl.
    + intros [= <- _]. reflexivity.
    + destruct (build item) as [document|e]; [|discriminate].
      destruct (insert_one [] document) as [s1 [r|e]] eqn:I; [|discriminate].
      intro L. apply seed_if_empty_nonempty.
      pose proof (seed_loop_keeps_nonempty build items s1
                    (insert_one_ok_nonempty _ _ _ _ I)) as N.
      now rewrite L in N.
  - rewrite seed_if_empty_nonempty by discriminate. intros [= <- _].
    apply seed_if_empty_nonempty. discriminate.
Qed.

(** X8.  [init_database] seeds only empty collections, and only once: a
    collection that holds a document is left as it is, and after a call
    that returned, a second call changes nothing and returns as well. *)
Theorem init_database_idempotent
    (initial_activities : list (string * dict))
    (initial_teachers initial_announcements : list dict) (db : database) :
  let init := init_database initial_activities initial_teachers
                initial_announcements in
  (activities_collection db <> [] ->
     activities_collection (fst (init db)) = activities_collection db) /\
  (teachers_collection db <> [] ->
     teachers_collection (fst (init db)) = teachers_collection db) /\
  (announcements_collection db <> [] ->
     announcements_collection (fst (init db)) = announcements_collection db) /\
  (forall db', init db = (db', Ok tt) -> init db' = (db', Ok tt)).
Proof.
  intro init. unfold init, init_database.
  split; [|split; [|split]].
  - intro NE. rewrite (seed_if_empty_nonempty _ _ _ NE).
    destruct (seed_if_empty teacher_document _ _) as [t [[]|e]]; [|reflexivity].
    destruct (seed_if_empty (fun a => Ok a) _ _) as [n r]. reflexivity.
  - intro NE.
    destruct (seed_if_empty activity_document _ _) as [a [[]|e]]; [|reflexivity].
    rewrite (seed_if_empty_nonempty _ _ _ NE).
    destruct (seed_if_empty (fun a => Ok a) _ _) as [n r]. reflexivity.
  - intro NE.
    destruct (seed_if_empty activity_document _ _) as [a [[]|e]]; [|reflexivity].
    destruct (seed_if_empty teacher_document _ _) as [t [[]|e]]; [|reflexivity].
    now rewrite (seed_if_empty_nonempty _ _ _ NE).
  - intro db'.
    destruct (seed_if_empty activity_document _ _) as [a [[]|e]] eqn:A;
      [|discriminate].
    destruct (seed_if_empty teacher_document _ _) as [t [[]|e]] eqn:T;
      [|discriminate].
    destruct (seed_if_empty (fun a => Ok a) _ _) as [n [[]|e]] eqn:N;
      [|discriminate].
    intros [= <-]. simpl.
    rewrite (seed_if_empty_again _ _ _ _ _ A), (seed_if_empty_again _ _ _ _ _ T),
      (seed_if_empty_again _ _ _ _ _ N).
    reflexivity.
Qed.

Lemma init_database_idempotent_witness :
  init_database [chess_club] [principal] [announcement_1] seeded_database
  = (seeded_database, Ok tt).
Proof.
  apply (proj2 (proj2 (proj2 (init_database_idempotent [chess_club] [principal]
                                [announcement_1] empty_database)))).
  reflexivity.
Defined.

Lemma dict_unpack_fresh (details base : dict) :
  dict_wf details = true ->
  (forall k, dmem k details = true -> dget k base = None) ->
  dict_unpack base details = base ++ details.
Proof.
  unfold dict_unpack. revert base.
  induction details as [|[k v] details IH]; simpl; intros base W F.
  - now rewrite app_nil_r.
  - unfold dict_wf in W. simpl in W. apply andb_true_iff in W as [W1 W2].
    apply negb_true_iff in W1.
    assert (B : dget k base = None).
    { apply F. unfold dmem, od_mem. simpl. now rewrite String.eqb_refl. }
    rewrite IH; [|exact W2|].
    + unfold dset. rewrite od_set_absent.
      * now rewrite <- app_assoc.
      * unfold od_mem. fold (dget k base). now rewrite B.
    + intros k' M. destruct (String.eqb_spec k k') as [<-|NE].
      * unfold dmem in M. congruence.
      * rewrite dget_dset_other by exact NE. apply F.
        unfold dmem, od_mem in *. simpl.
        destruct (String.eqb k k'); [reflexivity | exact M].
Qed.

Lemma activity_document_insert (self : store) (entry : string * dict) :
  details_ok entry = true ->
  insert_one self (dict_unpack [("_id", VStr (fst entry))] (snd entry))
  = (sset (VStr (fst entry)) (snd entry) self,
     Ok {| inserted_id := VStr (fst entry) |}).
Proof.
  unfold details_ok. rewrite andb_true_iff, negb_true_iff. intros [W N].
  rewrite dict_unpack_fresh; [reflexivity | exact W |].
  intros k M.
  change (dget k [("_id", VStr (fst entry))])
    with (if String.eqb "_id" k then Some (VStr (fst entry)) else None).
  destruct (String.eqb_spec "_id" k) as [<-|NE]; [congruence | reflexivity].
Qed.

Lemma seed_loop_activities (initial_activities : list (string * dict))
    (self : store) :
  forallb details_ok initial_activities = true ->
  NoDup (map fst initial_activities) ->
  (forall entry, In entry initial_activities ->
     smem (VStr (fst entry)) self = false) ->
  seed_loop activity_document self initial_activities
  = (self ++ map stored_activity initial_activities, Ok tt).
Proof.
  revert self.
  induction initial_activities as [|entry rest IH]; simpl; intros self D ND F.
  - now rewrite app_nil_r.
  - apply andb_true_iff in D as [D1 D2].
    inversion ND as [|? ? NI ND']; subst.
    rewrite (activity_document_insert _ _ D1).
    rewrite IH; [|exact D2|exact ND'|].
    + unfold sset. rewrite od_set_absent by (apply F; now left).
      now rewrite <- app_assoc.
    + intros e I. rewrite smem_sset by reflexivity.
      rewrite (F e (or_intror I)). simpl. apply String.eqb_neq.
      intro E. apply NI. rewrite E. now apply in_map.
Qed.

Lemma sget_stored_activity (initial_activities : list (string * dict))
    (name : string) (details : dict) :
  NoDup (map fst initial_activities) ->
  In (name, details) initial_activities ->
  sget (VStr name) (map stored_activity initial_activities) = Some details.
Proof.
  induction initial_activities as [|[n d] rest IH]; simpl; [tauto|].
  intros ND I. inversion ND as [|? ? NI ND']; subst.
  unfold sget. simpl. destruct I as [[= -> ->]|I].
  - now rewrite String.eqb_refl.
  - destruct (String.eqb_spec n name) as [->|NE].
    + exfalso. apply NI. apply in_map_iff. exists (name, details). auto.
    + now apply IH.
Qed.

(** X9.  What [init_database] puts into an empty activities
    collection.  For a table with distinct names whose details are
    mappings without an identifier field, the collection afterwards holds
    exactly the details of the table, each under its name and in the
    order of the table, whatever happens while the teachers and the
    announcements are seeded: [count_documents({})] is the size of the
    table and [find_one] by name returns the details, when they have a
    field, with the name attached as identifier. *)
Theorem init_database_seeds_activities
    (initial_activities : list (string * dict))
    (initial_teachers initial_announcements : list dict) (db : database) :
  activities_collection db = [] ->
  forallb details_ok initial_activities = true ->
  NoDup (map fst initial_activities) ->
  let seeded :=
    activities_collection
      (fst (init_database initial_activities initial_teachers
              initial_announcements db)) in
  seeded = map stored_activity initial_activities /\
  count_documents seeded (Some [])
    = Ok (Z.of_nat (List.length initial_activities)) /\
  (forall name details,
     In (name, details) initial_activities -> details <> [] ->
     find_one seeded [("_id", VStr name)]
       = Ok (Some (details ++ [("_id", VStr name)]))).
Proof.
  intros E D ND seeded.
  assert (S : seeded = map stored_activity initial_activities).
  { unfold seeded, init_database, seed_if_empty at 1. rewrite E. simpl.
    rewrite (seed_loop_activities _ [] D ND) by reflexivity. simpl.
    destruct (seed_if_empty teacher_document _ _) as [t [[]|e]]; [|reflexivity].
    destruct (seed_if_empty (fun a => Ok a) _ _) as [n r]. reflexivity. }
  split; [exact S|]. rewrite S. split.
  - simpl. now rewrite length_map.
  - intros name details I NE.
    rewrite (find_one_found _ [("_id", VStr name)] (VStr name) details
               eq_refl eq_refl (sget_stored_activity _ _ _ ND I) NE).
    do 2 f_equal. unfold dset. apply od_set_absent.
    rewrite forallb_forall in D. specialize (D _ I).
    unfold details_ok in D. apply andb_true_iff in D as [_ D].
    now apply negb_true_iff in D.
Qed.

Lemma init_database_seeds_activities_witness :
  find_one (activities_collection seeded_database) [("_id", VStr "Chess Club")]
  = Ok (Some (snd chess_club ++ [("_id", VStr "Chess Club")])).
Proof.
  refine (proj2 (proj2 (init_database_seeds_activities [chess_club] [principal]
            [announcement_1] empty_database eq_refl eq_refl _))
            "Chess Club" (snd chess_club) _ _).
  - repeat constructor. simpl. tauto.
  - now left.
  - discriminate.
Defined.

(** ** The announcement endpoints *)

(** *** Which announcements are current *)

Lemma py_truthy_start (ann : dict) (today : string) :
  absent_or is_str_or_none (dget "start_date" ann) = true ->
  (if py_truthy (od_get_default String.eqb "start_date" VNone ann)
   then later <- py_gt (od_get_default String.eqb "start_date" VNone ann)
                   (VStr today) ;;
        (if later then Ok false else Ok true)
   else Ok true)
  = Ok (String.leb (date_of ann "start_date") today).
Proof.
  unfold date_of, od_get_default, absent_or. fold (dget "start_date" ann).
  destruct (dget "start_date" ann) as [[| | |s| |]|]; try discriminate; intros _.
  - simpl. now rewrite leb_empty_l.
  - destruct s as [|c s].
    + simpl. now rewrite leb_empty_l.
    + cbn [py_truthy]. unfold py_gt. cbn [py_lt rbind].
      rewrite <- string_not_ltb.
      destruct (String.ltb today (String c s)); reflexivity.
  - simpl. now rewrite leb_empty_l.
Qed.

Lemma is_announcement_active_on (ann : dict) (today : string) :
  dates_ok ann = true ->
  is_announcement_active ann today = Ok (active_on today ann).
Proof.
  unfold dates_ok. rewrite andb_true_iff. intros [E S].
  unfold is_announcement_active, active_on. cbv zeta.
  rewrite (py_truthy_start ann today S).
  unfold absent_or in E. unfold od_get_default.
  fold (dget "expiration_date" ann).
  assert (DE : date_of ann "expiration_date"
               = match dget "expiration_date" ann with
                 | Some (VStr d) => d
                 | _ => EmptyString
                 end) by reflexivity.
  rewrite DE. clear DE.
  destruct (dget "expiration_date" ann) as [[| | |d| |]|]; try discriminate E;
    cbn [py_lt rbind].
  - rewrite <- (string_not_ltb d today).
    destruct (String.ltb d today); reflexivity.
  - rewrite <- (string_not_ltb EmptyString today).
    destruct (String.ltb EmptyString today); reflexivity.
Qed.

(** X10.  When an announcement is current.  For an announcement whose
    expiration date is a string and whose start date is a string or
    null (either may be absent), [is_announcement_active] does not raise
    and answers yes exactly when today is not after the expiration date
    and not before the start date, in string order; an absent or null
    date counts as the empty string, so an announcement without a start
    date has started, and one without an expiration date is never
    current on a day whose text is not empty. *)
Theorem is_announcement_active_dates (ann : dict) (today : string) :
  dates_ok ann = true ->
  is_announcement_active ann today
    = Ok (String.leb today (date_of ann "expiration_date") &&
          String.leb (date_of ann "start_date") today) /\
  (dget "start_date" ann = None \/ dget "start_date" ann = Some VNone ->
     is_announcement_active ann today
       = Ok (String.leb today (date_of ann "expiration_date"))) /\
  (dget "expiration_date" ann = None -> today <> EmptyString ->
     is_announcement_active ann today = Ok false).
Proof.
  intro D. rewrite (is_announcement_active_on _ _ D). unfold active_on.
  split; [reflexivity|]. split.
  - intros S. unfold date_of at 2.
    destruct S as [-> | ->]; now rewrite leb_empty_l, andb_true_r.
  - intros E NE. unfold date_of at 1. now rewrite E, (leb_empty_r _ NE).
Qed.

Lemma is_announcement_active_dates_witness :
  is_announcement_active announcement_1 "2026-02-28" = Ok true /\
  is_announcement_active announcement_1 "2026-03-01" = Ok false.
Proof.
  split.
  - rewrite (proj1 (is_announcement_active_dates announcement_1 "2026-02-28"
                      eq_refl)). reflexivity.
  - rewrite (proj1 (is_announcement_active_dates announcement_1 "2026-03-01"
                      eq_refl)). reflexivity.
Defined.

Lemma dget_attach_id (item : value * dict) (k : string) :
  k <> "_id" -> dget k (attach_id item) = dget k (snd item).
Proof. intro NE. unfold attach_id, deepcopy. apply dget_dset_other. congruence. Qed.

Lemma dates_ok_attach_id (item : value * dict) :
  dates_ok (attach_id item) = dates_ok (snd item).
Proof. unfold dates_ok. now rewrite !dget_attach_id by discriminate. Qed.

Lemma active_on_attach_id (today : string) (item : value * dict) :
  active_on today (attach_id item) = active_on today (snd item).
Proof.
  unfold active_on, date_of. now rewrite !dget_attach_id by discriminate.
Qed.

Lemma current_view_public (today : string) (item : value * dict) :
  listed_ok item = true -> today <> EmptyString ->
  active_on today (snd item) = true ->
  current_view (attach_id item) = Ok (public_view item).
Proof.
  unfold listed_ok, dates_ok, dmem, od_mem. rewrite !andb_true_iff.
  intros [[E _] M] NE A.
  unfold current_view, public_view. rewrite !py_getitem_dict.
  rewrite attach_id_identifier. cbn [rbind].
  unfold od_get_default. fold (dget "start_date" (attach_id item)).
  rewrite !dget_attach_id by discriminate.
  fold (dget "message" (snd item)) in M |- *.
  destruct (dget "message" (snd item)) as [m|]; [|discriminate M].
  cbn [rbind]. fold (dget "start_date" (snd item)).
  unfold active_on, date_of in *.
  destruct (dget "expiration_date" (snd item)) as [[| | |d| |]|];
    try discriminate E; [reflexivity|].
  rewrite (leb_empty_r _ NE) in A. discriminate A.
Qed.

Lemma active_views_public (today : string) (items : store) :
  forallb listed_ok items = true -> today <> EmptyString ->
  active_views (map attach_id items) today
  = Ok (map public_view (filter (fun item => active_on today (snd item)) items)).
Proof.
  intros L NE. induction items as [|item items IH]; [reflexivity|].
  simpl in L. apply andb_true_iff in L as [L1 L2].
  cbn [map active_views filter].
  rewrite is_announcement_active_on
    by (rewrite dates_ok_attach_id; unfold listed_ok in L1;
        now apply andb_true_iff in L1 as [? _]).
  cbn [rbind]. rewrite active_on_attach_id.
  destruct (active_on today (snd item)) eqn:A.
  - rewrite (current_view_public today item L1 NE A). cbn [rbind].
    rewrite (IH L2). reflexivity.
  - exact (IH L2).
Qed.

(** X11.  The public listing.  On a day whose text is not empty, and for
    stored announcements that hold a message and dates of the expected
    shape, [get_current_announcements] does not raise and returns, in
    the order of the collection, one entry for each announcement that is
    neither expired nor still to start, and none for the others; an entry
    carries exactly the identifier, the message, the start date (null
    when there is none) and the expiration date. *)
Theorem get_current_announcements_lists_active (db : database) (today : string) :
  forallb listed_ok (announcements_collection db) = true ->
  today <> EmptyString ->
  get_current_announcements db today
  = Ok (map public_view
          (filter (fun item => active_on today (snd item))
                  (announcements_collection db))).
Proof.
  intros L NE. unfold get_current_announcements.
  assert (F : find (announcements_collection db) (Some [])
              = Ok (map attach_id (announcements_collection db))).
  { apply find_all. }
  rewrite F. cbn [rbind]. now apply active_views_public.
Qed.

Lemma get_current_announcements_lists_active_witness :
  get_current_announcements seeded_database "2026-02-14"
  = Ok [[("_id", VStr "announcement-1");
         ("message",
          VStr "Activity registration is open until the end of the month.");
         ("start_date", VStr "2026-02-01");
         ("expiration_date", VStr "2026-02-28")]].
Proof.
  rewrite (get_current_announcements_lists_active seeded_database "2026-02-14");
    [reflexivity | reflexivity | discriminate].
Defined.

(** *** Who is authenticated *)

Lemma truthy_dset (k : string) (v : value) (d : dict) :
  truthy (Some (dset k v d)) = true.
Proof.
  unfold dset. destruct d as [|[k0 v0] d]; cbn [od_set]; [reflexivity|].
  destruct (String.eqb k0 k); reflexivity.
Qed.

Lemma verify_authenticated_user_unfold (db : database) (username : string) :
  verify_authenticated_user db username =
  if authenticated db username
  then Return (dset "_id" (VStr username)
                 (stored_body (teachers_collection db) username))
  else HTTPException 401 "Not authenticated".
Proof.
  unfold verify_authenticated_user, authenticated, stored_body.
  rewrite find_one_unfold. simpl dget. cbv iota. simpl hashable. cbv iota.
  destruct (sget (VStr username) (teachers_collection db)) as [[|f body]|];
    try reflexivity.
  cbn [truthy].
  change (match dset "_id" (VStr username) (f :: body) with
          | [] => false
          | _ :: _ => true
          end)
    with (truthy (Some (dset "_id" (VStr username) (f :: body)))).
  now rewrite truthy_dset.
Qed.

Lemma seed_loop_named {A : Type} (build : A -> result dict)
    (named : A -> string * dict) (items : list A) (self : store) :
  (forall item, In item items ->
     build item
     = Ok (dict_unpack [("_id", VStr (fst (named item)))] (snd (named item)))) ->
  forallb details_ok (map named items) = true ->
  NoDup (map fst (map named items)) ->
  (forall item, In item items ->
     smem (VStr (fst (named item))) self = false) ->
  seed_loop build self items
  = (self ++ map stored_activity (map named items), Ok tt).
Proof.
  revert self. induction items as [|item rest IH]; simpl; intros self B D ND F.
  - now rewrite app_nil_r.
  - apply andb_true_iff in D as [D1 D2].
    inversion ND as [|? ? NI ND']; subst.
    rewrite (B item (or_introl eq_refl)).
    rewrite (activity_document_insert _ _ D1).
    rewrite IH; [| |exact D2|exact ND'|].
    + unfold sset. rewrite od_set_absent by (apply F; now left).
      now rewrite <- app_assoc.
    + intros i I. apply B. now right.
    + intros i I. rewrite smem_sset by reflexivity.
      rewrite (F i (or_intror I)). simpl. apply String.eqb_neq.
      intro E. apply NI. rewrite E. apply in_map. now apply in_map.
Qed.

Lemma sget_stored_absent (rows : list (string * dict)) (name : string) :
  ~ In name (map fst rows) -> sget (VStr name) (map stored_activity rows) = None.
Proof.
  induction rows as [|[n d] rows IH]; simpl; intro NI; [reflexivity|].
  unfold sget. simpl. destruct (String.eqb_spec n name) as [->|NE].
  - exfalso. apply NI. now left.
  - apply IH. intro I. apply NI. now right.
Qed.

Lemma teacher_document_row (teacher : dict) :
  teacher_ok teacher = true ->
  teacher_document teacher
  = Ok (dict_unpack [("_id", VStr (fst (teacher_row teacher)))]
          (snd (teacher_row teacher))).
Proof.
  unfold teacher_ok, teacher_document, teacher_row, username_of, dmem, od_mem.
  rewrite py_getitem_dict. fold (dget "username" teacher).
  rewrite !andb_true_iff. intros [[U M] _].
  destruct (dget "username" teacher) as [[]|]; try discriminate; reflexivity.
Qed.

(** X12.  Seeded teachers can authenticate.  After [init_database] has
    returned on a database whose teachers collection was empty, for a
    table of rows with distinct string user names and no identifier
    field, [verify_authenticated_user] returns for each user name of the
    table that teacher's row with the user name attached as identifier,
    and raises the 401 [HTTPException] for every other user name. *)
Theorem seeded_teachers_authenticate
    (initial_activities : list (string * dict))
    (initial_teachers initial_announcements : list dict) (db db' : database) :
  teachers_collection db = [] ->
  forallb teacher_ok initial_teachers = true ->
  NoDup (map username_of initial_teachers) ->
  init_database initial_activities initial_teachers initial_announcements db
    = (db', Ok tt) ->
  (forall teacher, In teacher initial_teachers ->
     verify_authenticated_user db' (username_of teacher)
     = Return (teacher ++ [("_id", VStr (username_of teacher))])) /\
  (forall username, ~ In username (map username_of initial_teachers) ->
     verify_authenticated_user db' username
     = HTTPException 401 "Not authenticated").
Proof.
  intros E T ND I.
  assert (Rows : map fst (map teacher_row initial_teachers)
                 = map username_of initial_teachers).
  { rewrite map_map. reflexivity. }
  assert (S : teachers_collection db'
              = map stored_activity (map teacher_row initial_teachers)).
  { unfold init_database in I.
    destruct (seed_if_empty activity_document _ _) as [a [[]|e]];
      [|discriminate I].
    unfold seed_if_empty at 1 in I. rewrite E in I. simpl in I.
    rewrite (seed_loop_named teacher_document teacher_row initial_teachers [])
      in I.
    - destruct (seed_if_empty (fun a => Ok a) _ _) as [n r].
      now injection I as <- _.
    - intros t It. apply teacher_document_row.
      rewrite forallb_forall in T. exact (T _ It).
    - rewrite forallb_forall. intros row R.
      apply in_map_iff in R as (t & <- & It).
      rewrite forallb_forall in T. specialize (T _ It).
      unfold teacher_ok in T. now apply andb_true_iff in T as [_ T].
    - now rewrite Rows.
    - reflexivity. }
  split.
  - intros teacher It.
    assert (G : sget (VStr (username_of teacher)) (teachers_collection db')
                = Some teacher).
    { rewrite S.
      apply (sget_stored_activity (map teacher_row initial_teachers)
               (username_of teacher) teacher).
      - now rewrite Rows.
      - apply in_map_iff. exists teacher. auto. }
    rewrite forallb_forall in T. specialize (T _ It).
    unfold teacher_ok, details_ok in T. simpl in T.
    rewrite !andb_true_iff, negb_true_iff in T.
    destruct T as [[_ M] [_ N]].
    rewrite verify_authenticated_user_unfold.
    unfold authenticated, stored_body. rewrite G.
    destruct teacher as [|f teacher]; [discriminate M|].
    cbn [truthy]. f_equal. unfold dset. now apply od_set_absent.
  - intros username NI.
    rewrite verify_authenticated_user_unfold. unfold authenticated.
    rewrite S, sget_stored_absent; [reflexivity | now rewrite Rows].
Qed.

Lemma seeded_teachers_authenticate_witness :
  verify_authenticated_user seeded_database "principal"
  = Return (principal ++ [("_id", VStr "principal")]).
Proof.
  refine (proj1 (seeded_teachers_authenticate [chess_club] [principal]
                   [announcement_1] empty_database seeded_database
                   eq_refl eq_refl _ eq_refl) principal _).
  - repeat constructor. simpl. tauto.
  - now left.
Defined.

(** *** create_announcement *)

Lemma insert_announcement_doc (self : store) (announcement : AnnouncementCreate)
    (username uuid4 utcnow : string) :
  insert_one self (announcement_doc announcement username uuid4 utcnow)
  = (sset (VStr (announcement_id_of uuid4))
       (announcement_body announcement username utcnow) self,
     Ok {| inserted_id := VStr (announcement_id_of uuid4) |}).
Proof. reflexivity. Qed.

Lemma create_announcement_unfold (fromisoformat : string -> bool)
    (db : database) (announcement : AnnouncementCreate)
    (username uuid4 utcnow : string) :
  create_announcement fromisoformat db announcement username uuid4 utcnow =
  if authenticated db username then
    if create_accepts fromisoformat announcement then
      (set_announcements db
         (sset (VStr (announcement_id_of uuid4))
            (announcement_body announcement username utcnow)
            (announcements_collection db)),
       Return (announcement_doc announcement username uuid4 utcnow))
    else
      (db, HTTPException 400
             (if fromisoformat (expiration_date announcement)
              then "Invalid start_date format. Use YYYY-MM-DD"
              else "Invalid expiration_date format. Use YYYY-MM-DD"))
  else (db, HTTPException 401 "Not authenticated").
Proof.
  unfold create_announcement, create_accepts.
  rewrite verify_authenticated_user_unfold, insert_announcement_doc.
  destruct (authenticated db username); [|reflexivity].
  destruct (fromisoformat (expiration_date announcement)); [|reflexivity].
  cbn [negb andb].
  assert (Start :
    py_truthy (opt_str (start_date announcement)) &&
    negb (match start_date announcement with
          | Some s => fromisoformat s
          | None => true
          end)
    = negb (match start_date announcement with
            | Some (String c s) => fromisoformat (String c s)
            | _ => true
            end)).
  { destruct (start_date announcement) as [[|c s]|]; reflexivity. }
  rewrite Start.
  destruct (match start_date announcement with
            | Some (String c s) => fromisoformat (String c s)
            | _ => true
            end); reflexivity.
Qed.

(** X13.  How [create_announcement] ends.  Without a stored teacher
    under the user name it raises 401, whatever the dates; with one and a
    date that does not parse it raises 400; in both cases the database is
    left as it was.  Otherwise it returns the document it built.  It
    raises nothing but these [HTTPException]s. *)
Theorem create_announcement_outcomes (fromisoformat : string -> bool)
    (db : database) (announcement : AnnouncementCreate)
    (username uuid4 utcnow : string) :
  let created :=
    create_announcement fromisoformat db announcement username uuid4 utcnow in
  (authenticated db username = false ->
     created = (db, HTTPException 401 "Not authenticated")) /\
  (authenticated db username = true ->
   create_accepts fromisoformat announcement = false ->
     fst created = db /\
     exists detail, snd created = HTTPException 400 detail) /\
  (authenticated db username = true ->
   create_accepts fromisoformat announcement = true ->
     snd created = Return (announcement_doc announcement username uuid4 utcnow)) /\
  (forall e, snd created <> Uncaught e).
Proof.
  intro created. unfold created. rewrite create_announcement_unfold.
  split; [|split; [|split]].
  - now intros ->.
  - intros -> ->. split; [reflexivity | eexists; reflexivity].
  - now intros -> ->.
  - intro e. destruct (authenticated db username);
      [destruct (create_accepts fromisoformat announcement)|]; discriminate.
Qed.

Lemma create_announcement_outcomes_witness :
  create_announcement ten_characters seeded_database sample_create
    "nobody" "0001" "2026-03-01T09:00:00"
  = (seeded_database, HTTPException 401 "Not authenticated").
Proof.
  apply (proj1 (create_announcement_outcomes ten_characters seeded_database
                  sample_create "nobody" "0001" "2026-03-01T09:00:00")).
  reflexivity.
Defined.

Lemma announcement_id_differs (a b : string) :
  a <> b -> key_norm (VStr a) <> key_norm (VStr b).
Proof. intros NE [= E]. contradiction. Qed.

(** X14.  Round trip of [create_announcement].  After a call that is
    accepted, [find_one] under the new identifier returns the fields of
    the returned document (its body followed by the identifier); the
    announcements stored under other identifiers, the teachers and the
    activities are as before; and when the identifier was not in use,
    [get_all_announcements] lists the former announcements followed by
    the new one. *)
Theorem create_announcement_round_trip (fromisoformat : string -> bool)
    (db : database) (announcement : AnnouncementCreate)
    (username uuid4 utcnow : string) :
  authenticated db username = true ->
  create_accepts fromisoformat announcement = true ->
  let db' := fst (create_announcement fromisoformat db announcement
                    username uuid4 utcnow) in
  let id := announcement_id_of uuid4 in
  let found := announcement_body announcement username utcnow
               ++ [("_id", VStr id)] in
  find_one (announcements_collection db') [("_id", VStr id)] = Ok (Some found) /\
  same_bindings found (announcement_doc announcement username uuid4 utcnow) /\
  (forall other, other <> id ->
     sget (VStr other) (announcements_collection db')
     = sget (VStr other) (announcements_collection db)) /\
  teachers_collection db' = teachers_collection db /\
  activities_collection db' = activities_collection db /\
  (smem (VStr id) (announcements_collection db) = false ->
     get_all_announcements db' username
     = Return (map attach_id (announcements_collection db) ++ [found])).
Proof.
  intros A C db' id found. unfold db'.
  rewrite create_announcement_unfold, A, C. cbn [fst].
  unfold set_announcements. cbn [announcements_collection teachers_collection
                                  activities_collection].
  fold id.
  assert (F : find_one
                (sset (VStr id) (announcement_body announcement username utcnow)
                   (announcements_collection db)) [("_id", VStr id)]
              = Ok (Some found)).
  { rewrite (find_one_found _ [("_id", VStr id)] (VStr id)
               (announcement_body announcement username utcnow)
               eq_refl eq_refl (sget_sset_same (VStr id) _ _ eq_refl));
      [reflexivity|].
    discriminate. }
  split; [exact F|]. split; [|split; [|split; [|split]]]; try reflexivity.
  - intro k. unfold found, announcement_body, announcement_doc. fold id.
    unfold dget. cbn [od_get app].
    destruct (String.eqb "message" k) eqn:E1;
      [apply String.eqb_eq in E1; subst k; reflexivity|].
    destruct (String.eqb "start_date" k) eqn:E2;
      [apply String.eqb_eq in E2; subst k; reflexivity|].
    destruct (String.eqb "expiration_date" k) eqn:E3;
      [apply String.eqb_eq in E3; subst k; reflexivity|].
    destruct (String.eqb "created_by" k) eqn:E4;
      [apply String.eqb_eq in E4; subst k; reflexivity|].
    destruct (String.eqb "created_at" k) eqn:E5;
      [apply String.eqb_eq in E5; subst k; reflexivity|].
    reflexivity.
  - intros other NE. apply sget_sset_other; try reflexivity.
    apply announcement_id_differs. congruence.
  - intro M. unfold get_all_announcements.
    rewrite verify_authenticated_user_unfold.
    unfold authenticated in *.
    cbn [announcements_collection teachers_collection]. rewrite A.
    assert (E : find (sset (VStr id)
                        (announcement_body announcement username utcnow)
                        (announcements_collection db)) (Some [])
                = Ok (map attach_id (announcements_collection db) ++ [found])).
    { unfold sset. rewrite (od_set_absent _ _ _ _ M).
      change (find ?s (Some [])) with (find s None).
      rewrite find_all, map_app. reflexivity. }
    now rewrite E.
Qed.

Lemma create_announcement_round_trip_witness :
  find_one
    (announcements_collection
       (fst (create_announcement ten_characters seeded_database sample_create
               "principal" "0001" "2026-03-01T09:00:00")))
    [("_id", VStr "announcement-0001")]
  = Ok (Some (announcement_body sample_create "principal" "2026-03-01T09:00:00"
              ++ [("_id", VStr "announcement-0001")])).
Proof.
  apply (proj1 (create_announcement_round_trip ten_characters seeded_database
                  sample_create "principal" "0001" "2026-03-01T09:00:00"
                  eq_refl eq_refl)).
Defined.

(** *** update_announcement *)

Lemma update_fields_given (fromisoformat : string -> bool)
    (announcement : AnnouncementUpdate) :
  date_accepted fromisoformat (update_start_date announcement) = true ->
  date_accepted fromisoformat (update_expiration_date announcement) = true ->
  exists fields,
    add_date fromisoformat "start_date" (update_start_date announcement)
      (add_message announcement []) = Some fields /\
    add_date fromisoformat "expiration_date"
      (update_expiration_date announcement) fields
    = Some (given_fields announcement).
Proof.
  unfold add_date, add_message, given_fields, date_accepted.
  destruct announcement as [[m|] [s|] [e|]]; simpl;
    intros S E; rewrite ?S, ?E; eexists; split; reflexivity.
Qed.

Lemma find_one_truthy (self : store) (key : string) :
  find_one self [("_id", VStr key)]
  = Ok (if truthy (sget (VStr key) self)
        then Some (dset "_id" (VStr key) (stored_body self key))
        else None).
Proof.
  rewrite find_one_unfold. simpl dget. cbv iota. simpl hashable. cbv iota.
  unfold stored_body.
  destruct (sget (VStr key) self) as [[|f body]|]; reflexivity.
Qed.

Lemma truthy_found (self : store) (key : string) :
  truthy (if truthy (sget (VStr key) self)
          then Some (dset "_id" (VStr key) (stored_body self key))
          else None)
  = truthy (sget (VStr key) self).
Proof.
  destruct (truthy (sget (VStr key) self)); [apply truthy_dset | reflexivity].
Qed.

Lemma set_fields_read_back (self : store) (key : string) (doc fields : dict) :
  sget (VStr key) self = Some doc -> doc <> [] ->
  update_one self [("_id", VStr key)] [("$set", VDict fields)]
    = (sset (VStr key) (fold_left set_field fields doc) self,
       Ok {| modified_count := 1 |}) /\
  find_one (sset (VStr key) (fold_left set_field fields doc) self)
           [("_id", VStr key)]
    = Ok (Some (dset "_id" (VStr key) (fold_left set_field fields doc))).
Proof.
  intros S NE. split.
  - apply (update_one_found self [("_id", VStr key)] [("$set", VDict fields)]
             (VStr key) doc eq_refl eq_refl S eq_refl).
  - apply (find_one_found _ [("_id", VStr key)] (VStr key)); try reflexivity.
    + now apply sget_sset_same.
    + apply fold_nonempty; [|exact NE]. intros d kv _. apply dset_nonempty.
Qed.

Lemma update_announcement_unfold (fromisoformat : string -> bool)
    (db : database) (announcement_id : string)
    (announcement : AnnouncementUpdate) (username : string) :
  update_announcement fromisoformat db announcement_id announcement username =
  if authenticated db username then
    if truthy (sget (VStr announcement_id) (announcements_collection db)) then
      if date_accepted fromisoformat (update_start_date announcement) then
        if date_accepted fromisoformat (update_expiration_date announcement) then
          if py_truthy (VDict (given_fields announcement)) then
            let doc := fold_left set_field (given_fields announcement)
                         (stored_body (announcements_collection db)
                            announcement_id) in
            (set_announcements db
               (sset (VStr announcement_id) doc (announcements_collection db)),
             Return (Some (dset "_id" (VStr announcement_id) doc)))
          else (db, HTTPException 400 "No fields to update")
        else (db, HTTPException 400
                    "Invalid expiration_date format. Use YYYY-MM-DD")
      else (db, HTTPException 400 "Invalid start_date format. Use YYYY-MM-DD")
    else (db, HTTPException 404 "Announcement not found")
  else (db, HTTPException 401 "Not authenticated").
Proof.
  unfold update_announcement.
  rewrite verify_authenticated_user_unfold.
  destruct (authenticated db username); [|reflexivity].
  rewrite find_one_truthy, truthy_found.
  destruct (truthy (sget (VStr announcement_id) (announcements_collection db)))
    eqn:T; [|reflexivity].
  cbn [negb].
  destruct (date_accepted fromisoformat (update_start_date announcement)) eqn:S.
  - destruct (date_accepted fromisoformat (update_expiration_date announcement))
      eqn:E.
    + destruct (update_fields_given fromisoformat announcement S E)
        as (fields & -> & ->).
      destruct (py_truthy (VDict (given_fields announcement))); [|reflexivity].
      cbn [negb]. unfold stored_body.
      destruct (sget (VStr announcement_id) (announcements_collection db))
        as [[|f doc]|] eqn:G; try discriminate T.
      destruct (set_fields_read_back (announcements_collection db)
                  announcement_id (f :: doc) (given_fields announcement) G)
        as [-> ->]; [discriminate | reflexivity].
    + unfold add_date, date_accepted in *.
      destruct (update_start_date announcement) as [s|];
        [rewrite S|];
        (destruct (update_expiration_date announcement) as [e|];
         [rewrite E; reflexivity | discriminate E]).
  - unfold add_date, date_accepted in *.
    destruct (update_start_date announcement) as [s|];
      [rewrite S; reflexivity | discriminate S].
Qed.

Lemma given_fields_read (announcement : AnnouncementUpdate) (doc : dict) (k : string) :
  dget k (fold_left set_field (given_fields announcement) doc) =
  if String.eqb k "message"
  then updated_value (update_message announcement) (dget k doc)
  else if String.eqb k "start_date"
  then updated_value (update_start_date announcement) (dget k doc)
  else if String.eqb k "expiration_date"
  then updated_value (update_expiration_date announcement) (dget k doc)
  else dget k doc.
Proof.
  unfold given_fields, given_field, set_field.
  destruct (String.eqb_spec k "message") as [->|N1];
    [|destruct (String.eqb_spec k "start_date") as [->|N2];
      [|destruct (String.eqb_spec k "expiration_date") as [->|N3]]];
    destruct announcement as [[m|] [s|] [e|]]; cbn [app fold_left fst snd
      update_message update_start_date update_expiration_date updated_value];
    repeat first [ rewrite dget_dset_same
                 | rewrite dget_dset_other by congruence ];
    reflexivity.
Qed.

(** X15.  What [update_announcement] returns.  For an authenticated
    user, a stored announcement with at least one field, dates that
    parse and at least one field given, the call returns the
    announcement as stored afterwards: each of message, start date and
    expiration date holds the value given for it, or its old value when
    none was given; every other field is as it was; the identifier is the
    one asked for.  The collection keeps its identifiers, and the
    teachers are not touched. *)
Theorem update_announcement_result (fromisoformat : string -> bool)
    (db : database) (announcement_id : string)
    (announcement : AnnouncementUpdate) (username : string) (doc : dict) :
  authenticated db username = true ->
  sget (VStr announcement_id) (announcements_collection db) = Some doc ->
  doc <> [] ->
  date_accepted fromisoformat (update_start_date announcement) = true ->
  date_accepted fromisoformat (update_expiration_date announcement) = true ->
  given_fields announcement <> [] ->
  let updated := update_announcement fromisoformat db announcement_id
                   announcement username in
  exists found,
    snd updated = Return (Some found) /\
    dget "_id" found = Some (VStr announcement_id) /\
    dget "message" found
      = updated_value (update_message announcement) (dget "message" doc) /\
    dget "start_date" found
      = updated_value (update_start_date announcement) (dget "start_date" doc) /\
    dget "expiration_date" found
      = updated_value (update_expiration_date announcement)
          (dget "expiration_date" doc) /\
    (forall k, k <> "_id" -> k <> "message" -> k <> "start_date" ->
       k <> "expiration_date" -> dget k found = dget k doc) /\
    map fst (announcements_collection (fst updated))
      = map fst (announcements_collection db) /\
    teachers_collection (fst updated) = teachers_collection db.
Proof.
  intros A G NE S E F updated. unfold updated.
  rewrite update_announcement_unfold, A, G, S, E.
  assert (T : truthy (Some doc) = true) by (destruct doc; [contradiction | reflexivity]).
  rewrite T.
  assert (P : py_truthy (VDict (given_fields announcement)) = true).
  { destruct (given_fields announcement); [contradiction | reflexivity]. }
  rewrite P. cbv zeta. unfold stored_body. rewrite G. cbn [fst snd].
  eexists. split; [reflexivity|].
  split; [apply dget_dset_same|].
  repeat split.
  - rewrite dget_dset_other by discriminate. now rewrite given_fields_read.
  - rewrite dget_dset_other by discriminate. now rewrite given_fields_read.
  - rewrite dget_dset_other by discriminate. now rewrite given_fields_read.
  - intros k N0 N1 N2 N3. rewrite dget_dset_other by congruence.
    rewrite given_fields_read.
    apply String.eqb_neq in N1, N2, N3. now rewrite N1, N2, N3.
  - apply od_set_present. unfold od_mem.
    fold (sget (VStr announcement_id) (announcements_collection db)).
    now rewrite G.
Qed.

Lemma update_announcement_result_witness :
  exists found,
    snd (update_announcement ten_characters seeded_database "announcement-1"
           sample_update "principal") = Return (Some found) /\
    dget "message" found = Some (VStr "Registration closes on Friday") /\
    dget "start_date" found = Some (VStr "2026-02-01").
Proof.
  destruct (update_announcement_result ten_characters seeded_database
              "announcement-1" sample_update "principal"
              (dpop "_id" announcement_1) eq_refl eq_refl)
    as (found & R & _ & M & S & _); try reflexivity; try discriminate.
  exists found. auto.
Defined.

(** X16.  How [update_announcement] refuses.  It raises 401 for a user
    who is not authenticated, 404 when no announcement with a field is
    stored under the identifier, and 400 when a given date does not parse
    or no field is given; in each case the database is left as it was.
    It raises nothing but these [HTTPException]s. *)
Theorem update_announcement_rejections (fromisoformat : string -> bool)
    (db : database) (announcement_id : string)
    (announcement : AnnouncementUpdate) (username : string) :
  let updated := update_announcement fromisoformat db announcement_id
                   announcement username in
  let stored :=
    truthy (sget (VStr announcement_id) (announcements_collection db)) in
  (authenticated db username = false ->
     updated = (db, HTTPException 401 "Not authenticated")) /\
  (authenticated db username = true -> stored = false ->
     updated = (db, HTTPException 404 "Announcement not found")) /\
  (authenticated db username = true -> stored = true ->
   date_accepted fromisoformat (update_start_date announcement) = false \/
   date_accepted fromisoformat (update_expiration_date announcement) = false \/
   given_fields announcement = [] ->
     fst updated = db /\ exists detail, snd updated = HTTPException 400 detail) /\
  (forall e, snd updated <> Uncaught e).
Proof.
  intros updated stored. unfold updated, stored.
  rewrite update_announcement_unfold.
  split; [|split; [|split]].
  - now intros ->.
  - now intros -> ->.
  - intros -> -> R.
    destruct (date_accepted fromisoformat (update_start_date announcement));
      [|split; [reflexivity | eexists; reflexivity]].
    destruct (date_accepted fromisoformat (update_expiration_date announcement));
      [|split; [reflexivity | eexists; reflexivity]].
    destruct R as [R|[R|R]]; try discriminate R.
    rewrite R. split; [reflexivity | eexists; reflexivity].
  - intro e.
    destruct (authenticated db username); [|discriminate].
    destruct (truthy _); [|discriminate].
    destruct (date_accepted _ (update_start_date announcement)); [|discriminate].
    destruct (date_accepted _ (update_expiration_date announcement));
      [|discriminate].
    destruct (py_truthy _); discriminate.
Qed.

Lemma update_announcement_rejections_witness :
  update_announcement ten_characters seeded_database "announcement-2"
    sample_update "principal"
  = (seeded_database, HTTPException 404 "Announcement not found").
Proof.
  apply (proj1 (proj2 (update_announcement_rejections ten_characters
                         seeded_database "announcement-2" sample_update
                         "principal"))); reflexivity.
Defined.

(** *** delete_announcement *)

Lemma od_pop_length {K V : Type} (eqb : K -> K -> bool) (k : K)
    (d : list (K * V)) :
  od_mem eqb k d = true -> S (List.length (od_pop eqb k d)) = List.length d.
Proof.
  unfold od_mem. induction d as [|[k0 v0] d IH]; simpl; [discriminate|].
  destruct (eqb k0 k); simpl; intro M; [reflexivity | now rewrite IH].
Qed.

Lemma od_pop_set_absent {K V : Type} (eqb : K -> K -> bool) (k : K) (v : V)
    (d : list (K * V)) :
  eqb k k = true -> od_mem eqb k d = false ->
  od_pop eqb k (od_set eqb k v d) = d.
Proof.
  intro R. unfold od_mem. induction d as [|[k0 v0] d IH]; simpl.
  - now rewrite R.
  - destruct (eqb k0 k) eqn:E; [discriminate|]. simpl. rewrite E.
    intro M. now rewrite IH.
Qed.

Lemma delete_announcement_unfold (db : database)
    (announcement_id username : string) :
  delete_announcement db announcement_id username =
  if authenticated db username then
    if truthy (sget (VStr announcement_id) (announcements_collection db)) then
      (set_announcements db
         (spop (VStr announcement_id) (announcements_collection db)),
       Return deleted_reply)
    else (db, HTTPException 404 "Announcement not found")
  else (db, HTTPException 401 "Not authenticated").
Proof.
  unfold delete_announcement.
  rewrite verify_authenticated_user_unfold.
  destruct (authenticated db username); [|reflexivity].
  rewrite find_one_truthy, truthy_found.
  destruct (truthy _); reflexivity.
Qed.

(** X17.  What [delete_announcement] removes.  In a collection with
    pairwise different identifiers, deleting a stored announcement as an
    authenticated user returns the success reply and removes that
    announcement and no other: [find_one] no longer finds it, the
    announcements under other identifiers are as before, the collection
    is one document shorter, and deleting it again raises 404.  A user
    who is not authenticated gets 401, an identifier without a stored
    announcement 404, and the database is then left as it was. *)
Theorem delete_announcement_removes (db : database)
    (announcement_id username : string) :
  let deleted := delete_announcement db announcement_id username in
  let stored :=
    truthy (sget (VStr announcement_id) (announcements_collection db)) in
  (authenticated db username = false ->
     deleted = (db, HTTPException 401 "Not authenticated")) /\
  (authenticated db username = true -> stored = false ->
     deleted = (db, HTTPException 404 "Announcement not found")) /\
  (authenticated db username = true -> stored = true ->
   store_wf (announcements_collection db) ->
     snd deleted = Return deleted_reply /\
     find_one (announcements_collection (fst deleted))
       [("_id", VStr announcement_id)] = Ok None /\
     (forall other, other <> announcement_id ->
        sget (VStr other) (announcements_collection (fst deleted))
        = sget (VStr other) (announcements_collection db)) /\
     S (List.length (announcements_collection (fst deleted)))
       = List.length (announcements_collection db) /\
     teachers_collection (fst deleted) = teachers_collection db /\
     snd (delete_announcement (fst deleted) announcement_id username)
       = HTTPException 404 "Announcement not found").
Proof.
  intros deleted stored. unfold deleted, stored.
  rewrite delete_announcement_unfold.
  split; [|split].
  - now intros ->.
  - now intros -> ->.
  - intros A T W. rewrite A, T. cbn [fst snd].
    unfold set_announcements.
    cbn [announcements_collection teachers_collection].
    assert (Gone : sget (VStr announcement_id)
                     (spop (VStr announcement_id) (announcements_collection db))
                   = None).
    { apply (od_get_pop_same _ _ _ py_eq_norm); [reflexivity | |apply W].
      apply store_wf_keys, W. }
    split; [reflexivity|]. split; [|split; [|split; [|split]]].
    + now rewrite find_one_truthy, Gone.
    + intros other NE.
      apply (od_get_pop_other _ _ _ py_eq_norm); try reflexivity.
      apply announcement_id_differs. congruence.
    + apply od_pop_length. unfold od_mem.
      fold (sget (VStr announcement_id) (announcements_collection db)).
      destruct (sget (VStr announcement_id) (announcements_collection db));
        [reflexivity | discriminate T].
    + reflexivity.
    + rewrite delete_announcement_unfold. unfold authenticated in *.
      cbn [announcements_collection teachers_collection].
      now rewrite A, Gone.
Qed.

Lemma delete_announcement_removes_witness :
  find_one
    (announcements_collection
       (fst (delete_announcement seeded_database "announcement-1" "principal")))
    [("_id", VStr "announcement-1")] = Ok None.
Proof.
  refine (proj1 (proj2 (proj2 (proj2 (delete_announcement_removes
            seeded_database "announcement-1" "principal")) eq_refl eq_refl _))).
  split; [repeat constructor | reflexivity].
Defined.

(** X18.  Deleting what was just created.  When the identifier of a new
    announcement was not in use, creating the announcement and deleting
    it again gives back the database as it was before the two calls. *)
Theorem create_then_delete_restores (fromisoformat : string -> bool)
    (db : database) (announcement : AnnouncementCreate)
    (username uuid4 utcnow : string) :
  authenticated db username = true ->
  create_accepts fromisoformat announcement = true ->
  smem (VStr (announcement_id_of uuid4)) (announcements_collection db) = false ->
  delete_announcement
    (fst (create_announcement fromisoformat db announcement username
            uuid4 utcnow))
    (announcement_id_of uuid4) username
  = (db, Return deleted_reply).
Proof.
  intros A C M.
  rewrite create_announcement_unfold, A, C. cbn [fst].
  rewrite delete_announcement_unfold. unfold authenticated in *.
  unfold set_announcements.
  cbn [announcements_collection teachers_collection activities_collection].
  rewrite A, (sget_sset_same (VStr (announcement_id_of uuid4)) _ _ eq_refl).
  cbn [truthy announcement_body].
  unfold spop, sset. rewrite od_pop_set_absent; [|apply String.eqb_refl|exact M].
  destruct db; reflexivity.
Qed.

Lemma create_then_delete_restores_witness :
  delete_announcement
    (fst (create_announcement ten_characters seeded_database sample_create
            "principal" "0001" "2026-03-01T09:00:00"))
    "announcement-0001" "principal"
  = (seeded_database, Return deleted_reply).
Proof.
  apply (create_then_delete_restores ten_characters seeded_database
           sample_create "principal" "0001" "2026-03-01T09:00:00");
    reflexivity.
Defined.
